(** * phoebe_phitter: the log-posterior pipeline of the two MCMC fitters

    A shallow embedding of [mcmc_fit.py] (class [mcmc_fitter_rad_interp]) and
    of [phitter/mcmc_fit_bb_wRV.py] (class [mcmc_fitter_bb]), with the filter
    objects of [phitter/filters.py] and the mesh light-curve functions of
    [phitter/mesh_animate.py].

    Modelling conventions.
    - A Python / numpy [float64] is a primitive binary64 [float]; NaN and the
      infinities behave as IEEE 754 prescribes.
    - A one-dimensional numpy array is a [list float]; an index array is a
      [list Z].
    - A Python exception is a value [Raises e]; a method that can raise
      returns an [outcome].
    - Calls into the collaborators that are not part of these two files
      ([lc_calc], [lc_calc_wRV], the isochrone object, the blackbody
      parameter object) are recorded in a call log, so that "the forward
      model is not invoked" is a statement about that log.
    - An astropy quantity is modelled by its magnitude: attaching a unit
      ([x * u.deg]) leaves the number unchanged. Where astropy refuses an
      operation because of a unit (a Quantity compared or added to a bare
      number, [np.log10] of a distance), the model raises what astropy
      raises: which values carry a unit is read off the toggles of the
      fitter.
    - [np.power], [np.log] and [np.log10] are taken from a record [libm];
      [np.sqrt] is the correctly rounded IEEE square root. *)

From Stdlib Require Import Floats ZArith List Bool String Lia.
Import ListNotations.

Set Implicit Arguments.
Set Warnings "-inexact-float".

Local Open Scope float_scope.

(** ** Python values and numpy arrays *)

Module Np.

Inductive exn : Type :=
| IndexError
| ValueError
| KeyError
| UnitConversionError
| UnitTypeError.

Inductive outcome (A : Type) : Type :=
| Returns (a : A)
| Raises (e : exn).
Arguments Returns {A} a.
Arguments Raises {A} e.

Definition obind {A B} (m : outcome A) (f : A -> outcome B) : outcome B :=
  match m with
  | Returns a => f a
  | Raises e => Raises e
  end.

Definition ndarray := list float.

(** [np.isfinite], [np.isnan] on a scalar. *)
Definition isfinite (x : float) : bool := is_finite x.
Definition isnan (x : float) : bool := is_nan x.

(** [a[i]] for an integer [i]: negative indices count from the end. *)
Definition getitem (a : ndarray) (i : Z) : outcome float :=
  let n := Z.of_nat (List.length a) in
  let j := if (i <? 0)%Z then (i + n)%Z else i in
  if ((j <? 0) || (n <=? j))%Z then Raises IndexError
  else match nth_error a (Z.to_nat j) with
       | Some x => Returns x
       | None => Raises IndexError
       end.

(** [a[inds]] for an integer index array. *)
Fixpoint take (a : ndarray) (inds : list Z) : outcome ndarray :=
  match inds with
  | [] => Returns []
  | i :: rest =>
      obind (getitem a i) (fun x =>
      obind (take a rest) (fun xs => Returns (x :: xs)))
  end.

(** Element-wise binary operation with numpy's broadcasting rule for
    one-dimensional operands. *)
Definition broadcast (f : float -> float -> float) (a b : ndarray)
  : outcome ndarray :=
  if Nat.eqb (List.length a) (List.length b)
  then Returns (map (fun p => f (fst p) (snd p)) (combine a b))
  else match a, b with
       | [x], _ => Returns (map (fun y => f x y) b)
       | _, [y] => Returns (map (fun x => f x y) a)
       | _, _ => Raises ValueError
       end.

(** [a ** 2.] on an array: numpy squares the elements. *)
Definition square (a : ndarray) : ndarray := map (fun x => x * x) a.

(** [a + s] and [a += s] for a scalar [s]. *)
Definition add_scalar (a : ndarray) (s : float) : ndarray :=
  map (fun x => x + s) a.

(** [np.sum] on a one-dimensional [float64] array is the [add] reduction:
    it starts from [0.] and adds numpy's pairwise sum of the elements
    ([DOUBLE_pairwise_sum]).

    Up to [128] elements the pairwise sum takes the first eight elements
    as eight running sums, adds every further full block of eight to
    them, combines the eight sums as a tree and adds what is left, at most
    seven elements, one after the other. *)
Fixpoint sum_unrolled (r0 r1 r2 r3 r4 r5 r6 r7 : float) (a : ndarray)
  : float :=
  match a with
  | x0 :: x1 :: x2 :: x3 :: x4 :: x5 :: x6 :: x7 :: rest =>
      sum_unrolled (r0 + x0) (r1 + x1) (r2 + x2) (r3 + x3)
                   (r4 + x4) (r5 + x5) (r6 + x6) (r7 + x7) rest
  | _ =>
      let res := ((r0 + r1) + (r2 + r3)) + ((r4 + r5) + (r6 + r7)) in
      fold_left add a res
  end.

(** Fewer than eight elements are added one after the other. *)
Definition sum_block (a : ndarray) : float :=
  match a with
  | x0 :: x1 :: x2 :: x3 :: x4 :: x5 :: x6 :: x7 :: rest =>
      sum_unrolled x0 x1 x2 x3 x4 x5 x6 x7 rest
  | _ => fold_left add a 0
  end.

(** More than [128] elements are split in two, the first part of
    [n / 2] elements rounded down to a multiple of eight, and the sums of
    the parts are added. [depth] bounds the depth of the splitting; the
    length of the array is more than enough. *)
Fixpoint pairwise_sum (depth : nat) (a : ndarray) : float :=
  let n := List.length a in
  if (n <=? 128)%nat then sum_block a
  else match depth with
       | O => sum_block a
       | S depth' =>
           let n2 := (n / 2)%nat in
           let n2 := (n2 - n2 mod 8)%nat in
           pairwise_sum depth' (firstn n2 a) + pairwise_sum depth' (skipn n2 a)
       end.

Definition sum (a : ndarray) : float := 0 + pairwise_sum (List.length a) a.

(** [np.where(np.logical_not(np.isnan(a)))]: the positions that hold a
    number. *)
Fixpoint where_not_nan_from (k : Z) (a : ndarray) : list Z :=
  match a with
  | [] => []
  | x :: rest =>
      if isnan x then where_not_nan_from (k + 1) rest
      else k :: where_not_nan_from (k + 1) rest
  end.
Definition where_not_nan (a : ndarray) : list Z := where_not_nan_from 0 a.

(** [np.maximum] and [np.max(np.abs([a, b]))]. *)
Definition maximum (a b : float) : float :=
  if (b <=? a) || isnan a then a else b.
Definition max_abs2 (a b : float) : float := maximum (abs a) (abs b).

Definition pi : float := 0x1.921fb54442d18p+1.

(** The transcendental functions of the C library numpy relies on. *)
Record libm : Type := {
  power : float -> float -> float;
  log : float -> float;
  log10 : float -> float
}.

(** [lo <= x <= hi] *)
Definition between (lo x hi : float) : bool := (lo <=? x) && (x <=? hi).

End Np.

Import Np.

(** ** Collaborator calls and the call log *)

Inductive call : Type :=
| rad_interp_call
| calc_stellar_params_call
| single_star_lc_call
| binary_star_lc_call
| dist_ext_mag_calc_call
| flux_adj_call
| phased_obs_call.

(** A computation returns a value or raises, and logs the collaborator
    calls it made on the way. *)
Definition M (A : Type) : Type := (list call * outcome A)%type.

Definition ret {A} (a : A) : M A := ([], Returns a).
Definition raise {A} (e : exn) : M A := ([], Raises e).
Definition lift {A} (o : outcome A) : M A := ([], o).
Definition invoke {A} (c : call) (a : A) : M A := ([c], Returns a).

Definition bind {A B} (m : M A) (f : A -> M B) : M B :=
  match m with
  | (log1, Returns a) => let (log2, r) := f a in (log1 ++ log2, r)
  | (log1, Raises e) => (log1, Raises e)
  end.

Declare Scope py_scope.
Delimit Scope py_scope with py.
Notation "x <- m ;; k" := (bind m (fun x => k))
  (at level 61, m at next level, right associativity) : py_scope.
Notation "' p <- m ;; k" := (bind m (fun x => match x with p => k end))
  (at level 61, p pattern, m at next level, right associativity) : py_scope.

Definition calls {A} (m : M A) : list call := fst m.
Definition result {A} (m : M A) : outcome A := snd m.

(** [(a[0] == -1.) or (b[0] == -1.)]: Python's [or] does not evaluate its
    second operand when the first one holds. *)
Definition is_sentinel (a : ndarray) : outcome bool :=
  obind (getitem a 0) (fun x => Returns (x =? (-1))).

Definition either_failed (a b : ndarray) : outcome bool :=
  obind (is_sentinel a) (fun fa => if fa then Returns true else is_sentinel b).

(** One band's chi-square sum
    [np.sum((obs[inds] - model)**2. / (errors[inds])**2.)]. *)
Definition chi_square (obs errors : ndarray) (inds : list Z) (model : ndarray)
  : outcome float :=
  obind (take obs inds) (fun o =>
  obind (broadcast sub o model) (fun d =>
  obind (take errors inds) (fun e =>
  obind (broadcast div (square d) (square e)) (fun q =>
  Returns (Np.sum q))))).

Local Open Scope py_scope.

(** ** The radius-interpolation fitter, [mcmc_fit.py] *)

Module RadInterp.

(** [star_params_all = (mass_init, mass, rad, lum, teff, mag_Kp, mag_H)] *)
Record params_all : Type := {
  star_mass_init : float;
  star_mass : float;
  star_rad : float;
  star_lum : float;
  star_teff : float;
  star_mag_Kp : float;
  star_mag_H : float
}.

(** [(binary_period, binary_ecc, binary_inc, t0)] *)
Definition binary_params : Type := (float * float * float * float)%type.

(** [(phased_days, phases_sorted_inds, model_times)] *)
Definition phase_out : Type := (ndarray * list Z * ndarray)%type.

(** The isochrone object built by [isoc_interp.isochrone_mist]. *)
Record isochrone_mist (lcfit : Type) : Type := {
  iso_rad_min : float;
  iso_rad_max : float;
  rad_interp : float -> params_all * lcfit
}.

(** The functions of the module [lc_calc] the fitter calls. *)
Record lc_calc (lcfit : Type) : Type := {
  single_star_lc : lcfit -> bool -> Z -> ndarray * ndarray;
  binary_star_lc :
    lcfit -> lcfit -> binary_params -> ndarray * ndarray -> bool -> Z ->
    ndarray * ndarray;
  dist_ext_mag_calc :
    ndarray * ndarray -> float -> float -> float -> ndarray * ndarray;
  flux_adj :
    ndarray * ndarray -> float * float ->
    ndarray * ndarray -> float * float ->
    ndarray * ndarray -> ndarray * ndarray;
  phased_obs : ndarray * ndarray -> float -> float -> phase_out * phase_out
}.

(** The attributes of an instance, class-level defaults included. *)
Record mcmc_fitter_rad_interp (lcfit : Type) : Type := {
  lambda_Ks : float;
  lambda_Kp : float;
  lambda_H : float;
  ext_alpha : float;
  use_blackbody_atm : bool;
  model_numTriangles : Z;
  model_eccentricity : bool;
  lo_Kp_ext_prior_bound : float;
  hi_Kp_ext_prior_bound : float;
  lo_H_ext_mod_prior_bound : float;
  hi_H_ext_mod_prior_bound : float;
  lo_inc_prior_bound : float;
  hi_inc_prior_bound : float;
  lo_period_prior_bound : float;
  hi_period_prior_bound : float;
  lo_ecc_prior_bound : float;
  hi_ecc_prior_bound : float;
  lo_t0_prior_bound : float;
  hi_t0_prior_bound : float;
  (* make_isochrone *)
  Ks_ext : float;
  dist : float;
  isochrone : isochrone_mist lcfit;
  Kp_ext : float;
  H_ext : float;
  (* set_observation_times, set_observation_mags *)
  observation_times : ndarray * ndarray;
  kp_obs_mags : ndarray;
  h_obs_mags : ndarray;
  kp_obs_mag_errors : ndarray;
  h_obs_mag_errors : ndarray
}.

(** The eight quantities the three methods unpack from [theta]. *)
Record unpacked : Type := {
  Kp_ext_t : float;
  H_ext_mod_t : float;
  star1_rad_t : float;
  star2_rad_t : float;
  binary_inc_t : float;
  binary_period_t : float;
  binary_ecc_t : float;
  t0_t : float
}.

(** The tuple assignment at the head of [lnprior], [calculate_model_lc]
    and [lnlike]: eight names when the eccentricity is modelled, else
    seven, the eccentricity keeping its initial [0.]. *)
Definition unpack (model_ecc : bool) (theta : list float) : outcome unpacked :=
  if model_ecc then
    match theta with
    | [a; b; c; d; e; f; g; h] =>
        Returns {| Kp_ext_t := a; H_ext_mod_t := b; star1_rad_t := c;
                   star2_rad_t := d; binary_inc_t := e;
                   binary_period_t := f; binary_ecc_t := g; t0_t := h |}
    | _ => Raises ValueError
    end
  else
    match theta with
    | [a; b; c; d; e; f; h] =>
        Returns {| Kp_ext_t := a; H_ext_mod_t := b; star1_rad_t := c;
                   star2_rad_t := d; binary_inc_t := e;
                   binary_period_t := f; binary_ecc_t := 0; t0_t := h |}
    | _ => Raises ValueError
    end.

Section Fitter.
Context {lcfit : Type}.
Variable m : libm.
Variable lc : lc_calc lcfit.
Variable self : mcmc_fitter_rad_interp lcfit.

Definition lnprior (theta : list float) : outcome float :=
  obind (unpack (model_eccentricity self) theta) (fun u =>
  let Kp_ext_check :=
    between (lo_Kp_ext_prior_bound self) (Kp_ext_t u)
            (hi_Kp_ext_prior_bound self) in
  let H_ext_mod_check :=
    between (lo_H_ext_mod_prior_bound self) (H_ext_mod_t u)
            (hi_H_ext_mod_prior_bound self) in
  let inc_check :=
    between (lo_inc_prior_bound self) (binary_inc_t u)
            (hi_inc_prior_bound self) in
  let period_check :=
    between (lo_period_prior_bound self) (binary_period_t u)
            (hi_period_prior_bound self) in
  let ecc_check :=
    between (lo_ecc_prior_bound self) (binary_ecc_t u)
            (hi_ecc_prior_bound self) in
  let t0_check :=
    between (lo_t0_prior_bound self) (t0_t u) (hi_t0_prior_bound self) in
  let iso_rad_min := iso_rad_min (isochrone self) in
  let iso_rad_max := iso_rad_max (isochrone self) in
  let rad_check :=
    (star2_rad_t u <=? star1_rad_t u)
    && between iso_rad_min (star1_rad_t u) iso_rad_max
    && between iso_rad_min (star2_rad_t u) iso_rad_max in
  if (Kp_ext_check && H_ext_mod_check) && inc_check && period_check
     && ecc_check && t0_check && rad_check
  then Returns 0
  else Returns neg_infinity).

Definition err_out : ndarray * ndarray := ([(-1)], [(-1)]).

Definition calculate_model_lc (theta : list float) : M (ndarray * ndarray) :=
  u <- lift (unpack (model_eccentricity self) theta) ;;
  let binary_inc := binary_inc_t u in
  let binary_period := binary_period_t u in
  let binary_ecc := binary_ecc_t u in
  let t0 := t0_t u in
  let bparams : binary_params := (binary_period, binary_ecc, binary_inc, t0) in
  let Kp_ext_adj := Kp_ext_t u - Kp_ext self in
  let H_ext_adj :=
    ((Kp_ext_t u * power m (lambda_Kp self / lambda_H self) (ext_alpha self))
     - H_ext self) + H_ext_mod_t u in
  '(star1_params_all, star1_params_lcfit) <-
    invoke rad_interp_call (rad_interp (isochrone self) (star1_rad_t u)) ;;
  '(star2_params_all, star2_params_lcfit) <-
    invoke rad_interp_call (rad_interp (isochrone self) (star2_rad_t u)) ;;
  '(star1_sing_mag_Kp, star1_sing_mag_H) <-
    invoke single_star_lc_call
      (single_star_lc lc star1_params_lcfit (use_blackbody_atm self)
         (model_numTriangles self)) ;;
  failed1 <- lift (either_failed star1_sing_mag_Kp star1_sing_mag_H) ;;
  if failed1 then ret err_out else
  '(star2_sing_mag_Kp, star2_sing_mag_H) <-
    invoke single_star_lc_call
      (single_star_lc lc star2_params_lcfit (use_blackbody_atm self)
         (model_numTriangles self)) ;;
  failed2 <- lift (either_failed star2_sing_mag_Kp star2_sing_mag_H) ;;
  if failed2 then ret err_out else
  star1_sing <-
    invoke dist_ext_mag_calc_call
      (dist_ext_mag_calc lc (star1_sing_mag_Kp, star1_sing_mag_H)
         (dist self) (Kp_ext self) (H_ext self)) ;;
  star2_sing <-
    invoke dist_ext_mag_calc_call
      (dist_ext_mag_calc lc (star2_sing_mag_Kp, star2_sing_mag_H)
         (dist self) (Kp_ext self) (H_ext self)) ;;
  '(binary_mags_Kp, binary_mags_H) <-
    invoke binary_star_lc_call
      (binary_star_lc lc star1_params_lcfit star2_params_lcfit bparams
         (observation_times self) (use_blackbody_atm self)
         (model_numTriangles self)) ;;
  failed3 <- lift (either_failed binary_mags_Kp binary_mags_H) ;;
  if failed3 then ret err_out else
  binary_mags <-
    invoke dist_ext_mag_calc_call
      (dist_ext_mag_calc lc (binary_mags_Kp, binary_mags_H)
         (dist self) (Kp_ext self) (H_ext self)) ;;
  '(binary_mags_Kp, binary_mags_H) <-
    invoke flux_adj_call
      (flux_adj lc star1_sing
         (star_mag_Kp star1_params_all, star_mag_H star1_params_all)
         star2_sing
         (star_mag_Kp star2_params_all, star_mag_H star2_params_all)
         binary_mags) ;;
  ret (add_scalar binary_mags_Kp Kp_ext_adj,
       add_scalar binary_mags_H H_ext_adj).

Definition lnlike (theta : list float) : M float :=
  u <- lift (unpack (model_eccentricity self) theta) ;;
  '(binary_model_mags_Kp, binary_model_mags_H) <- calculate_model_lc theta ;;
  failed <- lift (either_failed binary_model_mags_Kp binary_model_mags_H) ;;
  if failed then ret neg_infinity else
  '(kp_phase_out, h_phase_out) <-
    invoke phased_obs_call
      (phased_obs lc (observation_times self) (binary_period_t u) (t0_t u)) ;;
  let '(kp_phased_days, kp_phases_sorted_inds, kp_model_times) :=
    kp_phase_out in
  let '(h_phased_days, h_phases_sorted_inds, h_model_times) :=
    h_phase_out in
  chi_kp <- lift (chi_square (kp_obs_mags self) (kp_obs_mag_errors self)
                    kp_phases_sorted_inds binary_model_mags_Kp) ;;
  let log_likelihood := chi_kp in
  chi_h <- lift (chi_square (h_obs_mags self) (h_obs_mag_errors self)
                   h_phases_sorted_inds binary_model_mags_H) ;;
  let log_likelihood := log_likelihood + chi_h in
  let log_likelihood := (-0.5) * log_likelihood in
  ret log_likelihood.

Definition lnprob (theta : list float) : M float :=
  lp <- lift (lnprior theta) ;;
  if negb (isfinite lp) then ret neg_infinity else
  ll <- lnlike theta ;;
  ret (lp + ll).

End Fitter.

End RadInterp.

(** ** The blackbody fitter with radial velocities,
       [phitter/mcmc_fit_bb_wRV.py] *)

Module BB.

(** A filter object of [phitter/filters.py]. [filt_id] stands for the
    identity of the Python object: the dictionary [filts_ext] is keyed by
    filter objects, which are hashed by identity. *)
Record filter : Type := {
  filt_id : positive;
  filter_name : string;
  lambda_filt : float;
  dlambda_filt : float
}.

(** The module-level [kp_filt = filters.nirc2_kp_filt()] and
    [h_filt = filters.nirc2_h_filt()]. *)
Definition kp_filt : filter :=
  {| filt_id := 1; filter_name := "nirc2,Kp";
     lambda_filt := 2.124e-6; dlambda_filt := 0.351e-6 |}.
Definition h_filt : filter :=
  {| filt_id := 2; filter_name := "nirc2,H";
     lambda_filt := 1.633e-6; dlambda_filt := 0.296e-6 |}.

(** [d[key]] on a dictionary keyed by filter objects. *)
Fixpoint dict_get (d : list (filter * float)) (key : filter) : outcome float :=
  match d with
  | [] => Raises KeyError
  | (k, v) :: rest =>
      if Pos.eqb (filt_id k) (filt_id key) then Returns v
      else dict_get rest key
  end.

(** [d[key] = v]. *)
Fixpoint dict_set (d : list (filter * float)) (key : filter) (v : float)
  : list (filter * float) :=
  match d with
  | [] => [(key, v)]
  | (k, w) :: rest =>
      if Pos.eqb (filt_id k) (filt_id key) then (k, v) :: rest
      else (k, w) :: dict_set rest key v
  end.

(** [(mass_init, mass, rad, lum, teff, logg, [mag_Kp, mag_H],
     [pblum_Kp, pblum_H])] *)
Record params_all : Type := {
  star_mass_init : float;
  star_mass : float;
  star_rad : float;
  star_lum : float;
  star_teff : float;
  star_logg : float;
  star_mags : float * float;
  star_pblums : float * float
}.

Definition binary_params : Type := (float * float * float * float)%type.
Definition phase_out : Type := (ndarray * list Z * ndarray)%type.

(** The object built by [blackbody_params.bb_stellar_params]. *)
Record bb_stellar_params (lcfit : Type) : Type := {
  calc_stellar_params : float -> float -> float -> params_all * lcfit
}.

(** The functions of the module [lc_calc_wRV] the fitter calls, and the
    constructor of the blackbody parameter object. The radial velocities
    [binary_star_lc] returns are Quantities in [u.km / u.s], like the
    observed ones and the systemic velocity they are added to, and are
    given by their magnitudes. *)
Record lc_calc_wRV (lcfit : Type) : Type := {
  make_bb_stellar_params :
    float -> float -> list filter -> bb_stellar_params lcfit;
  binary_star_lc :
    lcfit -> lcfit -> binary_params -> ndarray * ndarray * ndarray ->
    bool -> bool -> float -> Z ->
    (ndarray * ndarray) * ndarray * ndarray;
  dist_ext_mag_calc :
    ndarray * ndarray -> float -> float * float -> ndarray * ndarray;
  phased_obs :
    ndarray * ndarray * ndarray -> float -> float ->
    phase_out * phase_out * phase_out
}.

(** *** Attributes of an instance *)

(** Which quantities are read from [theta], their values otherwise, and
    the relational requirements between the two stars. The defaults of the
    six stellar quantities are astropy Quantities, in [u.solMass],
    [u.solRad] and [u.K] (lines 78-94), given here by their magnitudes;
    the other defaults are bare numbers. *)
Record schema : Type := {
  default_H_ext_mod : float;
  model_H_ext_mod : bool;
  default_ecc : float;
  model_eccentricity : bool;
  default_dist : float;
  model_distance : bool;
  default_system_RV : float;
  model_system_RV : bool;
  model_star1_mass : bool;
  default_star1_mass : float;
  model_star1_rad : bool;
  default_star1_rad : float;
  model_star1_teff : bool;
  default_star1_teff : float;
  model_star2_mass : bool;
  default_star2_mass : float;
  model_star2_rad : bool;
  default_star2_rad : float;
  model_star2_teff : bool;
  default_star2_teff : float;
  star1_mass_larger : bool;
  star1_rad_larger : bool;
  star1_teff_larger : bool;
  star2_mass_larger : bool;
  star2_rad_larger : bool;
  star2_teff_larger : bool
}.

Record prior_bounds : Type := {
  lo_Kp_ext_prior_bound : float;
  hi_Kp_ext_prior_bound : float;
  lo_H_ext_mod_prior_bound : float;
  hi_H_ext_mod_prior_bound : float;
  H_ext_mod_alpha_sig_bound : float;
  lo_star1_mass_prior_bound : float;
  hi_star1_mass_prior_bound : float;
  lo_star1_rad_prior_bound : float;
  hi_star1_rad_prior_bound : float;
  lo_star1_teff_prior_bound : float;
  hi_star1_teff_prior_bound : float;
  star1_teff_sig_bound : bool;
  star1_teff_bound_mu : float;
  star1_teff_bound_sigma : float;
  lo_star2_mass_prior_bound : float;
  hi_star2_mass_prior_bound : float;
  lo_star2_rad_prior_bound : float;
  hi_star2_rad_prior_bound : float;
  lo_star2_teff_prior_bound : float;
  hi_star2_teff_prior_bound : float;
  lo_inc_prior_bound : float;
  hi_inc_prior_bound : float;
  lo_period_prior_bound : float;
  hi_period_prior_bound : float;
  lo_rv_sys_prior_bound : float;
  hi_rv_sys_prior_bound : float;
  lo_ecc_prior_bound : float;
  hi_ecc_prior_bound : float;
  lo_dist_prior_bound : float;
  hi_dist_prior_bound : float;
  lo_t0_prior_bound : float;
  hi_t0_prior_bound : float
}.

Record model_options : Type := {
  ext_alpha : float;
  ext_alpha_unc : float;
  use_blackbody_atm : bool;
  model_numTriangles : Z;
  irrad_frac_refl : float;
  model_compact : bool
}.

(** What [make_bb_params] stores. [filts_info] and [filts_flux_ref], which
    none of the methods below reads, are left out. *)
Record bb_setup (lcfit : Type) : Type := {
  Ks_ext : float;
  dist : float;
  filts_list : list filter;
  num_filts : nat;
  filts_ext : list (filter * float);
  bb_params_obj : bb_stellar_params lcfit
}.

(** What [set_observation_filts], [set_observation_times] and
    [set_observations] store. *)
Record observations : Type := {
  obs_filts_rv : list string;
  observation_times : ndarray * ndarray * ndarray;
  kp_obs_mags : ndarray;
  kp_obs_mag_errors : ndarray;
  h_obs_mags : ndarray;
  h_obs_mag_errors : ndarray;
  obs_rv_pri : ndarray;
  obs_rv_pri_errors : ndarray;
  obs_rv_sec : ndarray;
  obs_rv_sec_errors : ndarray
}.

Record mcmc_fitter_bb (lcfit : Type) : Type := {
  options : model_options;
  params : schema;
  priors : prior_bounds;
  setup : bb_setup lcfit;
  data : observations
}.

(** The class attribute [lambda_Ks = 2.18e-6 * u.m]. *)
Definition lambda_Ks : float := 2.18e-6.

(** *** Configuration methods *)

(** The assignments [self.lo_dist_prior_bound = lo] and
    [self.hi_dist_prior_bound = hi]. *)
Definition assign_dist_prior_bounds (lo hi : float) (p : prior_bounds)
  : prior_bounds :=
  {| lo_Kp_ext_prior_bound := lo_Kp_ext_prior_bound p;
     hi_Kp_ext_prior_bound := hi_Kp_ext_prior_bound p;
     lo_H_ext_mod_prior_bound := lo_H_ext_mod_prior_bound p;
     hi_H_ext_mod_prior_bound := hi_H_ext_mod_prior_bound p;
     H_ext_mod_alpha_sig_bound := H_ext_mod_alpha_sig_bound p;
     lo_star1_mass_prior_bound := lo_star1_mass_prior_bound p;
     hi_star1_mass_prior_bound := hi_star1_mass_prior_bound p;
     lo_star1_rad_prior_bound := lo_star1_rad_prior_bound p;
     hi_star1_rad_prior_bound := hi_star1_rad_prior_bound p;
     lo_star1_teff_prior_bound := lo_star1_teff_prior_bound p;
     hi_star1_teff_prior_bound := hi_star1_teff_prior_bound p;
     star1_teff_sig_bound := star1_teff_sig_bound p;
     star1_teff_bound_mu := star1_teff_bound_mu p;
     star1_teff_bound_sigma := star1_teff_bound_sigma p;
     lo_star2_mass_prior_bound := lo_star2_mass_prior_bound p;
     hi_star2_mass_prior_bound := hi_star2_mass_prior_bound p;
     lo_star2_rad_prior_bound := lo_star2_rad_prior_bound p;
     hi_star2_rad_prior_bound := hi_star2_rad_prior_bound p;
     lo_star2_teff_prior_bound := lo_star2_teff_prior_bound p;
     hi_star2_teff_prior_bound := hi_star2_teff_prior_bound p;
     lo_inc_prior_bound := lo_inc_prior_bound p;
     hi_inc_prior_bound := hi_inc_prior_bound p;
     lo_period_prior_bound := lo_period_prior_bound p;
     hi_period_prior_bound := hi_period_prior_bound p;
     lo_rv_sys_prior_bound := lo_rv_sys_prior_bound p;
     hi_rv_sys_prior_bound := hi_rv_sys_prior_bound p;
     lo_ecc_prior_bound := lo_ecc_prior_bound p;
     hi_ecc_prior_bound := hi_ecc_prior_bound p;
     lo_dist_prior_bound := lo;
     hi_dist_prior_bound := hi;
     lo_t0_prior_bound := lo_t0_prior_bound p;
     hi_t0_prior_bound := hi_t0_prior_bound p |}.

(** The assignment [self.default_dist = d]. *)
Definition assign_default_dist (d : float) (s : schema) : schema :=
  {| default_H_ext_mod := default_H_ext_mod s;
     model_H_ext_mod := model_H_ext_mod s;
     default_ecc := default_ecc s;
     model_eccentricity := model_eccentricity s;
     default_dist := d;
     model_distance := model_distance s;
     default_system_RV := default_system_RV s;
     model_system_RV := model_system_RV s;
     model_star1_mass := model_star1_mass s;
     default_star1_mass := default_star1_mass s;
     model_star1_rad := model_star1_rad s;
     default_star1_rad := default_star1_rad s;
     model_star1_teff := model_star1_teff s;
     default_star1_teff := default_star1_teff s;
     model_star2_mass := model_star2_mass s;
     default_star2_mass := default_star2_mass s;
     model_star2_rad := model_star2_rad s;
     default_star2_rad := default_star2_rad s;
     model_star2_teff := model_star2_teff s;
     default_star2_teff := default_star2_teff s;
     star1_mass_larger := star1_mass_larger s;
     star1_rad_larger := star1_rad_larger s;
     star1_teff_larger := star1_teff_larger s;
     star2_mass_larger := star2_mass_larger s;
     star2_rad_larger := star2_rad_larger s;
     star2_teff_larger := star2_teff_larger s |}.

Section Configuration.
Context {lcfit : Type}.
Variable m : libm.
Variable lc : lc_calc_wRV lcfit.

Definition set_dist_prior_bounds (lo_bound hi_bound : float)
    (self : mcmc_fitter_bb lcfit) : mcmc_fitter_bb lcfit :=
  {| options := options self;
     params := params self;
     priors := assign_dist_prior_bounds lo_bound hi_bound (priors self);
     setup := setup self;
     data := data self |}.

(** The default value of the argument [filts_list]. *)
Definition default_filts_list : list filter := [kp_filt; h_filt].

(** The loop of [make_bb_params] that fills [self.filts_ext], one
    filter of [filts_list] after the other. *)
Definition convert_extinctions (opts : model_options) (Ks_ext : float)
    (filts_list : list filter) : list (filter * float) :=
  fold_left
    (fun filts_ext cur_filt =>
       let cur_filt_ext :=
         Ks_ext * power m (lambda_Ks / lambda_filt cur_filt) (ext_alpha opts) in
       dict_set filts_ext cur_filt cur_filt_ext)
    filts_list [].

Definition make_bb_params (Ks_ext dist : float) (filts_list : list filter)
    (self : mcmc_fitter_bb lcfit) : mcmc_fitter_bb lcfit :=
  {| options := options self;
     params := assign_default_dist dist (params self);
     priors := assign_dist_prior_bounds (0.8 * dist) (1.2 * dist)
                 (priors self);
     setup :=
       {| Ks_ext := Ks_ext;
          dist := dist;
          filts_list := filts_list;
          num_filts := List.length filts_list;
          filts_ext := convert_extinctions (options self) Ks_ext filts_list;
          bb_params_obj := make_bb_stellar_params lc Ks_ext dist filts_list |};
     data := data self |}.

End Configuration.

(** *** Reading [theta] *)

(** A quantity after unpacking: its value and, when it was read from
    [theta], the index it was read at. *)
Record binding : Type := {
  value : float;
  slot : option nat
}.

Record unpacked : Type := {
  Kp_ext : binding;
  H_ext_mod : binding;
  star1_mass : binding;
  star1_rad : binding;
  star1_teff : binding;
  star2_mass : binding;
  star2_rad : binding;
  star2_teff : binding;
  binary_inc : binding;
  binary_period : binding;
  binary_rv_sys : binding;
  binary_ecc : binding;
  binary_dist : binding;
  t0 : binding;
  theta_index_end : nat
}.

(** The units of [phoebe.u] that the methods attach. *)
Inductive unit_name : Type := solMass | solRad | K | deg | d | km_s | pc.

(** [x * u.unit]: the magnitude is kept. *)
Definition in_unit (u : unit_name) (x : float) : float := x.

(** astropy's [can_have_arbitrary_unit]: the number is zero, infinite or
    NaN. Only such a bare number may be compared with, added to or
    subtracted from a Quantity that has a unit. *)
Definition can_have_arbitrary_unit (x : float) : bool :=
  (x =? 0) || negb (isfinite x).

(** [a > b] for the same stellar quantity of the two stars in [lnprior],
    where a quantity read from [theta] is a bare number and a quantity that
    is not read is the class default, a Quantity. Two numbers compare by
    value, and so do two Quantities of one unit; between a Quantity and a
    number astropy compares the values when the number can have an
    arbitrary unit and raises [UnitConversionError] otherwise. *)
Definition larger (a_free : bool) (a : float) (b_free : bool) (b : float)
  : outcome bool :=
  if Bool.eqb a_free b_free then Returns (b <? a)
  else if can_have_arbitrary_unit (if a_free then a else b)
       then Returns (b <? a)
       else Raises UnitConversionError.

(** [if flag: check = check and (a > b)]: Python's [and] does not evaluate
    the comparison when [check] is false. *)
Definition and_larger (flag check : bool)
    (a_free : bool) (a : float) (b_free : bool) (b : float) : outcome bool :=
  if flag then
    if check then larger a_free a b_free b else Returns false
  else Returns check.

(** What [lnprior] returns: a number or, when the Gaussian term of a
    temperature that is not read from [theta] went through, a Quantity in
    [K2]. *)
Inductive prior_value : Type :=
| Number (x : float)
| Kelvin2 (x : float).

Definition magnitude (v : prior_value) : float :=
  match v with Number x | Kelvin2 x => x end.

(** [lp + ll] at the end of [lnprob]. A likelihood that is finite is the
    dimensionless Quantity [lnlike] builds from the radial velocities:
    astropy adds it to a number, and raises [UnitConversionError] for a
    prior in [K2]. *)
Definition add_likelihood (lp : prior_value) (ll : float) : outcome float :=
  match lp with
  | Number lp => Returns (lp + ll)
  | Kelvin2 _ => Raises UnitConversionError
  end.

(** [theta[theta_index]] *)
Definition item (theta : list float) (theta_index : nat) : outcome float :=
  match nth_error theta theta_index with
  | Some x => Returns x
  | None => Raises IndexError
  end.

(** [x = theta[theta_index]; theta_index += 1] *)
Definition read (conv : float -> float) (theta : list float)
    (theta_index : nat) : outcome (binding * nat) :=
  obind (item theta theta_index) (fun x =>
  Returns ({| value := conv x; slot := Some theta_index |}, S theta_index)).

(** [if flag: x = theta[theta_index]; theta_index += 1
     else: x = default] *)
Definition read_if (flag : bool) (conv : float -> float) (default : float)
    (theta : list float) (theta_index : nat) : outcome (binding * nat) :=
  if flag then read conv theta theta_index
  else Returns ({| value := default; slot := None |}, theta_index).

(** [t0 = theta[theta_index]], the index is not advanced. *)
Definition read_last (theta : list float) (theta_index : nat)
  : outcome binding :=
  obind (item theta theta_index) (fun x =>
  Returns {| value := x; slot := Some theta_index |}).

Notation "' p <~ m ;; k" := (obind m (fun x => match x with p => k end))
  (at level 61, p pattern, m at next level, right associativity).
Notation "x <~ m ;; k" := (obind m (fun x => k))
  (at level 61, m at next level, right associativity).

(** Lines 320-393, the head of [lnprior]: no unit is attached. *)
Definition lnprior_unpack (s : schema) (theta : list float) : outcome unpacked :=
  let theta_index := 0%nat in
  '(Kp_ext, theta_index) <~ read id theta theta_index ;;
  '(H_ext_mod, theta_index) <~
    read_if (model_H_ext_mod s) id (default_H_ext_mod s) theta theta_index ;;
  '(star1_mass, theta_index) <~
    read_if (model_star1_mass s) id (default_star1_mass s) theta theta_index ;;
  '(star1_rad, theta_index) <~
    read_if (model_star1_rad s) id (default_star1_rad s) theta theta_index ;;
  '(star1_teff, theta_index) <~
    read_if (model_star1_teff s) id (default_star1_teff s) theta theta_index ;;
  '(star2_mass, theta_index) <~
    read_if (model_star2_mass s) id (default_star2_mass s) theta theta_index ;;
  '(star2_rad, theta_index) <~
    read_if (model_star2_rad s) id (default_star2_rad s) theta theta_index ;;
  '(star2_teff, theta_index) <~
    read_if (model_star2_teff s) id (default_star2_teff s) theta theta_index ;;
  '(binary_inc, theta_index) <~ read id theta theta_index ;;
  '(binary_period, theta_index) <~ read id theta theta_index ;;
  '(binary_rv_sys, theta_index) <~ read id theta theta_index ;;
  '(binary_ecc, theta_index) <~
    read_if (model_eccentricity s) id (default_ecc s) theta theta_index ;;
  '(binary_dist, theta_index) <~
    read_if (model_distance s) id (default_dist s) theta theta_index ;;
  t0 <~ read_last theta theta_index ;;
  Returns {| Kp_ext := Kp_ext; H_ext_mod := H_ext_mod;
             star1_mass := star1_mass; star1_rad := star1_rad;
             star1_teff := star1_teff; star2_mass := star2_mass;
             star2_rad := star2_rad; star2_teff := star2_teff;
             binary_inc := binary_inc; binary_period := binary_period;
             binary_rv_sys := binary_rv_sys; binary_ecc := binary_ecc;
             binary_dist := binary_dist; t0 := t0;
             theta_index_end := theta_index |}.

(** Lines 552-625, the head of [calculate_model_obs]. *)
Definition calculate_model_obs_unpack (s : schema) (theta : list float)
  : outcome unpacked :=
  let theta_index := 0%nat in
  '(Kp_ext, theta_index) <~ read id theta theta_index ;;
  '(H_ext_mod, theta_index) <~
    read_if (model_H_ext_mod s) id (default_H_ext_mod s) theta theta_index ;;
  '(star1_mass, theta_index) <~
    read_if (model_star1_mass s) (in_unit solMass) (default_star1_mass s)
      theta theta_index ;;
  '(star1_rad, theta_index) <~
    read_if (model_star1_rad s) (in_unit solRad) (default_star1_rad s)
      theta theta_index ;;
  '(star1_teff, theta_index) <~
    read_if (model_star1_teff s) (in_unit K) (default_star1_teff s)
      theta theta_index ;;
  '(star2_mass, theta_index) <~
    read_if (model_star2_mass s) (in_unit solMass) (default_star2_mass s)
      theta theta_index ;;
  '(star2_rad, theta_index) <~
    read_if (model_star2_rad s) (in_unit solRad) (default_star2_rad s)
      theta theta_index ;;
  '(star2_teff, theta_index) <~
    read_if (model_star2_teff s) (in_unit K) (default_star2_teff s)
      theta theta_index ;;
  '(binary_inc, theta_index) <~ read (in_unit deg) theta theta_index ;;
  '(binary_period, theta_index) <~ read (in_unit d) theta theta_index ;;
  '(binary_rv_sys, theta_index) <~ read (in_unit km_s) theta theta_index ;;
  '(binary_ecc, theta_index) <~
    read_if (model_eccentricity s) id (default_ecc s) theta theta_index ;;
  '(binary_dist, theta_index) <~
    read_if (model_distance s) (in_unit pc) (default_dist s) theta theta_index ;;
  t0 <~ read_last theta theta_index ;;
  Returns {| Kp_ext := Kp_ext; H_ext_mod := H_ext_mod;
             star1_mass := star1_mass; star1_rad := star1_rad;
             star1_teff := star1_teff; star2_mass := star2_mass;
             star2_rad := star2_rad; star2_teff := star2_teff;
             binary_inc := binary_inc; binary_period := binary_period;
             binary_rv_sys := binary_rv_sys; binary_ecc := binary_ecc;
             binary_dist := binary_dist; t0 := t0;
             theta_index_end := theta_index |}.

(** Lines 705-778, the head of [lnlike]. *)
Definition lnlike_unpack (s : schema) (theta : list float) : outcome unpacked :=
  let theta_index := 0%nat in
  '(Kp_ext, theta_index) <~ read id theta theta_index ;;
  '(H_ext_mod, theta_index) <~
    read_if (model_H_ext_mod s) id (default_H_ext_mod s) theta theta_index ;;
  '(star1_mass, theta_index) <~
    read_if (model_star1_mass s) (in_unit solMass) (default_star1_mass s)
      theta theta_index ;;
  '(star1_rad, theta_index) <~
    read_if (model_star1_rad s) (in_unit solRad) (default_star1_rad s)
      theta theta_index ;;
  '(star1_teff, theta_index) <~
    read_if (model_star1_teff s) (in_unit K) (default_star1_teff s)
      theta theta_index ;;
  '(star2_mass, theta_index) <~
    read_if (model_star2_mass s) (in_unit solMass) (default_star2_mass s)
      theta theta_index ;;
  '(star2_rad, theta_index) <~
    read_if (model_star2_rad s) (in_unit solRad) (default_star2_rad s)
      theta theta_index ;;
  '(star2_teff, theta_index) <~
    read_if (model_star2_teff s) (in_unit K) (default_star2_teff s)
      theta theta_index ;;
  '(binary_inc, theta_index) <~ read (in_unit deg) theta theta_index ;;
  '(binary_period, theta_index) <~ read (in_unit d) theta theta_index ;;
  '(binary_rv_sys, theta_index) <~ read (in_unit km_s) theta theta_index ;;
  '(binary_ecc, theta_index) <~
    read_if (model_eccentricity s) id (default_ecc s) theta theta_index ;;
  '(binary_dist, theta_index) <~
    read_if (model_distance s) (in_unit pc) (default_dist s) theta theta_index ;;
  t0 <~ read_last theta theta_index ;;
  Returns {| Kp_ext := Kp_ext; H_ext_mod := H_ext_mod;
             star1_mass := star1_mass; star1_rad := star1_rad;
             star1_teff := star1_teff; star2_mass := star2_mass;
             star2_rad := star2_rad; star2_teff := star2_teff;
             binary_inc := binary_inc; binary_period := binary_period;
             binary_rv_sys := binary_rv_sys; binary_ecc := binary_ecc;
             binary_dist := binary_dist; t0 := t0;
             theta_index_end := theta_index |}.

(** *** Prior, forward model, likelihood and posterior *)

Section Fitter.
Context {lcfit : Type}.
Variable m : libm.
Variable lc : lc_calc_wRV lcfit.
Variable self : mcmc_fitter_bb lcfit.

Abbreviation S := (params self).
Abbreviation P := (priors self).
Abbreviation O := (options self).

(** The Gaussian term [np.log(1.0/(np.sqrt(2*np.pi)*sigma))
    + (-0.5 * (x - mu)**2 / sigma**2)]. *)
Definition gaussian_term (dev sigma : float) : float :=
  let log_prior_add := log m (1.0 / (sqrt (2 * pi) * sigma)) in
  log_prior_add + ((-0.5) * power m dev 2 / power m sigma 2).

(** The Gaussian term of the temperature of star 1,
    [log_prior_add = np.log(1.0/(np.sqrt(2*np.pi)*sigma))],
    [log_prior_add += (-0.5 * (star1_teff - mu)**2 / sigma**2)] and
    [log_prior += log_prior_add]. A temperature that is not read from
    [theta] is a Quantity in [K]: the difference, the first sum and the
    second sum each need a bare number that can have an arbitrary unit,
    and the result is a Quantity in [K2]. *)
Definition add_teff_term (log_prior star1_teff : float) : outcome prior_value :=
  let mu := star1_teff_bound_mu P in
  let sigma := star1_teff_bound_sigma P in
  if model_star1_teff S then
    Returns (Number (log_prior + gaussian_term (star1_teff - mu) sigma))
  else
    let log_prior_add := log m (1.0 / (sqrt (2 * pi) * sigma)) in
    if negb (can_have_arbitrary_unit mu) then Raises UnitConversionError else
    let term := (-0.5) * power m (star1_teff - mu) 2 / power m sigma 2 in
    if negb (can_have_arbitrary_unit log_prior_add)
    then Raises UnitConversionError else
    let log_prior_add := log_prior_add + term in
    if negb (can_have_arbitrary_unit log_prior)
    then Raises UnitConversionError else
    Returns (Kelvin2 (log_prior + log_prior_add)).

Definition lnprior (theta : list float) : outcome prior_value :=
  u <~ lnprior_unpack S theta ;;
  let Kp_ext := value (Kp_ext u) in
  let H_ext_mod := value (H_ext_mod u) in
  let star1_mass := value (star1_mass u) in
  let star1_rad := value (star1_rad u) in
  let star1_teff := value (star1_teff u) in
  let star2_mass := value (star2_mass u) in
  let star2_rad := value (star2_rad u) in
  let star2_teff := value (star2_teff u) in
  let binary_inc := value (binary_inc u) in
  let binary_period := value (binary_period u) in
  let binary_rv_sys := value (binary_rv_sys u) in
  let binary_ecc := value (binary_ecc u) in
  let binary_dist := value (binary_dist u) in
  let t0 := value (t0 u) in
  (* Extinction checks *)
  let Kp_ext_check :=
    between (lo_Kp_ext_prior_bound P) Kp_ext (hi_Kp_ext_prior_bound P) in
  let '(H_ext_mod_check, H_ext_mod_bound_oneSig) :=
    if H_ext_mod_alpha_sig_bound P =? (-1) then
      (between (lo_H_ext_mod_prior_bound P) H_ext_mod
               (hi_H_ext_mod_prior_bound P), 1.0)
    else
      let ratio := lambda_filt kp_filt / lambda_filt h_filt in
      let H_ext := Kp_ext * power m ratio (ext_alpha O) in
      let H_ext_mod_bound_hi :=
        Kp_ext * power m ratio (ext_alpha O + ext_alpha_unc O) in
      let H_ext_mod_bound_lo :=
        Kp_ext * power m ratio (ext_alpha O - ext_alpha_unc O) in
      let H_ext_mod_bound_hi := H_ext_mod_bound_hi - H_ext in
      let H_ext_mod_bound_lo := H_ext - H_ext_mod_bound_lo in
      (true, max_abs2 H_ext_mod_bound_hi H_ext_mod_bound_lo) in
  (* Stellar parameters checks *)
  let star1_mass_check :=
    if model_star1_mass S
    then between (lo_star1_mass_prior_bound P) star1_mass
                 (hi_star1_mass_prior_bound P)
    else true in
  let star1_rad_check :=
    if model_star1_rad S
    then between (lo_star1_rad_prior_bound P) star1_rad
                 (hi_star1_rad_prior_bound P)
    else true in
  let star1_teff_check :=
    if model_star1_teff S && negb (star1_teff_sig_bound P)
    then between (lo_star1_teff_prior_bound P) star1_teff
                 (hi_star1_teff_prior_bound P)
    else true in
  let star2_mass_check :=
    if model_star2_mass S
    then between (lo_star2_mass_prior_bound P) star2_mass
                 (hi_star2_mass_prior_bound P)
    else true in
  let star2_rad_check :=
    if model_star2_rad S
    then between (lo_star2_rad_prior_bound P) star2_rad
                 (hi_star2_rad_prior_bound P)
    else true in
  let star2_teff_check :=
    if model_star2_teff S
    then between (lo_star2_teff_prior_bound P) star2_teff
                 (hi_star2_teff_prior_bound P)
    else true in
  (* Relational checks for the parameters *)
  star1_mass_check <~
    and_larger (star1_mass_larger S) star1_mass_check
      (model_star1_mass S) star1_mass (model_star2_mass S) star2_mass ;;
  star1_rad_check <~
    and_larger (star1_rad_larger S) star1_rad_check
      (model_star1_rad S) star1_rad (model_star2_rad S) star2_rad ;;
  star1_teff_check <~
    and_larger (star1_teff_larger S) star1_teff_check
      (model_star1_teff S) star1_teff (model_star2_teff S) star2_teff ;;
  star2_mass_check <~
    and_larger (star2_mass_larger S) star2_mass_check
      (model_star2_mass S) star2_mass (model_star1_mass S) star1_mass ;;
  star2_rad_check <~
    and_larger (star2_rad_larger S) star2_rad_check
      (model_star2_rad S) star2_rad (model_star1_rad S) star1_rad ;;
  star2_teff_check <~
    and_larger (star2_teff_larger S) star2_teff_check
      (model_star2_teff S) star2_teff (model_star1_teff S) star1_teff ;;
  let star1_checks :=
    star1_mass_check && star1_rad_check && star1_teff_check in
  let star2_checks :=
    star2_mass_check && star2_rad_check && star2_teff_check in
  (* Binary system configuration checks *)
  let inc_check :=
    between (lo_inc_prior_bound P) binary_inc (hi_inc_prior_bound P) in
  let period_check :=
    between (lo_period_prior_bound P) binary_period
            (hi_period_prior_bound P) in
  let rv_sys_check :=
    between (lo_rv_sys_prior_bound P) binary_rv_sys
            (hi_rv_sys_prior_bound P) in
  let ecc_check :=
    between (lo_ecc_prior_bound P) binary_ecc (hi_ecc_prior_bound P) in
  let dist_check :=
    between (lo_dist_prior_bound P) binary_dist (hi_dist_prior_bound P) in
  let t0_check :=
    between (lo_t0_prior_bound P) t0 (hi_t0_prior_bound P) in
  (* Final check and return prior *)
  if (H_ext_mod_alpha_sig_bound P =? (-1)) && negb (star1_teff_sig_bound P)
  then
    if (Kp_ext_check && H_ext_mod_check)
       && inc_check && period_check && rv_sys_check
       && ecc_check && dist_check && t0_check
       && star1_checks && star2_checks
    then Returns (Number 0)
    else Returns (Number neg_infinity)
  else
    if Kp_ext_check
       && inc_check && period_check && rv_sys_check
       && ecc_check && dist_check && t0_check
       && star1_checks && star2_checks
    then
      let log_prior := 0 in
      let log_prior :=
        if negb (H_ext_mod_alpha_sig_bound P =? (-1))
        then log_prior + gaussian_term H_ext_mod H_ext_mod_bound_oneSig
        else log_prior in
      if star1_teff_sig_bound P
      then add_teff_term log_prior star1_teff
      else Returns (Number log_prior)
    else Returns (Number neg_infinity).

Abbreviation B := (setup self).
Abbreviation D := (data self).

Definition err_out : ndarray * ndarray * ndarray * ndarray :=
  ([(-1)], [(-1)], [(-1)], [(-1)]).

(** [5. * np.log10(binary_dist / ((self.dist).to(u.pc)).value)]. A
    distance read from [theta] is [theta[theta_index] * u.pc], the quotient
    is a Quantity in [pc] and [np.log10] raises [UnitTypeError]; the
    default distance is a bare number. *)
Definition dist_modulus (binary_dist : float) : outcome float :=
  if model_distance S then Raises UnitTypeError
  else Returns (5 * log10 m (binary_dist / dist B)).

Definition calculate_model_obs (theta : list float)
  : M (ndarray * ndarray * ndarray * ndarray) :=
  u <- lift (calculate_model_obs_unpack S theta) ;;
  let Kp_ext := value (Kp_ext u) in
  let H_ext_mod := value (H_ext_mod u) in
  let binary_rv_sys := value (binary_rv_sys u) in
  let binary_dist := value (binary_dist u) in
  let bparams : binary_params :=
    (value (binary_period u), value (binary_ecc u),
     value (binary_inc u), value (t0 u)) in
  (* Calculate extinction adjustments *)
  filts_ext_kp <- lift (dict_get (filts_ext B) kp_filt) ;;
  let Kp_ext_adj := Kp_ext - filts_ext_kp in
  filts_ext_h <- lift (dict_get (filts_ext B) h_filt) ;;
  let H_ext_adj :=
    ((Kp_ext * power m (lambda_filt kp_filt / lambda_filt h_filt)
                 (ext_alpha O))
     - filts_ext_h) + H_ext_mod in
  (* Calculate distance modulus adjustments *)
  dist_mod_mag_adj <- lift (dist_modulus binary_dist) ;;
  (* Perform interpolation *)
  '(star1_params_all, star1_params_lcfit) <-
    invoke calc_stellar_params_call
      (calc_stellar_params (bb_params_obj B) (value (star1_mass u))
         (value (star1_rad u)) (value (star1_teff u))) ;;
  '(star2_params_all, star2_params_lcfit) <-
    invoke calc_stellar_params_call
      (calc_stellar_params (bb_params_obj B) (value (star2_mass u))
         (value (star2_rad u)) (value (star2_teff u))) ;;
  (* Run binary star model to get binary observables *)
  '((binary_mags_Kp, binary_mags_H), binary_RVs_pri, binary_RVs_sec) <-
    invoke binary_star_lc_call
      (binary_star_lc lc star1_params_lcfit star2_params_lcfit bparams
         (observation_times D) (use_blackbody_atm O) (model_compact O)
         (irrad_frac_refl O) (model_numTriangles O)) ;;
  failed <- lift (either_failed binary_mags_Kp binary_mags_H) ;;
  if failed then ret err_out else
  (* Apply isoc. distance modulus and isoc. extinction *)
  ext_kp <- lift (dict_get (filts_ext B) kp_filt) ;;
  ext_h <- lift (dict_get (filts_ext B) h_filt) ;;
  '(binary_mags_Kp, binary_mags_H) <-
    invoke dist_ext_mag_calc_call
      (dist_ext_mag_calc lc (binary_mags_Kp, binary_mags_H) (dist B)
         (ext_kp, ext_h)) ;;
  let binary_mags_Kp := add_scalar binary_mags_Kp Kp_ext_adj in
  let binary_mags_H := add_scalar binary_mags_H H_ext_adj in
  let binary_mags_Kp := add_scalar binary_mags_Kp dist_mod_mag_adj in
  let binary_mags_H := add_scalar binary_mags_H dist_mod_mag_adj in
  (* Apply system RV to binary RVs *)
  let binary_RVs_pri := add_scalar binary_RVs_pri binary_rv_sys in
  let binary_RVs_sec := add_scalar binary_RVs_sec binary_rv_sys in
  ret (binary_mags_Kp, binary_mags_H, binary_RVs_pri, binary_RVs_sec).

(** [np.where(labels == name)], a tuple holding one index array. *)
Fixpoint positions_from (k : Z) (name : string) (labels : list string)
  : list Z :=
  match labels with
  | [] => []
  | l :: rest =>
      if String.eqb l name then k :: positions_from (k + 1) name rest
      else positions_from (k + 1) name rest
  end.
Definition np_where_eq (labels : list string) (name : string)
  : list (list Z) :=
  [positions_from 0 name labels].

(** One role's chi-square sum over the observations that are numbers:
    [obs = obs_rv[inds]], [errors = obs_rv_errors[inds]],
    [nan_filt = np.where(np.logical_not(np.isnan(obs)))] and
    [np.sum((obs[nan_filt] - model[nan_filt])**2.
            / (errors[nan_filt])**2.)]. *)
Definition chi_square_rv (obs_rv obs_rv_errors : ndarray) (inds : list Z)
    (model : ndarray) : outcome float :=
  obs <~ take obs_rv inds ;;
  errors <~ take obs_rv_errors inds ;;
  let nan_filt := where_not_nan obs in
  o <~ take obs nan_filt ;;
  mo <~ take model nan_filt ;;
  dd <~ broadcast sub o mo ;;
  e <~ take errors nan_filt ;;
  q <~ broadcast div (square dd) (square e) ;;
  Returns (Np.sum q).

Definition lnlike (theta : list float) : M float :=
  u <- lift (lnlike_unpack S theta) ;;
  let binary_period := value (binary_period u) in
  let t0 := value (t0 u) in
  (* Calculate model observables *)
  '(binary_model_mags_Kp, binary_model_mags_H,
    binary_model_RVs_pri, binary_model_RVs_sec) <-
    calculate_model_obs theta ;;
  failed <- lift (either_failed binary_model_mags_Kp binary_model_mags_H) ;;
  if failed then ret neg_infinity else
  (* Phase the observation times *)
  '(kp_phase_out, h_phase_out, rv_phase_out) <-
    invoke phased_obs_call
      (phased_obs lc (observation_times D) binary_period t0) ;;
  let '(kp_phased_days, kp_phases_sorted_inds, kp_model_times) :=
    kp_phase_out in
  let '(h_phased_days, h_phases_sorted_inds, h_model_times) :=
    h_phase_out in
  let '(rv_pri_phased_days, rv_pri_phases_sorted_inds, rv_pri_model_times) :=
    rv_phase_out in
  let '(rv_sec_phased_days, rv_sec_phases_sorted_inds, rv_sec_model_times) :=
    rv_phase_out in
  (* log likelihood for mags *)
  chi_kp <- lift (chi_square (kp_obs_mags D) (kp_obs_mag_errors D)
                    kp_phases_sorted_inds binary_model_mags_Kp) ;;
  let log_likelihood := chi_kp in
  chi_h <- lift (chi_square (h_obs_mags D) (h_obs_mag_errors D)
                   h_phases_sorted_inds binary_model_mags_H) ;;
  let log_likelihood := log_likelihood + chi_h in
  (* log likelihood for RVs *)
  let pri_filt := np_where_eq (obs_filts_rv D) "rv_pri" in
  let sec_filt := np_where_eq (obs_filts_rv D) "rv_sec" in
  log_likelihood <-
    (if (0 <? List.length pri_filt)%nat then
       chi_pri <- lift (chi_square_rv (obs_rv_pri D) (obs_rv_pri_errors D)
                          rv_pri_phases_sorted_inds binary_model_RVs_pri) ;;
       ret (log_likelihood + chi_pri)
     else ret log_likelihood) ;;
  log_likelihood <-
    (if (0 <? List.length sec_filt)%nat then
       chi_sec <- lift (chi_square_rv (obs_rv_sec D) (obs_rv_sec_errors D)
                          rv_sec_phases_sorted_inds binary_model_RVs_sec) ;;
       ret (log_likelihood + chi_sec)
     else ret log_likelihood) ;;
  (* Finalize log likelihood and return *)
  let log_likelihood := (-0.5) * log_likelihood in
  ret log_likelihood.

Definition lnprob (theta : list float) : M float :=
  lp <- lift (lnprior theta) ;;
  if negb (isfinite (magnitude lp)) then ret neg_infinity else
  ll <- lnlike theta ;;
  if negb (isfinite ll) then ret neg_infinity else
  lift (add_likelihood lp ll).

End Fitter.

End BB.

(** ** Filter objects, [phitter/filters.py] *)

Module Filters.

(** The module-level [lambda_Ks = 2.18e-6 * u.m]. *)
Definition lambda_Ks : float := 2.18e-6.

(** The constructors of the filter classes; [oid] is the identity of the
    object made. [filt_info] and [flux_ref_filt], which come from SPISEA,
    are left out. *)
Definition naco_ks_filt (oid : positive) : BB.filter :=
  {| BB.filt_id := oid; BB.filter_name := "naco,Ks";
     BB.lambda_filt := 2.18e-6; BB.dlambda_filt := 0.35e-6 |}.
Definition nirc2_lp_filt (oid : positive) : BB.filter :=
  {| BB.filt_id := oid; BB.filter_name := "nirc2,Lp";
     BB.lambda_filt := 3.776e-6; BB.dlambda_filt := 0.700e-6 |}.
Definition nirc2_kp_filt (oid : positive) : BB.filter :=
  {| BB.filt_id := oid; BB.filter_name := "nirc2,Kp";
     BB.lambda_filt := 2.124e-6; BB.dlambda_filt := 0.351e-6 |}.
Definition nirc2_h_filt (oid : positive) : BB.filter :=
  {| BB.filt_id := oid; BB.filter_name := "nirc2,H";
     BB.lambda_filt := 1.633e-6; BB.dlambda_filt := 0.296e-6 |}.
Definition jwst_115w_filt (oid : positive) : BB.filter :=
  {| BB.filt_id := oid; BB.filter_name := "jwst,F115W";
     BB.lambda_filt := 1.154e-6; BB.dlambda_filt := 0.225e-6 |}.
Definition jwst_212n_filt (oid : positive) : BB.filter :=
  {| BB.filt_id := oid; BB.filter_name := "jwst,F212N";
     BB.lambda_filt := 2.120e-6; BB.dlambda_filt := 0.027e-6 |}.
Definition jwst_323n_filt (oid : positive) : BB.filter :=
  {| BB.filt_id := oid; BB.filter_name := "jwst,F323N";
     BB.lambda_filt := 3.237e-6; BB.dlambda_filt := 0.038e-6 |}.

(** [filter.calc_isoc_filt_ext] *)
Definition calc_isoc_filt_ext (m : libm) (self : BB.filter)
    (isoc_Ks_ext ext_alpha : float) : float :=
  let isoc_filt_ext :=
    isoc_Ks_ext * power m (lambda_Ks / BB.lambda_filt self) ext_alpha in
  isoc_filt_ext.

End Filters.

(** ** The observations of the blackbody fitter: the three setters *)

Module Observations.

(** [a[i]] and [a[inds]] on a one-dimensional array of any element type:
    the observation labels are strings. *)
Definition getitem_of {A} (a : list A) (i : Z) : outcome A :=
  let n := Z.of_nat (List.length a) in
  let j := if (i <? 0)%Z then (i + n)%Z else i in
  if ((j <? 0) || (n <=? j))%Z then Raises IndexError
  else match nth_error a (Z.to_nat j) with
       | Some x => Returns x
       | None => Raises IndexError
       end.

Fixpoint take_of {A} (a : list A) (inds : list Z) : outcome (list A) :=
  match inds with
  | [] => Returns []
  | i :: rest =>
      obind (getitem_of a i) (fun x =>
      obind (take_of a rest) (fun xs => Returns (x :: xs)))
  end.

(** [a[t]] for the tuple [t] that [np.where] returns: on a one-dimensional
    array a tuple of one index array selects along the only axis, the empty
    tuple selects everything, a longer tuple has too many indices. *)
Definition take_tuple {A} (a : list A) (t : list (list Z))
  : outcome (list A) :=
  match t with
  | [] => Returns a
  | [inds] => take_of a inds
  | _ => Raises IndexError
  end.

(** [np.append(t1, t2)]: both arguments are flattened and joined. *)
Definition np_append (t1 t2 : list (list Z)) : list Z :=
  List.concat t1 ++ List.concat t2.

(** The index sets [set_observation_filts] stores. *)
Record observation_index : Type := {
  obs_filts : list string;
  search_filt_kp : list (list Z);
  search_filt_h : list (list Z);
  search_filt_rv_pri : list (list Z);
  search_filt_rv_sec : list (list Z);
  search_filt_rv : list Z
}.

Definition set_observation_filts (obs_filts : list string)
    (D : BB.observations) : outcome (observation_index * BB.observations) :=
  let search_filt_kp := BB.np_where_eq obs_filts "kp"%string in
  let search_filt_h := BB.np_where_eq obs_filts "h"%string in
  let search_filt_rv_pri := BB.np_where_eq obs_filts "rv_pri"%string in
  let search_filt_rv_sec := BB.np_where_eq obs_filts "rv_sec"%string in
  let search_filt_rv := np_append search_filt_rv_pri search_filt_rv_sec in
  obind (take_of obs_filts search_filt_rv) (fun obs_filts_rv =>
  Returns
    ({| obs_filts := obs_filts;
        search_filt_kp := search_filt_kp;
        search_filt_h := search_filt_h;
        search_filt_rv_pri := search_filt_rv_pri;
        search_filt_rv_sec := search_filt_rv_sec;
        search_filt_rv := search_filt_rv |},
     {| BB.obs_filts_rv := obs_filts_rv;
        BB.observation_times := BB.observation_times D;
        BB.kp_obs_mags := BB.kp_obs_mags D;
        BB.kp_obs_mag_errors := BB.kp_obs_mag_errors D;
        BB.h_obs_mags := BB.h_obs_mags D;
        BB.h_obs_mag_errors := BB.h_obs_mag_errors D;
        BB.obs_rv_pri := BB.obs_rv_pri D;
        BB.obs_rv_pri_errors := BB.obs_rv_pri_errors D;
        BB.obs_rv_sec := BB.obs_rv_sec D;
        BB.obs_rv_sec_errors := BB.obs_rv_sec_errors D |})).

(** [np_unique] stands for [np.unique]. *)
Definition set_observation_times (np_unique : ndarray -> ndarray)
    (ix : observation_index) (obs_times : ndarray) (D : BB.observations)
  : outcome BB.observations :=
  obind (take_tuple obs_times (search_filt_kp ix)) (fun kp_times =>
  obind (take_tuple obs_times (search_filt_h ix)) (fun h_times =>
  obind (take_of obs_times (search_filt_rv ix)) (fun rv_times =>
  Returns
    {| BB.obs_filts_rv := BB.obs_filts_rv D;
       BB.observation_times := (kp_times, h_times, np_unique rv_times);
       BB.kp_obs_mags := BB.kp_obs_mags D;
       BB.kp_obs_mag_errors := BB.kp_obs_mag_errors D;
       BB.h_obs_mags := BB.h_obs_mags D;
       BB.h_obs_mag_errors := BB.h_obs_mag_errors D;
       BB.obs_rv_pri := BB.obs_rv_pri D;
       BB.obs_rv_pri_errors := BB.obs_rv_pri_errors D;
       BB.obs_rv_sec := BB.obs_rv_sec D;
       BB.obs_rv_sec_errors := BB.obs_rv_sec_errors D |}))).

Definition set_observations (ix : observation_index)
    (obs obs_errors : ndarray) (D : BB.observations)
  : outcome BB.observations :=
  obind (take_tuple obs (search_filt_kp ix)) (fun kp_obs_mags =>
  obind (take_tuple obs_errors (search_filt_kp ix)) (fun kp_obs_mag_errors =>
  obind (take_tuple obs (search_filt_h ix)) (fun h_obs_mags =>
  obind (take_tuple obs_errors (search_filt_h ix)) (fun h_obs_mag_errors =>
  obind (take_tuple obs (search_filt_rv_pri ix)) (fun obs_rv_pri =>
  obind (take_tuple obs_errors (search_filt_rv_pri ix))
    (fun obs_rv_pri_errors =>
  obind (take_tuple obs (search_filt_rv_sec ix)) (fun obs_rv_sec =>
  obind (take_tuple obs_errors (search_filt_rv_sec ix))
    (fun obs_rv_sec_errors =>
  Returns
    {| BB.obs_filts_rv := BB.obs_filts_rv D;
       BB.observation_times := BB.observation_times D;
       BB.kp_obs_mags := kp_obs_mags;
       BB.kp_obs_mag_errors := kp_obs_mag_errors;
       BB.h_obs_mags := h_obs_mags;
       BB.h_obs_mag_errors := h_obs_mag_errors;
       BB.obs_rv_pri := map (BB.in_unit BB.km_s) obs_rv_pri;
       BB.obs_rv_pri_errors := map (BB.in_unit BB.km_s) obs_rv_pri_errors;
       BB.obs_rv_sec := map (BB.in_unit BB.km_s) obs_rv_sec;
       BB.obs_rv_sec_errors := map (BB.in_unit BB.km_s) obs_rv_sec_errors
    |})))))))).

End Observations.

(** ** Light curves from meshes, [phitter/mesh_animate.py]

    PHOEBE is a collaborator: what the code sets on the bundle is
    gathered in a record, and the answers of the bundle (the maximum
    radii, whether a value is accepted, whether the computation succeeds,
    the fluxes and the figures) are functions of it; the phasing and
    the sorting of the observation times happen before the bundle is
    computed and are part of its answer. Printing, the MPI switch and
    the files the plots are saved to are left out. *)

Module MeshAnimate.

(** The exceptions of this module and the outcome of a call. *)
Inductive exception : Type :=
| NameError
| ValueError
| IndexError.

Inductive result (A : Type) : Type :=
| Return (a : A)
| Raise (e : exception).
Arguments Return {A} a.
Arguments Raise {A} e.

Definition rbind {A B} (r : result A) (f : A -> result B) : result B :=
  match r with
  | Return a => f a
  | Raise e => Raise e
  end.

(** [a[0]] *)
Definition first (a : ndarray) : result float :=
  match a with
  | x :: _ => Return x
  | [] => Raise IndexError
  end.

(** The module-level filter properties. *)
Definition lambda_Ks : float := 2.18e-6.
Definition lambda_Kp : float := 2.124e-6.
Definition lambda_H : float := 1.633e-6.

(** [stellar_params = (mass, rad, teff, logg, mag_Kp, mag_H, pblum_Kp,
    pblum_H)] *)
Record stellar_params : Type := {
  star_mass : float;
  star_rad : float;
  star_teff : float;
  star_logg : float;
  star_mag_Kp : float;
  star_mag_H : float;
  star_pblum_Kp : float;
  star_pblum_H : float
}.

(** [(binary_period, binary_ecc, binary_inc, t0)] *)
Definition binary_params : Type := (float * float * float * float)%type.

(** A figure of matplotlib. *)
Definition figure : Type := nat.

(** What [binary_star_mesh] returns: a tuple of two arrays, or of two
    arrays and the list of mesh plots. *)
Inductive mesh_out : Type :=
| Mags (model_mags_Kp model_mags_H : ndarray)
| MagsAndPlots (model_mags_Kp model_mags_H : ndarray)
    (mesh_plot_out : list figure).

(** What [binary_mesh_calc] returns: one of these tuples, or a number. *)
Inductive calc_out : Type :=
| Number (x : float)
| Curves (out : mesh_out).

(** The configuration of the PHOEBE bundle when the computation starts. An
    attribute the code did not set is [None]. *)
Record bundle : Type := {
  contact_binary : bool;
  period : float;
  sma : float;
  q : float;
  incl : float;
  ecc : option float;
  semidetached_primary : bool;
  semidetached_secondary : bool;
  atm_blackbody : bool;
  teff_primary : float;
  requiv_primary : option float;
  teff_secondary : float;
  requiv_secondary : option float;
  ntriangles : Z;
  times : ndarray * ndarray * ndarray;
  t0_of : float;
  mesh_dataset : bool;
  mesh_columns : bool;
  pblum_primary : float * float;
  pblum_secondary : float * float
}.

(** The answers of PHOEBE and of astropy's unit arithmetic. *)
Record phoebe : Type := {
  (* ((period**2. * const.G * (m1 + m2)) / (4. * np.pi**2.))**(1./3.) *)
  binary_sma : float -> float -> float -> float;
  (* requiv_max of the two components, once period, sma, q and incl are set *)
  requiv_max : float -> float -> float -> float -> float * float;
  (* whether set_value('requiv@secondary@component', ...) is accepted *)
  accepts_requiv_secondary : bundle -> bool;
  (* run_compute: the fluxes in Kp and H, or None when it raises *)
  run_compute : bundle -> option (ndarray * ndarray);
  (* the figures of the mesh plots *)
  mesh_plots : bundle -> list figure
}.

(** Lines 150-192: temperatures above the Castelli and Kurucz grid are
    rounded down, unless the blackbody atmosphere is used. *)
Definition ck2004_teff (use_blackbody_atm : bool)
    (star1_teff star1_logg star2_teff star2_logg : float) : float * float :=
  if negb use_blackbody_atm then
    let star1_teff :=
      if (31000 <? star1_teff) && ((star1_logg <? 4.0) && (3.5 <? star1_logg))
      then 30995.0 else star1_teff in
    let star2_teff :=
      if (31000 <? star2_teff) && ((star2_logg <? 4.0) && (3.5 <? star2_logg))
      then 30995.0 else star2_teff in
    let star1_teff :=
      if (40000 <? star1_teff) && ((star1_logg <? 4.5) && (4.0 <? star1_logg))
      then 39995.0 else star1_teff in
    let star2_teff :=
      if (40000 <? star2_teff) && ((star2_logg <? 4.0) && (3.50 <? star2_logg))
      then 39995.0 else star2_teff in
    (star1_teff, star2_teff)
  else (star1_teff, star2_teff).

(** The last value assigned to [semidet_cut]. *)
Definition semidet_cut : float := 0.015.

(** One [W / m2] in [erg / (s cm2)]. *)
Definition W_m2_in_erg_s_cm2 : float := 1000.

Record fill : Type := {
  star1_semidetached : bool;
  star2_semidetached : bool;
  star1_overflow : bool;
  star2_overflow : bool
}.

(** Lines 217-258: the semidetached and overflow flags. *)
Definition overflow_checks
    (star1_rad star2_rad star1_rad_max star2_rad_max : float) : fill :=
  let star1_semidetached :=
    abs ((star1_rad - star1_rad_max) / star1_rad_max) <? semidet_cut in
  let star2_semidetached :=
    abs ((star2_rad - star2_rad_max) / star2_rad_max) <? semidet_cut in
  let star1_overflow :=
    (star1_rad_max <? star1_rad) && negb star1_semidetached in
  let star2_overflow :=
    (star2_rad_max <? star2_rad) && negb star2_semidetached in
  let '(star1_overflow, star2_overflow) :=
    if star1_overflow && star2_overflow then
      if (star2_rad - star2_rad_max) <=? (star1_rad - star1_rad_max)
      then (star1_overflow, false)
      else (false, star2_overflow)
    else (star1_overflow, star2_overflow) in
  {| star1_semidetached := star1_semidetached;
     star2_semidetached := star2_semidetached;
     star1_overflow := star1_overflow;
     star2_overflow := star2_overflow |}.

Section Functions.
Variable m : libm.
Variable ph : phoebe.
(* flux_ref_Kp, flux_ref_H: the reference fluxes, from PopStar *)
Variable flux_ref_Kp flux_ref_H : float.

(** [-2.5 * np.log10(fluxes / flux_ref) + 0.03] for fluxes that carry the
    unit of the reference flux, as in [flux_adj]. *)
Definition mags_of_fluxes (flux_ref : float) (fluxes : ndarray) : ndarray :=
  map (fun f => (-2.5) * log10 m (f / flux_ref) + 0.03) fluxes.

(** The same for the fluxes of the bundle, which are given the unit
    [u.W / u.m**2.] while the reference flux is in
    [(u.erg / u.s) / u.cm**2.]: the quotient has the unit
    [W cm2 s / (erg m2)], and [np.log10] takes it to a pure number first,
    which multiplies it by [W_m2_in_erg_s_cm2]. *)
Definition mags_of_bundle_fluxes (flux_ref : float) (fluxes : ndarray)
  : ndarray :=
  map (fun f => (-2.5) * log10 m (W_m2_in_erg_s_cm2 * (f / flux_ref)) + 0.03)
    fluxes.

Definition binary_star_mesh (star1_params star2_params : stellar_params)
    (bparams : binary_params) (observation_times : ndarray * ndarray * ndarray)
    (use_blackbody_atm make_mesh_plots mesh_temp : bool) (num_triangles : Z)
  : result mesh_out :=
  let '(binary_period, binary_ecc, binary_inc, t0) := bparams in
  let err_out := Mags [(-1)] [(-1)] in
  let '(star1_teff, star2_teff) :=
    ck2004_teff use_blackbody_atm
      (star_teff star1_params) (star_logg star1_params)
      (star_teff star2_params) (star_logg star2_params) in
  let star1_rad := star_rad star1_params in
  let star2_rad := star_rad star2_params in
  (* Set up binary model *)
  let binary_sma_v :=
    binary_sma ph binary_period (star_mass star1_params)
      (star_mass star2_params) in
  let binary_q := star_mass star2_params / star_mass star1_params in
  (* Check for overflow *)
  let '(star1_rad_max, star2_rad_max) :=
    requiv_max ph binary_period binary_sma_v binary_q binary_inc in
  let f := overflow_checks star1_rad star2_rad star1_rad_max star2_rad_max in
  (* If star 2 is overflowing: the name binary_star_lc is not defined in
     this module *)
  if star2_overflow f && negb (star1_overflow f) then Raise NameError else
  let binary_detached :=
    negb (star1_semidetached f) && negb (star2_semidetached f)
    && negb (star1_overflow f) && negb (star2_overflow f) in
  let contact := star1_overflow f || star2_overflow f in
  let sets_requiv_secondary :=
    negb (star2_semidetached f) && negb (star1_overflow f)
    && negb (star2_overflow f) in
  let b (requiv_secondary : option float) : bundle :=
    {| contact_binary := contact;
       period := binary_period;
       sma := binary_sma_v;
       q := binary_q;
       incl := binary_inc;
       ecc := if contact then None
              else Some (if binary_detached then binary_ecc else 0);
       semidetached_primary :=
         star1_semidetached f && negb (star2_overflow f);
       semidetached_secondary :=
         star2_semidetached f && negb (star1_overflow f);
       atm_blackbody := use_blackbody_atm;
       teff_primary := star1_teff;
       requiv_primary :=
         if negb (star1_semidetached f) && negb (star2_overflow f)
         then Some star1_rad else None;
       teff_secondary := star2_teff;
       requiv_secondary := requiv_secondary;
       ntriangles := num_triangles;
       times := observation_times;
       t0_of := t0;
       mesh_dataset := make_mesh_plots;
       mesh_columns := make_mesh_plots && mesh_temp;
       pblum_primary :=
         (star_pblum_Kp star1_params, star_pblum_H star1_params);
       pblum_secondary :=
         (star_pblum_Kp star2_params, star_pblum_H star2_params) |} in
  if sets_requiv_secondary
     && negb (accepts_requiv_secondary ph (b (Some star2_rad)))
  then Return err_out else
  let b := b (if sets_requiv_secondary then Some star2_rad else None) in
  (* Run compute *)
  match run_compute ph b with
  | None => Return err_out
  | Some (model_fluxes_Kp, model_fluxes_H) =>
      let model_mags_Kp := mags_of_bundle_fluxes flux_ref_Kp model_fluxes_Kp in
      let model_mags_H := mags_of_bundle_fluxes flux_ref_H model_fluxes_H in
      if make_mesh_plots
      then Return (MagsAndPlots model_mags_Kp model_mags_H (mesh_plots ph b))
      else Return (Mags model_mags_Kp model_mags_H)
  end.

Definition dist_ext_mag_calc (input_mags : ndarray * ndarray)
    (target_dist Kp_ext H_ext : float) : ndarray * ndarray :=
  let '(mags_Kp, mags_H) := input_mags in
  (* App mag at target distance (default system dist = 10 pc) *)
  let mags_Kp := add_scalar mags_Kp (5 * log10 m (target_dist / 10)) in
  let mags_H := add_scalar mags_H (5 * log10 m (target_dist / 10)) in
  (* Add extinction *)
  let mags_Kp := add_scalar mags_Kp Kp_ext in
  let mags_H := add_scalar mags_H H_ext in
  (mags_Kp, mags_H).

Definition flux_adj (mags_pri : ndarray * ndarray) (mags_ref_pri : float * float)
    (mags_sec : ndarray * ndarray) (mags_ref_sec : float * float)
    (mags_bin : ndarray * ndarray) : result (ndarray * ndarray) :=
  let '(mag_pri_Kp, mag_pri_H) := mags_pri in
  let '(mag_ref_pri_Kp, mag_ref_pri_H) := mags_ref_pri in
  let '(mag_sec_Kp, mag_sec_H) := mags_sec in
  let '(mag_ref_sec_Kp, mag_ref_sec_H) := mags_ref_sec in
  let '(mags_bin_Kp, mags_bin_H) := mags_bin in
  (* Calculate flux adjustment for each component star *)
  rbind (first mag_pri_Kp) (fun mag_pri_Kp_0 =>
  let flux_adj_star_pri_Kp :=
    power m 10 ((mag_pri_Kp_0 - mag_ref_pri_Kp) / 2.5) in
  rbind (first mag_pri_H) (fun mag_pri_H_0 =>
  let flux_adj_star_pri_H :=
    power m 10 ((mag_pri_H_0 - mag_ref_pri_H) / 2.5) in
  rbind (first mag_sec_Kp) (fun mag_sec_Kp_0 =>
  let flux_adj_star_sec_Kp :=
    power m 10 ((mag_sec_Kp_0 - mag_ref_sec_Kp) / 2.5) in
  rbind (first mag_sec_H) (fun mag_sec_H_0 =>
  let flux_adj_star_sec_H :=
    power m 10 ((mag_sec_H_0 - mag_ref_sec_H) / 2.5) in
  (* Calculate total flux adjustment for the binary system *)
  let flux_adj_bin_Kp :=
    (power m 10 (mag_ref_pri_Kp / (-2.5))
     + power m 10 (mag_ref_sec_Kp / (-2.5)))
    / (power m 10 (mag_pri_Kp_0 / (-2.5))
       + power m 10 (mag_sec_Kp_0 / (-2.5))) in
  let flux_adj_bin_H :=
    (power m 10 (mag_ref_pri_H / (-2.5))
     + power m 10 (mag_ref_sec_H / (-2.5)))
    / (power m 10 (mag_pri_H_0 / (-2.5))
       + power m 10 (mag_sec_H_0 / (-2.5))) in
  (* Convert magnitudes back into flux space *)
  let fluxes_bin_Kp :=
    map (fun x => flux_ref_Kp * power m 10 ((x - 0.03) / (-2.5)))
      mags_bin_Kp in
  let fluxes_bin_H :=
    map (fun x => flux_ref_H * power m 10 ((x - 0.03) / (-2.5)))
      mags_bin_H in
  (* Apply flux adjustment, derived from the single stars *)
  let fluxes_bin_Kp := map (fun x => x * flux_adj_bin_Kp) fluxes_bin_Kp in
  let fluxes_bin_H := map (fun x => x * flux_adj_bin_H) fluxes_bin_H in
  (* Convert to magnitudes and return *)
  let adj_mags_bin_Kp := mags_of_fluxes flux_ref_Kp fluxes_bin_Kp in
  let adj_mags_bin_H := mags_of_fluxes flux_ref_H fluxes_bin_H in
  Return (adj_mags_bin_Kp, adj_mags_bin_H))))).

Definition binary_mesh_calc (star1_params_lcfit star2_params_lcfit : stellar_params)
    (bparams : binary_params) (observation_times : ndarray * ndarray * ndarray)
    (isoc_Ks_ext Kp_ext H_ext ext_alpha isoc_dist bin_dist : float)
    (use_blackbody_atm make_mesh_plots mesh_temp : bool) (num_triangles : Z)
  : result calc_out :=
  (* Extinction law (using Nogueras-Lara+ 2018) *)
  let ext_alpha := 2.30 in
  (* Calculate extinctions implied by isochrone extinction *)
  let isoc_Kp_ext := isoc_Ks_ext * power m (lambda_Ks / lambda_Kp) ext_alpha in
  let isoc_H_ext := isoc_Ks_ext * power m (lambda_Ks / lambda_H) ext_alpha in
  (* Calculate extinction adjustments *)
  let Kp_ext_adj := Kp_ext - isoc_Kp_ext in
  let H_ext_adj := H_ext - isoc_H_ext in
  (* Calculate distance modulus adjustments: bin_dist is a bare number of
     parsecs, isoc_dist a Quantity whose value in pc is taken *)
  let dist_mod_mag_adj := 5 * log10 m (bin_dist / isoc_dist) in
  (* Run binary star model to get binary mags *)
  rbind (binary_star_mesh star1_params_lcfit star2_params_lcfit bparams
           observation_times use_blackbody_atm make_mesh_plots mesh_temp
           num_triangles) (fun binary_star_lc_out =>
  (* the tuple assignment: three names with make_mesh_plots, else two *)
  rbind (match make_mesh_plots, binary_star_lc_out with
         | true, MagsAndPlots Kp H plots => Return (Kp, H, Some plots)
         | false, Mags Kp H => Return (Kp, H, None)
         | _, _ => Raise ValueError
         end) (fun '(binary_mags_Kp, binary_mags_H, mesh_plot_out) =>
  rbind (first binary_mags_Kp) (fun Kp_0 =>
  if Kp_0 =? (-1) then Return (Number neg_infinity) else
  rbind (first binary_mags_H) (fun H_0 =>
  if H_0 =? (-1) then Return (Number neg_infinity) else
  (* Apply distance modulus and isoc. extinction to binary magnitudes *)
  let '(binary_mags_Kp, binary_mags_H) :=
    dist_ext_mag_calc (binary_mags_Kp, binary_mags_H) isoc_dist
      isoc_Kp_ext isoc_H_ext in
  (* Apply the extinction difference between model and the isochrone *)
  let binary_mags_Kp := add_scalar binary_mags_Kp Kp_ext_adj in
  let binary_mags_H := add_scalar binary_mags_H H_ext_adj in
  (* Apply the distance modulus for the binary's distance *)
  let binary_mags_Kp := add_scalar binary_mags_Kp dist_mod_mag_adj in
  let binary_mags_H := add_scalar binary_mags_H dist_mod_mag_adj in
  match mesh_plot_out with
  | Some plots =>
      Return (Curves (MagsAndPlots binary_mags_Kp binary_mags_H plots))
  | None => Return (Curves (Mags binary_mags_Kp binary_mags_H))
  end)))).

End Functions.

End MeshAnimate.

(** ** Concrete fitters

    Small instances used to run the model: stand-ins for the collaborators
    that return fixed light curves, and fitters that carry the class-level
    defaults of the two classes. *)

Module Fixtures.

(** Stand-ins for the C library functions. They only shift the model
    magnitudes: the branches taken in the runs below, and every NaN or
    infinite result, are the same for any choice that keeps the model
    magnitudes away from the failure value. *)
Definition libm0 : libm :=
  {| power := fun x y => x * y; log := fun x => x - 1; log10 := fun x => x - 1 |}.

(** *** Radius-interpolation fitter *)

Definition star (r : float) : RadInterp.params_all :=
  {| RadInterp.star_mass_init := r; RadInterp.star_mass := r;
     RadInterp.star_rad := r; RadInterp.star_lum := r;
     RadInterp.star_teff := 5000; RadInterp.star_mag_Kp := 12;
     RadInterp.star_mag_H := 14 |}.

Definition iso0 : RadInterp.isochrone_mist float :=
  {| RadInterp.iso_rad_min := 1; RadInterp.iso_rad_max := 50;
     RadInterp.rad_interp := fun r => (star r, r) |}.

Definition identity_inds (a : ndarray) : list Z :=
  map Z.of_nat (seq 0 (List.length a)).

(** A forward model that answers every call with [binary]. *)
Definition lc_rad (binary : ndarray * ndarray) : RadInterp.lc_calc float :=
  {| RadInterp.single_star_lc := fun _ _ _ => ([12], [14]);
     RadInterp.binary_star_lc := fun _ _ _ _ _ _ => binary;
     RadInterp.dist_ext_mag_calc := fun mags _ _ _ => mags;
     RadInterp.flux_adj := fun _ _ _ _ mags => mags;
     RadInterp.phased_obs := fun times _ _ =>
       ((fst times, identity_inds (fst times), fst times),
        (snd times, identity_inds (snd times), snd times)) |}.

(** A forward model whose single-star run fails. *)
Definition lc_rad_single_fails : RadInterp.lc_calc float :=
  {| RadInterp.single_star_lc := fun _ _ _ => ([(-1)], [(-1)]);
     RadInterp.binary_star_lc := fun _ _ _ _ _ _ => ([12; 12.5], [14; 14.5]);
     RadInterp.dist_ext_mag_calc := fun mags _ _ _ => mags;
     RadInterp.flux_adj := fun _ _ _ _ mags => mags;
     RadInterp.phased_obs := fun times _ _ =>
       ((fst times, identity_inds (fst times), fst times),
        (snd times, identity_inds (snd times), snd times)) |}.

(** The class defaults of [mcmc_fitter_rad_interp], an isochrone at
    [Ks_ext = 2.5], and the given observations. *)
Definition fitter_rad (model_ecc : bool) (lo_ecc hi_ecc : float)
    (kp_mags h_mags : ndarray) : RadInterp.mcmc_fitter_rad_interp float :=
  {| RadInterp.lambda_Ks := 2.18e-6;
     RadInterp.lambda_Kp := 2.124e-6;
     RadInterp.lambda_H := 1.633e-6;
     RadInterp.ext_alpha := 2.30;
     RadInterp.use_blackbody_atm := false;
     RadInterp.model_numTriangles := 1500;
     RadInterp.model_eccentricity := model_ecc;
     RadInterp.lo_Kp_ext_prior_bound := 2.0;
     RadInterp.hi_Kp_ext_prior_bound := 4.0;
     RadInterp.lo_H_ext_mod_prior_bound := (-2.0);
     RadInterp.hi_H_ext_mod_prior_bound := 2.0;
     RadInterp.lo_inc_prior_bound := 0;
     RadInterp.hi_inc_prior_bound := 180;
     RadInterp.lo_period_prior_bound := 79;
     RadInterp.hi_period_prior_bound := 81;
     RadInterp.lo_ecc_prior_bound := lo_ecc;
     RadInterp.hi_ecc_prior_bound := hi_ecc;
     RadInterp.lo_t0_prior_bound := 51773.0;
     RadInterp.hi_t0_prior_bound := 51774.0;
     RadInterp.Ks_ext := 2.5;
     RadInterp.dist := 8000;
     RadInterp.isochrone := iso0;
     RadInterp.Kp_ext := 2.75;
     RadInterp.H_ext := 4.5;
     RadInterp.observation_times := ([51800; 51810], [51805; 51815]);
     RadInterp.kp_obs_mags := kp_mags;
     RadInterp.h_obs_mags := h_mags;
     RadInterp.kp_obs_mag_errors := [0.5; 0.5];
     RadInterp.h_obs_mag_errors := [0.5; 0.5] |}.

(** [theta] inside every default bound, eccentricity modelled. *)
Definition theta_rad : list float :=
  [3.0; 0.25; 10; 5; 90; 80; 0; 51773.5].

(** The same without the eccentricity slot. *)
Definition theta_rad7 : list float :=
  [3.0; 0.25; 10; 5; 90; 80; 51773.5].

(** The secondary larger than the primary. *)
Definition theta_rad_swapped : list float :=
  [3.0; 0.25; 5; 10; 90; 80; 0; 51773.5].

(** *** Blackbody fitter *)

Definition bb_star (mass rad teff : float) : BB.params_all :=
  {| BB.star_mass_init := mass; BB.star_mass := mass; BB.star_rad := rad;
     BB.star_lum := 1; BB.star_teff := teff; BB.star_logg := 4;
     BB.star_mags := (12, 14); BB.star_pblums := (1, 1) |}.

(** A forward model that answers every call with the given magnitudes
    and radial velocities, and a phase folder that answers with the
    given index set for the radial velocities. *)
Definition lc_bb (mags : ndarray * ndarray) (rv_pri rv_sec : ndarray)
    (rv_inds : list Z) : BB.lc_calc_wRV float :=
  {| BB.make_bb_stellar_params := fun _ _ _ =>
       {| BB.calc_stellar_params := fun mass rad teff =>
            (bb_star mass rad teff, rad) |};
     BB.binary_star_lc := fun _ _ _ _ _ _ _ _ => (mags, rv_pri, rv_sec);
     BB.dist_ext_mag_calc := fun mags _ _ => mags;
     BB.phased_obs := fun times _ _ =>
       let '(kp, h, rv) := times in
       ((kp, identity_inds kp, kp), (h, identity_inds h, h),
        (rv, rv_inds, rv)) |}.

(** The class defaults of [mcmc_fitter_bb]. *)
Definition schema0 : BB.schema :=
  {| BB.default_H_ext_mod := 0.0; BB.model_H_ext_mod := true;
     BB.default_ecc := 0.0; BB.model_eccentricity := true;
     BB.default_dist := 7.971e3; BB.model_distance := true;
     BB.default_system_RV := 0.0; BB.model_system_RV := true;
     BB.model_star1_mass := true; BB.default_star1_mass := 10.0;
     BB.model_star1_rad := true; BB.default_star1_rad := 10.0;
     BB.model_star1_teff := true; BB.default_star1_teff := 8000;
     BB.model_star2_mass := true; BB.default_star2_mass := 10.0;
     BB.model_star2_rad := true; BB.default_star2_rad := 10.0;
     BB.model_star2_teff := true; BB.default_star2_teff := 8000;
     BB.star1_mass_larger := false; BB.star1_rad_larger := false;
     BB.star1_teff_larger := false; BB.star2_mass_larger := false;
     BB.star2_rad_larger := false; BB.star2_teff_larger := false |}.

(** The class defaults with [model_distance = False]: the distance is the
    one given to [make_bb_params]. *)
Definition schema_fixed_dist : BB.schema :=
  {| BB.default_H_ext_mod := 0.0; BB.model_H_ext_mod := true;
     BB.default_ecc := 0.0; BB.model_eccentricity := true;
     BB.default_dist := 7.971e3; BB.model_distance := false;
     BB.default_system_RV := 0.0; BB.model_system_RV := true;
     BB.model_star1_mass := true; BB.default_star1_mass := 10.0;
     BB.model_star1_rad := true; BB.default_star1_rad := 10.0;
     BB.model_star1_teff := true; BB.default_star1_teff := 8000;
     BB.model_star2_mass := true; BB.default_star2_mass := 10.0;
     BB.model_star2_rad := true; BB.default_star2_rad := 10.0;
     BB.model_star2_teff := true; BB.default_star2_teff := 8000;
     BB.star1_mass_larger := false; BB.star1_rad_larger := false;
     BB.star1_teff_larger := false; BB.star2_mass_larger := false;
     BB.star2_rad_larger := false; BB.star2_teff_larger := false |}.

(** The default prior bounds, with the given lower bound on the Kp
    extinction and the given prior modes. *)
Definition priors_with (lo_Kp_ext sig_bound : float) (teff_sig_bound : bool)
  : BB.prior_bounds :=
  {| BB.lo_Kp_ext_prior_bound := lo_Kp_ext; BB.hi_Kp_ext_prior_bound := 4.0;
     BB.lo_H_ext_mod_prior_bound := (-2.0);
     BB.hi_H_ext_mod_prior_bound := 2.0;
     BB.H_ext_mod_alpha_sig_bound := sig_bound;
     BB.lo_star1_mass_prior_bound := 0.1;
     BB.hi_star1_mass_prior_bound := 20;
     BB.lo_star1_rad_prior_bound := 0.1;
     BB.hi_star1_rad_prior_bound := 100;
     BB.lo_star1_teff_prior_bound := 5000;
     BB.hi_star1_teff_prior_bound := 50000;
     BB.star1_teff_sig_bound := teff_sig_bound;
     BB.star1_teff_bound_mu := 10000;
     BB.star1_teff_bound_sigma := 1000;
     BB.lo_star2_mass_prior_bound := 0.1;
     BB.hi_star2_mass_prior_bound := 20;
     BB.lo_star2_rad_prior_bound := 0.1;
     BB.hi_star2_rad_prior_bound := 100;
     BB.lo_star2_teff_prior_bound := 5000;
     BB.hi_star2_teff_prior_bound := 50000;
     BB.lo_inc_prior_bound := 0; BB.hi_inc_prior_bound := 180;
     BB.lo_period_prior_bound := 79; BB.hi_period_prior_bound := 81;
     BB.lo_rv_sys_prior_bound := (-500); BB.hi_rv_sys_prior_bound := 500;
     BB.lo_ecc_prior_bound := (-0.1); BB.hi_ecc_prior_bound := 0.1;
     BB.lo_dist_prior_bound := 7600; BB.hi_dist_prior_bound := 8200;
     BB.lo_t0_prior_bound := 51773.0; BB.hi_t0_prior_bound := 51774.0 |}.

Definition priors0 : BB.prior_bounds := priors_with 2.0 (-1.0) false.

Definition options0 : BB.model_options :=
  {| BB.ext_alpha := 2.30; BB.ext_alpha_unc := 0.08;
     BB.use_blackbody_atm := true; BB.model_numTriangles := 1500;
     BB.irrad_frac_refl := 0.6; BB.model_compact := true |}.

(** Two Kp and two H magnitudes, and two epochs with a primary and a
    secondary radial velocity each. *)
Definition data0 (kp_mags rv_pri rv_sec : ndarray) : BB.observations :=
  {| BB.obs_filts_rv := ["rv_pri"; "rv_pri"; "rv_sec"; "rv_sec"]%string;
     BB.observation_times := ([51800; 51810], [51805; 51815], [51820; 51830]);
     BB.kp_obs_mags := kp_mags;
     BB.kp_obs_mag_errors := [0.5; 0.5];
     BB.h_obs_mags := [14; 15];
     BB.h_obs_mag_errors := [0.5; 0.5];
     BB.obs_rv_pri := rv_pri;
     BB.obs_rv_pri_errors := [4; 4];
     BB.obs_rv_sec := rv_sec;
     BB.obs_rv_sec_errors := [4; 4] |}.

(** A fitter before [make_bb_params] has run: nothing is set up yet. *)
Definition blank_setup (lc : BB.lc_calc_wRV float) : BB.bb_setup float :=
  {| BB.Ks_ext := 0; BB.dist := 0; BB.filts_list := []; BB.num_filts := 0;
     BB.filts_ext := [];
     BB.bb_params_obj := BB.make_bb_stellar_params lc 0 0 [] |}.

Definition fitter_bb_new (lc : BB.lc_calc_wRV float) (s : BB.schema)
    (p : BB.prior_bounds) (obs : BB.observations) : BB.mcmc_fitter_bb float :=
  {| BB.options := options0; BB.params := s; BB.priors := p;
     BB.setup := blank_setup lc; BB.data := obs |}.

(** The fitter after [make_bb_params(2.5, 7971)]. *)
Definition fitter_bb (lc : BB.lc_calc_wRV float) (s : BB.schema)
    (p : BB.prior_bounds) (obs : BB.observations) : BB.mcmc_fitter_bb float :=
  BB.make_bb_params libm0 lc 2.5 7971 BB.default_filts_list
    (fitter_bb_new lc s p obs).

(** [theta] inside every default bound: the thirteen quantities of
    [schema_fixed_dist]. *)
Definition theta_bb : list float :=
  [3.0; 0.25; 10; 10; 8000; 5; 5; 7000; 90; 80; 0; 0; 51773.5].

(** The same with the distance, for the class defaults: all fourteen
    quantities free. *)
Definition theta_bb_dist : list float :=
  [3.0; 0.25; 10; 10; 8000; 5; 5; 7000; 90; 80; 0; 0; 7971; 51773.5].

(** *** The runs used below *)

Definition rad_lc : RadInterp.lc_calc float := lc_rad ([12; 12.5], [14; 14.5]).
Definition rad_lc_fails : RadInterp.lc_calc float := lc_rad ([(-1)], [(-1)]).
Definition rad_fit : RadInterp.mcmc_fitter_rad_interp float :=
  fitter_rad true (-0.1) 0.1 [12.25; 12.5] [14; 15].

(** The first Kp magnitude is missing. *)
Definition rad_fit_nan : RadInterp.mcmc_fitter_rad_interp float :=
  fitter_rad true (-0.1) 0.1 [nan; 12.5] [14; 15].

Definition rad_log_to_binary : list call :=
  [rad_interp_call; rad_interp_call; single_star_lc_call;
   single_star_lc_call; dist_ext_mag_calc_call; dist_ext_mag_calc_call;
   binary_star_lc_call].
Definition rad_log_model : list call :=
  rad_log_to_binary ++ [dist_ext_mag_calc_call; flux_adj_call].
Definition rad_log_full : list call := rad_log_model ++ [phased_obs_call].

Definition bb_lc : BB.lc_calc_wRV float :=
  lc_bb ([12; 12.5], [14; 14.5]) [100; (-100)] [(-100); 100] [1%Z; 0%Z].
Definition bb_lc_fails : BB.lc_calc_wRV float :=
  lc_bb ([(-1)], [(-1)]) [(-1)] [(-1)] [1%Z; 0%Z].

(** Each role misses one of the two epochs. *)
Definition bb_fit : BB.mcmc_fitter_bb float :=
  fitter_bb bb_lc schema_fixed_dist priors0 (data0 [12.25; 12.5] [90; nan] [nan; 110]).

(** The first Kp magnitude is missing as well. *)
Definition bb_fit_nan : BB.mcmc_fitter_bb float :=
  fitter_bb bb_lc schema_fixed_dist priors0 (data0 [nan; 12.5] [90; nan] [nan; 110]).

Definition bb_log_to_binary : list call :=
  [calc_stellar_params_call; calc_stellar_params_call; binary_star_lc_call].
Definition bb_log_model : list call :=
  bb_log_to_binary ++ [dist_ext_mag_calc_call].
Definition bb_log_full : list call := bb_log_model ++ [phased_obs_call].

(** The magnitudes are fine and both radial-velocity arrays start with
    [-1.]. *)
Definition bb_lc_rv_sentinel : BB.lc_calc_wRV float :=
  lc_bb ([12; 12.5], [14; 14.5]) [(-1); 30] [(-1); (-30)] [1%Z; 0%Z].

(** [theta_bb] with a systemic velocity of 10 km/s. *)
Definition theta_bb_rv10 : list float :=
  [3.0; 0.25; 10; 10; 8000; 5; 5; 7000; 90; 80; 10; 0; 51773.5].

(** A distance of 8100 pc. *)
Definition theta_bb_far : list float :=
  [3.0; 0.25; 10; 10; 8000; 5; 5; 7000; 90; 80; 0; 0; 8100; 51773.5].

Definition bb_fit_new : BB.mcmc_fitter_bb float :=
  fitter_bb_new bb_lc schema_fixed_dist priors0
    (data0 [12.25; 12.5] [90; nan] [nan; 110]).

(** The fitters with the class defaults: the distance is read from
    [theta]. *)
Definition bb_fit_new_dist : BB.mcmc_fitter_bb float :=
  fitter_bb_new bb_lc schema0 priors0 (data0 [12.25; 12.5] [90; nan] [nan; 110]).
Definition bb_fit_dist : BB.mcmc_fitter_bb float :=
  BB.make_bb_params libm0 bb_lc 2.5 7971 BB.default_filts_list bb_fit_new_dist.

(** The eccentricity is not modelled and its bounds are [0.05, 0.1]. *)
Definition rad_fit_fixed_ecc : RadInterp.mcmc_fitter_rad_interp float :=
  fitter_rad false 0.05 0.1 [12.25; 12.5] [14; 15].

(** An inclination of 200 degrees. *)
Definition theta_bb_inc200 : list float :=
  [3.0; 0.25; 10; 10; 8000; 5; 5; 7000; 200; 80; 0; 0; 51773.5].

(** An H extinction modifier of 5. *)
Definition theta_bb_H5 : list float :=
  [3.0; 5; 10; 10; 8000; 5; 5; 7000; 90; 80; 0; 0; 51773.5].

(** No Kp extinction and no H extinction modifier. *)
Definition theta_bb_no_ext : list float :=
  [0; 0; 10; 10; 8000; 5; 5; 7000; 90; 80; 0; 0; 51773.5].

(** Gaussian priors on both the H extinction modifier and the temperature
    of star 1. *)
Definition bb_fit_gaussian : BB.mcmc_fitter_bb float :=
  fitter_bb bb_lc schema_fixed_dist (priors_with 2.0 1.0 true)
    (data0 [12.25; 12.5] [90; nan] [nan; 110]).

(** A Gaussian prior on the temperature of star 1 only. *)
Definition bb_fit_teff_gaussian : BB.mcmc_fitter_bb float :=
  fitter_bb bb_lc schema_fixed_dist (priors_with 2.0 (-1.0) true)
    (data0 [12.25; 12.5] [90; nan] [nan; 110]).

(** A Gaussian prior on the H extinction modifier, the Kp extinction
    allowed down to zero. *)
Definition bb_fit_H_gaussian : BB.mcmc_fitter_bb float :=
  fitter_bb bb_lc schema_fixed_dist (priors_with 0 1.0 false)
    (data0 [12.25; 12.5] [90; nan] [nan; 110]).

(** *** The runs of the further properties *)

(** The inclination is NaN. *)
Definition theta_rad_nan : list float :=
  [3.0; 0.25; 10; 5; nan; 80; 0; 51773.5].
Definition theta_bb_nan : list float :=
  [3.0; 0.25; 10; 10; 8000; 5; 5; 7000; nan; 80; 0; 0; 51773.5].

(** The bounds of the eccentricity given as [(0.1, -0.1)]. *)
Definition rad_fit_swapped : RadInterp.mcmc_fitter_rad_interp float :=
  fitter_rad true 0.1 (-0.1) [12.25; 12.5] [14; 15].

(** [set_dist_prior_bounds(8200., 7600.)] *)
Definition bb_fit_swapped : BB.mcmc_fitter_bb float :=
  BB.set_dist_prior_bounds 8200 7600 bb_fit.

(** Radial velocities of the primary only. *)
Definition data_pri_only : BB.observations :=
  {| BB.obs_filts_rv := ["rv_pri"; "rv_pri"]%string;
     BB.observation_times := ([51800; 51810], [51805; 51815], [51820; 51830]);
     BB.kp_obs_mags := [12.25; 12.5];
     BB.kp_obs_mag_errors := [0.5; 0.5];
     BB.h_obs_mags := [14; 15];
     BB.h_obs_mag_errors := [0.5; 0.5];
     BB.obs_rv_pri := [90; 95];
     BB.obs_rv_pri_errors := [4; 4];
     BB.obs_rv_sec := [];
     BB.obs_rv_sec_errors := [] |}.

Definition bb_fit_pri_only : BB.mcmc_fitter_bb float :=
  fitter_bb bb_lc schema_fixed_dist priors0 data_pri_only.

(** [make_bb_params] with filter objects the caller made. *)
Definition own_filters : list BB.filter :=
  [Filters.nirc2_kp_filt 7; Filters.nirc2_h_filt 8].

Definition bb_fit_own_filters : BB.mcmc_fitter_bb float :=
  BB.make_bb_params libm0 bb_lc 2.5 7971 own_filters bb_fit_new.

(** Forward models whose Kp array has three magnitudes, one magnitude and
    none, for two observations. *)
Definition rad_lc_three : RadInterp.lc_calc float :=
  lc_rad ([12; 12.5; 13], [14; 14.5]).
Definition rad_lc_one : RadInterp.lc_calc float := lc_rad ([12], [14; 14.5]).
Definition bb_lc_empty : BB.lc_calc_wRV float :=
  lc_bb ([], [14; 14.5]) [100; (-100)] [(-100); 100] [1%Z; 0%Z].

(** A forward model whose single-star run returns an empty Kp array. *)
Definition lc_rad_single_empty : RadInterp.lc_calc float :=
  {| RadInterp.single_star_lc := fun _ _ _ => ([], [14]);
     RadInterp.binary_star_lc := fun _ _ _ _ _ _ => ([12; 12.5], [14; 14.5]);
     RadInterp.dist_ext_mag_calc := fun mags _ _ _ => mags;
     RadInterp.flux_adj := fun _ _ _ _ mags => mags;
     RadInterp.phased_obs := fun times _ _ =>
       ((fst times, identity_inds (fst times), fst times),
        (snd times, identity_inds (snd times), snd times)) |}.

(** Seven observations, one of them with a label the fitter does not
    know. *)
Definition labels0 : list string :=
  ["kp"; "rv_pri"; "h"; "rv_sec"; "kp"; "rv_pri"; "flux"]%string.
Definition obs_times0 : ndarray :=
  [51800; 51820; 51805; 51820; 51810; 51830; 51840].
Definition obs0 : ndarray := [12.25; 90; 14; 110; 12.5; 95; 1].
Definition obs_errors0 : ndarray := [0.5; 4; 0.6; 5; 0.7; 6; 9].

Definition blank_data : BB.observations :=
  {| BB.obs_filts_rv := [];
     BB.observation_times := ([], [], []);
     BB.kp_obs_mags := [];
     BB.kp_obs_mag_errors := [];
     BB.h_obs_mags := [];
     BB.h_obs_mag_errors := [];
     BB.obs_rv_pri := [];
     BB.obs_rv_pri_errors := [];
     BB.obs_rv_sec := [];
     BB.obs_rv_sec_errors := [] |}.

(** [np.unique] on numbers: the sorted values, each once. *)
Fixpoint insert_unique (x : float) (l : ndarray) : ndarray :=
  match l with
  | [] => [x]
  | y :: l' =>
      if x <? y then x :: l
      else if x =? y then l
      else y :: insert_unique x l'
  end.
Definition np_unique0 (a : ndarray) : ndarray := fold_right insert_unique [] a.

(** [schema_fixed_dist] with the given relational requirements on the
    masses and on the radius of star 1. *)
Definition schema_ordered (star1_mass star2_mass star1_rad : bool)
  : BB.schema :=
  {| BB.default_H_ext_mod := 0.0; BB.model_H_ext_mod := true;
     BB.default_ecc := 0.0; BB.model_eccentricity := true;
     BB.default_dist := 7.971e3; BB.model_distance := false;
     BB.default_system_RV := 0.0; BB.model_system_RV := true;
     BB.model_star1_mass := true; BB.default_star1_mass := 10.0;
     BB.model_star1_rad := true; BB.default_star1_rad := 10.0;
     BB.model_star1_teff := true; BB.default_star1_teff := 8000;
     BB.model_star2_mass := true; BB.default_star2_mass := 10.0;
     BB.model_star2_rad := true; BB.default_star2_rad := 10.0;
     BB.model_star2_teff := true; BB.default_star2_teff := 8000;
     BB.star1_mass_larger := star1_mass; BB.star1_rad_larger := star1_rad;
     BB.star1_teff_larger := false; BB.star2_mass_larger := star2_mass;
     BB.star2_rad_larger := false; BB.star2_teff_larger := false |}.

Definition bb_fit_ordered (star1_mass star2_mass star1_rad : bool)
  : BB.mcmc_fitter_bb float :=
  fitter_bb bb_lc (schema_ordered star1_mass star2_mass star1_rad) priors0
    (data0 [12.25; 12.5] [90; nan] [nan; 110]).

(** Two stars of five solar radii. *)
Definition theta_bb_same_rad : list float :=
  [3.0; 0.25; 10; 5; 8000; 5; 5; 7000; 90; 80; 0; 0; 51773.5].

(** The primary has a third radial velocity, [x], for the two epochs of
    [data0]: three observations of the primary and two of the
    secondary. *)
Definition data_three_pri (x : float) : BB.observations :=
  {| BB.obs_filts_rv :=
       ["rv_pri"; "rv_pri"; "rv_pri"; "rv_sec"; "rv_sec"]%string;
     BB.observation_times := ([51800; 51810], [51805; 51815], [51820; 51830]);
     BB.kp_obs_mags := [12.25; 12.5];
     BB.kp_obs_mag_errors := [0.5; 0.5];
     BB.h_obs_mags := [14; 15];
     BB.h_obs_mag_errors := [0.5; 0.5];
     BB.obs_rv_pri := [90; 91; x];
     BB.obs_rv_pri_errors := [4; 4; 4];
     BB.obs_rv_sec := [(-80); (-85)];
     BB.obs_rv_sec_errors := [4; 4] |}.

Definition bb_fit_three_pri (x : float) : BB.mcmc_fitter_bb float :=
  fitter_bb bb_lc schema_fixed_dist priors0 (data_three_pri x).

(** [schema_fixed_dist] with the mass of star 2 fixed at its default,
    [10.0 * u.solMass], and star 1 required to be the more massive. *)
Definition schema_fixed_mass : BB.schema :=
  {| BB.default_H_ext_mod := 0.0; BB.model_H_ext_mod := true;
     BB.default_ecc := 0.0; BB.model_eccentricity := true;
     BB.default_dist := 7.971e3; BB.model_distance := false;
     BB.default_system_RV := 0.0; BB.model_system_RV := true;
     BB.model_star1_mass := true; BB.default_star1_mass := 10.0;
     BB.model_star1_rad := true; BB.default_star1_rad := 10.0;
     BB.model_star1_teff := true; BB.default_star1_teff := 8000;
     BB.model_star2_mass := false; BB.default_star2_mass := 10.0;
     BB.model_star2_rad := true; BB.default_star2_rad := 10.0;
     BB.model_star2_teff := true; BB.default_star2_teff := 8000;
     BB.star1_mass_larger := true; BB.star1_rad_larger := false;
     BB.star1_teff_larger := false; BB.star2_mass_larger := false;
     BB.star2_rad_larger := false; BB.star2_teff_larger := false |}.

Definition bb_fit_fixed_mass : BB.mcmc_fitter_bb float :=
  fitter_bb bb_lc schema_fixed_mass priors0
    (data0 [12.25; 12.5] [90; nan] [nan; 110]).

(** A primary of 12 solar masses; no slot for the mass of star 2. *)
Definition theta_bb_fixed_mass : list float :=
  [3.0; 0.25; 12; 10; 8000; 5; 7000; 90; 80; 0; 0; 51773.5].

(** The same with an inclination of 200 degrees, and with one of NaN. *)
Definition theta_bb_fixed_mass_inc200 : list float :=
  [3.0; 0.25; 12; 10; 8000; 5; 7000; 200; 80; 0; 0; 51773.5].
Definition theta_bb_fixed_mass_nan : list float :=
  [3.0; 0.25; 12; 10; 8000; 5; 7000; nan; 80; 0; 0; 51773.5].

(** A primary of 10 solar masses, as massive as the default of star 2. *)
Definition theta_bb_fixed_mass_tied : list float :=
  [3.0; 0.25; 10; 10; 8000; 5; 7000; 90; 80; 0; 0; 51773.5].

(** [schema_fixed_dist] with the temperature of star 1 fixed at its
    default, [8000. * u.K], under the Gaussian prior of mean 10000 K. *)
Definition schema_fixed_teff : BB.schema :=
  {| BB.default_H_ext_mod := 0.0; BB.model_H_ext_mod := true;
     BB.default_ecc := 0.0; BB.model_eccentricity := true;
     BB.default_dist := 7.971e3; BB.model_distance := false;
     BB.default_system_RV := 0.0; BB.model_system_RV := true;
     BB.model_star1_mass := true; BB.default_star1_mass := 10.0;
     BB.model_star1_rad := true; BB.default_star1_rad := 10.0;
     BB.model_star1_teff := false; BB.default_star1_teff := 8000;
     BB.model_star2_mass := true; BB.default_star2_mass := 10.0;
     BB.model_star2_rad := true; BB.default_star2_rad := 10.0;
     BB.model_star2_teff := true; BB.default_star2_teff := 8000;
     BB.star1_mass_larger := false; BB.star1_rad_larger := false;
     BB.star1_teff_larger := false; BB.star2_mass_larger := false;
     BB.star2_rad_larger := false; BB.star2_teff_larger := false |}.

Definition bb_fit_fixed_teff : BB.mcmc_fitter_bb float :=
  fitter_bb bb_lc schema_fixed_teff (priors_with 2.0 (-1.0) true)
    (data0 [12.25; 12.5] [90; nan] [nan; 110]).

(** No slot for the temperature of star 1. *)
Definition theta_bb_fixed_teff : list float :=
  [3.0; 0.25; 10; 10; 5; 5; 7000; 90; 80; 0; 0; 51773.5].

(** *** Meshes *)

Definition mesh_star (mass rad teff : float) : MeshAnimate.stellar_params :=
  {| MeshAnimate.star_mass := mass; MeshAnimate.star_rad := rad;
     MeshAnimate.star_teff := teff; MeshAnimate.star_logg := 4.2;
     MeshAnimate.star_mag_Kp := 12; MeshAnimate.star_mag_H := 14;
     MeshAnimate.star_pblum_Kp := 1; MeshAnimate.star_pblum_H := 1 |}.

(** A stand-in for PHOEBE: both components may grow to [rad_max], every
    radius is accepted, and the computation fails when [fails]. *)
Definition phoebe0 (rad_max : float) (fails : bool) : MeshAnimate.phoebe :=
  {| MeshAnimate.binary_sma := fun period _ _ => period;
     MeshAnimate.requiv_max := fun _ _ _ _ => (rad_max, rad_max);
     MeshAnimate.accepts_requiv_secondary := fun _ => true;
     MeshAnimate.run_compute := fun _ =>
       if fails then None else Some ([2; 3], [2; 3]);
     MeshAnimate.mesh_plots := fun _ => [0%nat] |}.

Definition mesh_times : ndarray * ndarray * ndarray :=
  ([51800; 51810], [51805; 51815], [51800]).

Definition mesh_orbit : MeshAnimate.binary_params := (80, 0, 90, 51773.5).

(** The light curve of [binary_mesh_calc] for the given stars. *)
Definition mesh_calc (ph : MeshAnimate.phoebe)
    (star1 star2 : MeshAnimate.stellar_params) (make_mesh_plots : bool)
  : MeshAnimate.result MeshAnimate.calc_out :=
  MeshAnimate.binary_mesh_calc libm0 ph 1 1 star1 star2 mesh_orbit mesh_times
    2.5 3 4.5 2.30 8000 8000 false make_mesh_plots false 1500.

End Fixtures.

(** ** Vocabulary of the statements *)

(** The first element of the array is the failure value [-1.]. *)
Definition starts_with_sentinel (a : ndarray) : Prop :=
  exists x rest, a = x :: rest /\ (x =? (-1)) = true.

(** A pair of magnitude arrays signals failure: the Kp array starts with
    the failure value, or it starts with something else and the H array
    starts with the failure value. *)
Definition signals_failure (Kp H : ndarray) : Prop :=
  starts_with_sentinel Kp \/ (Kp <> [] /\ starts_with_sentinel H).

(** Both arrays have a first element and neither is the failure value. *)
Definition no_failure (Kp H : ndarray) : Prop :=
  exists k Kp' h H', Kp = k :: Kp' /\ H = h :: H'
                     /\ (k =? (-1)) = false /\ (h =? (-1)) = false.

(** [x] lies strictly outside the bound [[lo, hi]]. *)
Definition strictly_outside (lo x hi : float) : bool := (x <? lo) || (hi <? x).

(** The number of slots of [theta] the radius-interpolation fitter
    expects. *)
Definition rad_arity (model_ecc : bool) : nat := if model_ecc then 8%nat else 7%nat.

(** The two radial-velocity arrays of a forward-model result. *)
Definition model_rvs (r : M (ndarray * ndarray * ndarray * ndarray))
  : outcome (ndarray * ndarray) :=
  match result r with
  | Returns (_, _, rv_pri, rv_sec) => Returns (rv_pri, rv_sec)
  | Raises e => Raises e
  end.

(** The slot of [theta] each named quantity was read from, in the order of
    the traversal, and the number of slots read. *)
Definition slots (u : BB.unpacked) : list (string * option nat) :=
  [("Kp_ext", BB.slot (BB.Kp_ext u));
   ("H_ext_mod", BB.slot (BB.H_ext_mod u));
   ("star1_mass", BB.slot (BB.star1_mass u));
   ("star1_rad", BB.slot (BB.star1_rad u));
   ("star1_teff", BB.slot (BB.star1_teff u));
   ("star2_mass", BB.slot (BB.star2_mass u));
   ("star2_rad", BB.slot (BB.star2_rad u));
   ("star2_teff", BB.slot (BB.star2_teff u));
   ("binary_inc", BB.slot (BB.binary_inc u));
   ("binary_period", BB.slot (BB.binary_period u));
   ("binary_rv_sys", BB.slot (BB.binary_rv_sys u));
   ("binary_ecc", BB.slot (BB.binary_ecc u));
   ("binary_dist", BB.slot (BB.binary_dist u));
   ("t0", BB.slot (BB.t0 u))]%string.

Definition slots_read (u : BB.unpacked) : nat := S (BB.theta_index_end u).

Definition layout (o : outcome BB.unpacked)
  : outcome (list (string * option nat) * nat) :=
  obind o (fun u => Returns (slots u, slots_read u)).

(** The unpacker as the specification words it: walk the schema in its
    fixed order, give a free entry the running index and advance it, leave
    a fixed entry at its default. *)
Definition schema_entries (s : BB.schema) : list (string * bool) :=
  [("Kp_ext", true);
   ("H_ext_mod", BB.model_H_ext_mod s);
   ("star1_mass", BB.model_star1_mass s);
   ("star1_rad", BB.model_star1_rad s);
   ("star1_teff", BB.model_star1_teff s);
   ("star2_mass", BB.model_star2_mass s);
   ("star2_rad", BB.model_star2_rad s);
   ("star2_teff", BB.model_star2_teff s);
   ("binary_inc", true);
   ("binary_period", true);
   ("binary_rv_sys", true);
   ("binary_ecc", BB.model_eccentricity s);
   ("binary_dist", BB.model_distance s);
   ("t0", true)]%string.

Fixpoint schema_walk (entries : list (string * bool)) (index : nat)
  : list (string * option nat) :=
  match entries with
  | [] => []
  | (name, true) :: rest => (name, Some index) :: schema_walk rest (S index)
  | (name, false) :: rest => (name, None) :: schema_walk rest index
  end.

Definition free_count (entries : list (string * bool)) : nat :=
  List.length (filter snd entries).

(** The traversal of [lnprior] written as a loop over its entries: name,
    toggle, unit conversion and default. *)
Definition entry : Type := (string * bool * (float -> float) * float)%type.

Fixpoint read_all (entries : list entry) (theta : list float) (index : nat)
  : outcome (list (string * option nat) * nat) :=
  match entries with
  | [] => Returns ([], index)
  | (name, free, conv, default) :: rest =>
      obind (BB.read_if free conv default theta index) (fun r =>
      obind (read_all rest theta (snd r)) (fun rs =>
      Returns ((name, BB.slot (fst r)) :: fst rs, snd rs)))
  end.

(** The entries of [lnprior] before [t0]. *)
Definition lnprior_entries (s : BB.schema) : list entry :=
  [("Kp_ext", true, id, 0);
   ("H_ext_mod", BB.model_H_ext_mod s, id, BB.default_H_ext_mod s);
   ("star1_mass", BB.model_star1_mass s, id, BB.default_star1_mass s);
   ("star1_rad", BB.model_star1_rad s, id, BB.default_star1_rad s);
   ("star1_teff", BB.model_star1_teff s, id, BB.default_star1_teff s);
   ("star2_mass", BB.model_star2_mass s, id, BB.default_star2_mass s);
   ("star2_rad", BB.model_star2_rad s, id, BB.default_star2_rad s);
   ("star2_teff", BB.model_star2_teff s, id, BB.default_star2_teff s);
   ("binary_inc", true, id, 0);
   ("binary_period", true, id, 0);
   ("binary_rv_sys", true, id, 0);
   ("binary_ecc", BB.model_eccentricity s, id, BB.default_ecc s);
   ("binary_dist", BB.model_distance s, id, BB.default_dist s)]%string.

Definition flags (entries : list entry) : list (string * bool) :=
  map (fun e => (fst (fst (fst e)), snd (fst (fst e)))) entries.

(** One chi-square term, [(obs - model)**2. / err**2.]. *)
Definition term (o mo e : float) : float := ((o - mo) * (o - mo)) / (e * e).

(** The terms of the observations paired position by position with the
    model, every observation taken. *)
Fixpoint terms_all (o mo e : ndarray) : list float :=
  match o, mo, e with
  | oi :: o', mi :: mo', ei :: e' => term oi mi ei :: terms_all o' mo' e'
  | _, _, _ => []
  end.

(** The same, the observations that are NaN left out. *)
Fixpoint terms_skipping_nan (o mo e : ndarray) : list float :=
  match o, mo, e with
  | oi :: o', mi :: mo', ei :: e' =>
      if isnan oi then terms_skipping_nan o' mo' e'
      else term oi mi ei :: terms_skipping_nan o' mo' e'
  | _, _, _ => []
  end.

(** The elements of [l] at the positions where [o] holds a number. *)
Fixpoint numbers_of (o l : ndarray) : ndarray :=
  match o, l with
  | oi :: o', x :: l' =>
      if isnan oi then numbers_of o' l' else x :: numbers_of o' l'
  | _, _ => []
  end.

(** The bound of a quantity holds when the quantity is free; a quantity
    that is not free has no bound to hold. *)
Definition within_if (free : bool) (lo x hi : float) : bool :=
  if free then between lo x hi else true.

(** A comparison of [lnprior] between the same quantity of the two stars
    that astropy refuses: one of them is read from [theta], the other is
    the class default, a Quantity, and the number read is not zero,
    infinite or NaN. *)
Definition refused (a_free : bool) (a : float) (b_free : bool) (b : float)
  : bool :=
  negb (Bool.eqb a_free b_free)
  && negb (BB.can_have_arbitrary_unit (if a_free then a else b)).

(** A free quantity lies strictly outside its bound. *)
Definition outside_if (free : bool) (lo x hi : float) : bool :=
  free && strictly_outside lo x hi.

Section RadChecks.
Context {lcfit : Type}.
Variable self : RadInterp.mcmc_fitter_rad_interp lcfit.
Variable u : RadInterp.unpacked.

(** The six configured bounds hold for the values in use: the eccentricity
    is [0.] when it is not modelled. *)
Definition rad_bounds_hold : bool :=
  between (RadInterp.lo_Kp_ext_prior_bound self) (RadInterp.Kp_ext_t u)
    (RadInterp.hi_Kp_ext_prior_bound self)
  && between (RadInterp.lo_H_ext_mod_prior_bound self) (RadInterp.H_ext_mod_t u)
       (RadInterp.hi_H_ext_mod_prior_bound self)
  && between (RadInterp.lo_inc_prior_bound self) (RadInterp.binary_inc_t u)
       (RadInterp.hi_inc_prior_bound self)
  && between (RadInterp.lo_period_prior_bound self) (RadInterp.binary_period_t u)
       (RadInterp.hi_period_prior_bound self)
  && between (RadInterp.lo_ecc_prior_bound self) (RadInterp.binary_ecc_t u)
       (RadInterp.hi_ecc_prior_bound self)
  && between (RadInterp.lo_t0_prior_bound self) (RadInterp.t0_t u)
       (RadInterp.hi_t0_prior_bound self).

(** The bounds hold for the free components of [theta], as C2 words it:
    the eccentricity counts only when it is modelled. *)
Definition rad_free_bounds_hold : bool :=
  between (RadInterp.lo_Kp_ext_prior_bound self) (RadInterp.Kp_ext_t u)
    (RadInterp.hi_Kp_ext_prior_bound self)
  && between (RadInterp.lo_H_ext_mod_prior_bound self) (RadInterp.H_ext_mod_t u)
       (RadInterp.hi_H_ext_mod_prior_bound self)
  && between (RadInterp.lo_inc_prior_bound self) (RadInterp.binary_inc_t u)
       (RadInterp.hi_inc_prior_bound self)
  && between (RadInterp.lo_period_prior_bound self) (RadInterp.binary_period_t u)
       (RadInterp.hi_period_prior_bound self)
  && within_if (RadInterp.model_eccentricity self)
       (RadInterp.lo_ecc_prior_bound self) (RadInterp.binary_ecc_t u)
       (RadInterp.hi_ecc_prior_bound self)
  && between (RadInterp.lo_t0_prior_bound self) (RadInterp.t0_t u)
       (RadInterp.hi_t0_prior_bound self).

Definition rad_radius_checks_pass : bool :=
  (RadInterp.star2_rad_t u <=? RadInterp.star1_rad_t u)
  && between (RadInterp.iso_rad_min (RadInterp.isochrone self))
       (RadInterp.star1_rad_t u)
       (RadInterp.iso_rad_max (RadInterp.isochrone self))
  && between (RadInterp.iso_rad_min (RadInterp.isochrone self))
       (RadInterp.star2_rad_t u)
       (RadInterp.iso_rad_max (RadInterp.isochrone self)).

(** One of the six values in use lies strictly outside its bound. *)
Definition rad_some_outside : bool :=
  strictly_outside (RadInterp.lo_Kp_ext_prior_bound self) (RadInterp.Kp_ext_t u)
    (RadInterp.hi_Kp_ext_prior_bound self)
  || strictly_outside (RadInterp.lo_H_ext_mod_prior_bound self)
       (RadInterp.H_ext_mod_t u) (RadInterp.hi_H_ext_mod_prior_bound self)
  || strictly_outside (RadInterp.lo_inc_prior_bound self)
       (RadInterp.binary_inc_t u) (RadInterp.hi_inc_prior_bound self)
  || strictly_outside (RadInterp.lo_period_prior_bound self)
       (RadInterp.binary_period_t u) (RadInterp.hi_period_prior_bound self)
  || strictly_outside (RadInterp.lo_ecc_prior_bound self)
       (RadInterp.binary_ecc_t u) (RadInterp.hi_ecc_prior_bound self)
  || strictly_outside (RadInterp.lo_t0_prior_bound self) (RadInterp.t0_t u)
       (RadInterp.hi_t0_prior_bound self).

End RadChecks.

(** The conditions of C2 on a [theta] of the radius-interpolation fitter. *)
Definition rad_claim_conditions {lcfit}
    (self : RadInterp.mcmc_fitter_rad_interp lcfit) (theta : list float)
  : outcome bool :=
  obind (RadInterp.unpack (RadInterp.model_eccentricity self) theta) (fun u =>
  Returns (rad_free_bounds_hold self u && rad_radius_checks_pass self u)).

Section BBChecks.
Variable s : BB.schema.
Variable p : BB.prior_bounds.
Variable u : BB.unpacked.

(** Both quantities with two prior modes are in the uniform one. *)
Definition bb_uniform_mode : bool :=
  (BB.H_ext_mod_alpha_sig_bound p =? (-1)) && negb (BB.star1_teff_sig_bound p).

(** The bounds that are checked whether or not the quantity is free, for
    the values in use. *)
Definition bb_orbit_bounds_hold : bool :=
  between (BB.lo_Kp_ext_prior_bound p) (BB.value (BB.Kp_ext u))
    (BB.hi_Kp_ext_prior_bound p)
  && between (BB.lo_inc_prior_bound p) (BB.value (BB.binary_inc u))
       (BB.hi_inc_prior_bound p)
  && between (BB.lo_period_prior_bound p) (BB.value (BB.binary_period u))
       (BB.hi_period_prior_bound p)
  && between (BB.lo_rv_sys_prior_bound p) (BB.value (BB.binary_rv_sys u))
       (BB.hi_rv_sys_prior_bound p)
  && between (BB.lo_ecc_prior_bound p) (BB.value (BB.binary_ecc u))
       (BB.hi_ecc_prior_bound p)
  && between (BB.lo_dist_prior_bound p) (BB.value (BB.binary_dist u))
       (BB.hi_dist_prior_bound p)
  && between (BB.lo_t0_prior_bound p) (BB.value (BB.t0 u))
       (BB.hi_t0_prior_bound p).

Definition bb_H_ext_mod_bound_holds : bool :=
  between (BB.lo_H_ext_mod_prior_bound p) (BB.value (BB.H_ext_mod u))
    (BB.hi_H_ext_mod_prior_bound p).

(** The bounds of the stellar quantities, each checked when the quantity
    is free; the temperature of star 1 only when it is in uniform mode. *)
Definition bb_star_bounds_hold : bool :=
  within_if (BB.model_star1_mass s) (BB.lo_star1_mass_prior_bound p)
    (BB.value (BB.star1_mass u)) (BB.hi_star1_mass_prior_bound p)
  && within_if (BB.model_star1_rad s) (BB.lo_star1_rad_prior_bound p)
       (BB.value (BB.star1_rad u)) (BB.hi_star1_rad_prior_bound p)
  && within_if (BB.model_star1_teff s && negb (BB.star1_teff_sig_bound p))
       (BB.lo_star1_teff_prior_bound p) (BB.value (BB.star1_teff u))
       (BB.hi_star1_teff_prior_bound p)
  && within_if (BB.model_star2_mass s) (BB.lo_star2_mass_prior_bound p)
       (BB.value (BB.star2_mass u)) (BB.hi_star2_mass_prior_bound p)
  && within_if (BB.model_star2_rad s) (BB.lo_star2_rad_prior_bound p)
       (BB.value (BB.star2_rad u)) (BB.hi_star2_rad_prior_bound p)
  && within_if (BB.model_star2_teff s) (BB.lo_star2_teff_prior_bound p)
       (BB.value (BB.star2_teff u)) (BB.hi_star2_teff_prior_bound p).

(** The relational requirements that are switched on. *)
Definition bb_ordering_holds : bool :=
  (if BB.star1_mass_larger s
   then BB.value (BB.star2_mass u) <? BB.value (BB.star1_mass u) else true)
  && (if BB.star1_rad_larger s
      then BB.value (BB.star2_rad u) <? BB.value (BB.star1_rad u) else true)
  && (if BB.star1_teff_larger s
      then BB.value (BB.star2_teff u) <? BB.value (BB.star1_teff u) else true)
  && (if BB.star2_mass_larger s
      then BB.value (BB.star1_mass u) <? BB.value (BB.star2_mass u) else true)
  && (if BB.star2_rad_larger s
      then BB.value (BB.star1_rad u) <? BB.value (BB.star2_rad u) else true)
  && (if BB.star2_teff_larger s
      then BB.value (BB.star1_teff u) <? BB.value (BB.star2_teff u) else true).

(** A relational requirement that is switched on comes, the bound of its
    own quantity holding, to a comparison that astropy refuses. *)
Definition bb_ordering_refused : bool :=
  (BB.star1_mass_larger s
   && within_if (BB.model_star1_mass s) (BB.lo_star1_mass_prior_bound p)
        (BB.value (BB.star1_mass u)) (BB.hi_star1_mass_prior_bound p)
   && refused (BB.model_star1_mass s) (BB.value (BB.star1_mass u))
        (BB.model_star2_mass s) (BB.value (BB.star2_mass u)))
  || (BB.star1_rad_larger s
      && within_if (BB.model_star1_rad s) (BB.lo_star1_rad_prior_bound p)
           (BB.value (BB.star1_rad u)) (BB.hi_star1_rad_prior_bound p)
      && refused (BB.model_star1_rad s) (BB.value (BB.star1_rad u))
           (BB.model_star2_rad s) (BB.value (BB.star2_rad u)))
  || (BB.star1_teff_larger s
      && within_if (BB.model_star1_teff s && negb (BB.star1_teff_sig_bound p))
           (BB.lo_star1_teff_prior_bound p) (BB.value (BB.star1_teff u))
           (BB.hi_star1_teff_prior_bound p)
      && refused (BB.model_star1_teff s) (BB.value (BB.star1_teff u))
           (BB.model_star2_teff s) (BB.value (BB.star2_teff u)))
  || (BB.star2_mass_larger s
      && within_if (BB.model_star2_mass s) (BB.lo_star2_mass_prior_bound p)
           (BB.value (BB.star2_mass u)) (BB.hi_star2_mass_prior_bound p)
      && refused (BB.model_star2_mass s) (BB.value (BB.star2_mass u))
           (BB.model_star1_mass s) (BB.value (BB.star1_mass u)))
  || (BB.star2_rad_larger s
      && within_if (BB.model_star2_rad s) (BB.lo_star2_rad_prior_bound p)
           (BB.value (BB.star2_rad u)) (BB.hi_star2_rad_prior_bound p)
      && refused (BB.model_star2_rad s) (BB.value (BB.star2_rad u))
           (BB.model_star1_rad s) (BB.value (BB.star1_rad u)))
  || (BB.star2_teff_larger s
      && within_if (BB.model_star2_teff s) (BB.lo_star2_teff_prior_bound p)
           (BB.value (BB.star2_teff u)) (BB.hi_star2_teff_prior_bound p)
      && refused (BB.model_star2_teff s) (BB.value (BB.star2_teff u))
           (BB.model_star1_teff s) (BB.value (BB.star1_teff u))).

(** A temperature of star 1 that is under the Gaussian prior is read from
    [theta]. *)
Definition bb_gaussian_teff_is_free : bool :=
  negb (BB.star1_teff_sig_bound p) || BB.model_star1_teff s.

(** The bounds of C2: those of the free components of [theta] only. *)
Definition bb_free_bounds_hold : bool :=
  between (BB.lo_Kp_ext_prior_bound p) (BB.value (BB.Kp_ext u))
    (BB.hi_Kp_ext_prior_bound p)
  && within_if (BB.model_H_ext_mod s) (BB.lo_H_ext_mod_prior_bound p)
       (BB.value (BB.H_ext_mod u)) (BB.hi_H_ext_mod_prior_bound p)
  && between (BB.lo_inc_prior_bound p) (BB.value (BB.binary_inc u))
       (BB.hi_inc_prior_bound p)
  && between (BB.lo_period_prior_bound p) (BB.value (BB.binary_period u))
       (BB.hi_period_prior_bound p)
  && between (BB.lo_rv_sys_prior_bound p) (BB.value (BB.binary_rv_sys u))
       (BB.hi_rv_sys_prior_bound p)
  && within_if (BB.model_eccentricity s) (BB.lo_ecc_prior_bound p)
       (BB.value (BB.binary_ecc u)) (BB.hi_ecc_prior_bound p)
  && within_if (BB.model_distance s) (BB.lo_dist_prior_bound p)
       (BB.value (BB.binary_dist u)) (BB.hi_dist_prior_bound p)
  && between (BB.lo_t0_prior_bound p) (BB.value (BB.t0 u))
       (BB.hi_t0_prior_bound p)
  && bb_star_bounds_hold.

(** One of the quantities whose uniform bound is checked in every mode
    lies strictly outside it. *)
Definition bb_some_outside : bool :=
  strictly_outside (BB.lo_Kp_ext_prior_bound p) (BB.value (BB.Kp_ext u))
    (BB.hi_Kp_ext_prior_bound p)
  || strictly_outside (BB.lo_inc_prior_bound p) (BB.value (BB.binary_inc u))
       (BB.hi_inc_prior_bound p)
  || strictly_outside (BB.lo_period_prior_bound p)
       (BB.value (BB.binary_period u)) (BB.hi_period_prior_bound p)
  || strictly_outside (BB.lo_rv_sys_prior_bound p)
       (BB.value (BB.binary_rv_sys u)) (BB.hi_rv_sys_prior_bound p)
  || strictly_outside (BB.lo_ecc_prior_bound p) (BB.value (BB.binary_ecc u))
       (BB.hi_ecc_prior_bound p)
  || strictly_outside (BB.lo_dist_prior_bound p) (BB.value (BB.binary_dist u))
       (BB.hi_dist_prior_bound p)
  || strictly_outside (BB.lo_t0_prior_bound p) (BB.value (BB.t0 u))
       (BB.hi_t0_prior_bound p)
  || outside_if (BB.model_star1_mass s) (BB.lo_star1_mass_prior_bound p)
       (BB.value (BB.star1_mass u)) (BB.hi_star1_mass_prior_bound p)
  || outside_if (BB.model_star1_rad s) (BB.lo_star1_rad_prior_bound p)
       (BB.value (BB.star1_rad u)) (BB.hi_star1_rad_prior_bound p)
  || outside_if (BB.model_star1_teff s && negb (BB.star1_teff_sig_bound p))
       (BB.lo_star1_teff_prior_bound p) (BB.value (BB.star1_teff u))
       (BB.hi_star1_teff_prior_bound p)
  || outside_if (BB.model_star2_mass s) (BB.lo_star2_mass_prior_bound p)
       (BB.value (BB.star2_mass u)) (BB.hi_star2_mass_prior_bound p)
  || outside_if (BB.model_star2_rad s) (BB.lo_star2_rad_prior_bound p)
       (BB.value (BB.star2_rad u)) (BB.hi_star2_rad_prior_bound p)
  || outside_if (BB.model_star2_teff s) (BB.lo_star2_teff_prior_bound p)
       (BB.value (BB.star2_teff u)) (BB.hi_star2_teff_prior_bound p).

End BBChecks.

(** The width of the Gaussian prior on the H extinction modifier, from the
    uncertainty of the extinction law. *)
Definition bb_H_ext_mod_bound_oneSig (m : libm) (o : BB.model_options)
    (Kp_ext : float) : float :=
  let ratio := BB.lambda_filt BB.kp_filt / BB.lambda_filt BB.h_filt in
  let H_ext := Kp_ext * power m ratio (BB.ext_alpha o) in
  let hi := Kp_ext * power m ratio (BB.ext_alpha o + BB.ext_alpha_unc o) in
  let lo := Kp_ext * power m ratio (BB.ext_alpha o - BB.ext_alpha_unc o) in
  max_abs2 (hi - H_ext) (H_ext - lo).

(** The sum of the Gaussian terms of the quantities in Gaussian mode. *)
Definition bb_gaussian_prior (m : libm) (o : BB.model_options)
    (p : BB.prior_bounds) (u : BB.unpacked) : float :=
  let log_prior := 0 in
  let log_prior :=
    if negb (BB.H_ext_mod_alpha_sig_bound p =? (-1))
    then log_prior
         + BB.gaussian_term m (BB.value (BB.H_ext_mod u))
             (bb_H_ext_mod_bound_oneSig m o (BB.value (BB.Kp_ext u)))
    else log_prior in
  if BB.star1_teff_sig_bound p
  then log_prior
       + BB.gaussian_term m
           (BB.value (BB.star1_teff u) - BB.star1_teff_bound_mu p)
           (BB.star1_teff_bound_sigma p)
  else log_prior.

(** The call returned a finite number, returned NaN. *)
Definition returns_finite (o : outcome float) : bool :=
  match o with Returns x => isfinite x | Raises _ => false end.
Definition returns_nan (o : outcome float) : bool :=
  match o with Returns x => isnan x | Raises _ => false end.

(** The magnitude of the prior the call returned. *)
Definition prior_magnitude (o : outcome BB.prior_value) : outcome float :=
  obind o (fun v => Returns (BB.magnitude v)).

(** What [lnprior] and [lnprob] do when a check fails: the relational
    requirements are compared before the final test, so a comparison that
    astropy refuses raises, and otherwise the result is minus infinity. *)
Definition rejects_or_raises (refused : bool) : outcome BB.prior_value :=
  if refused then Raises UnitConversionError
  else Returns (BB.Number neg_infinity).
Definition posterior_rejects_or_raises (refused : bool) : M float :=
  if refused then ([], Raises UnitConversionError)
  else ([], Returns neg_infinity).


(** *** Vocabulary of the further properties *)

(** A comparison that did not come out as greater. *)
Definition le_cmp (o : comparison) : Prop := o = Lt \/ o = Eq.

(** The sign bit of a specification float is clear, or it is NaN. *)
Definition sf_sign_clear (x : spec_float) : bool :=
  match x with
  | S754_zero s | S754_infinity s | S754_finite s _ _ => negb s
  | S754_nan => true
  end.

(** A float of sign [s], or NaN. *)
Definition sf_sign_is (s : bool) (x : spec_float) : Prop :=
  x = S754_nan \/ x = S754_zero s \/ x = S754_infinity s
  \/ exists mx ex, x = S754_finite s mx ex.

(** The sign bit of the float [x] is clear, or [x] is NaN. *)
Definition sign_clear (x : float) : bool :=
  match Prim2SF x with
  | S754_zero s | S754_infinity s | S754_finite s _ _ => negb s
  | S754_nan => true
  end.

(** The call returned NaN or a number that is not above zero, or it
    raised. *)
Definition never_positive (o : outcome float) : bool :=
  match o with
  | Returns x => isnan x || (x <=? 0)
  | Raises _ => true
  end.

(** The quantities of a traversal, each with its toggle: the quantity is
    free, that is read from [theta], when the toggle is set. *)
Definition free_values (s : BB.schema) (u : BB.unpacked) : list (bool * float) :=
  [(true, BB.value (BB.Kp_ext u));
   (BB.model_H_ext_mod s, BB.value (BB.H_ext_mod u));
   (BB.model_star1_mass s, BB.value (BB.star1_mass u));
   (BB.model_star1_rad s, BB.value (BB.star1_rad u));
   (BB.model_star1_teff s, BB.value (BB.star1_teff u));
   (BB.model_star2_mass s, BB.value (BB.star2_mass u));
   (BB.model_star2_rad s, BB.value (BB.star2_rad u));
   (BB.model_star2_teff s, BB.value (BB.star2_teff u));
   (true, BB.value (BB.binary_inc u));
   (true, BB.value (BB.binary_period u));
   (true, BB.value (BB.binary_rv_sys u));
   (BB.model_eccentricity s, BB.value (BB.binary_ecc u));
   (BB.model_distance s, BB.value (BB.binary_dist u));
   (true, BB.value (BB.t0 u))].

(** A free quantity is NaN. *)
Definition reads_nan (s : BB.schema) (u : BB.unpacked) : bool :=
  existsb (fun p => fst p && isnan (snd p)) (free_values s u).

(** The traversal of [lnprior] as a loop over toggle and default, keeping
    the values. *)
Fixpoint read_values (toggles : list (bool * float)) (theta : list float)
    (index : nat) : outcome (list (bool * float) * nat) :=
  match toggles with
  | [] => Returns ([], index)
  | (free, default) :: rest =>
      obind (BB.read_if free id default theta index) (fun r =>
      obind (read_values rest theta (snd r)) (fun rs =>
      Returns ((free, BB.value (fst r)) :: fst rs, snd rs)))
  end.

(** The toggles and defaults of [lnprior] before [t0]. *)
Definition lnprior_toggles (s : BB.schema) : list (bool * float) :=
  [(true, 0);
   (BB.model_H_ext_mod s, BB.default_H_ext_mod s);
   (BB.model_star1_mass s, BB.default_star1_mass s);
   (BB.model_star1_rad s, BB.default_star1_rad s);
   (BB.model_star1_teff s, BB.default_star1_teff s);
   (BB.model_star2_mass s, BB.default_star2_mass s);
   (BB.model_star2_rad s, BB.default_star2_rad s);
   (BB.model_star2_teff s, BB.default_star2_teff s);
   (true, 0);
   (true, 0);
   (true, 0);
   (BB.model_eccentricity s, BB.default_ecc s);
   (BB.model_distance s, BB.default_dist s)].

(** The fitter with other labels stored in [obs_filts_rv]. *)
Definition with_obs_filts_rv {lcfit} (labels : list string)
    (self : BB.mcmc_fitter_bb lcfit) : BB.mcmc_fitter_bb lcfit :=
  {| BB.options := BB.options self;
     BB.params := BB.params self;
     BB.priors := BB.priors self;
     BB.setup := BB.setup self;
     BB.data :=
       {| BB.obs_filts_rv := labels;
          BB.observation_times := BB.observation_times (BB.data self);
          BB.kp_obs_mags := BB.kp_obs_mags (BB.data self);
          BB.kp_obs_mag_errors := BB.kp_obs_mag_errors (BB.data self);
          BB.h_obs_mags := BB.h_obs_mags (BB.data self);
          BB.h_obs_mag_errors := BB.h_obs_mag_errors (BB.data self);
          BB.obs_rv_pri := BB.obs_rv_pri (BB.data self);
          BB.obs_rv_pri_errors := BB.obs_rv_pri_errors (BB.data self);
          BB.obs_rv_sec := BB.obs_rv_sec (BB.data self);
          BB.obs_rv_sec_errors := BB.obs_rv_sec_errors (BB.data self) |} |}.

(** Two filters of the list with the same identity are one object. *)
Definition same_object_same_filter (l : list BB.filter) : Prop :=
  forall f g, In f l -> In g l -> BB.filt_id f = BB.filt_id g -> f = g.

(** No filter of the list is the object [key]. *)
Definition not_among (key : BB.filter) (l : list BB.filter) : Prop :=
  forall f, In f l -> BB.filt_id f <> BB.filt_id key.

(** One turn of the loop of [make_bb_params] that fills [filts_ext]. *)
Definition store_extinction (m : libm) (opts : BB.model_options)
    (Ks_ext : float) (filts_ext : list (BB.filter * float))
    (cur_filt : BB.filter) : list (BB.filter * float) :=
  BB.dict_set filts_ext cur_filt
    (Ks_ext * power m (BB.lambda_Ks / BB.lambda_filt cur_filt)
                (BB.ext_alpha opts)).

(** One of the bounds that are checked on every call has its upper end
    below its lower end. *)
Definition rad_bounds_swapped {lcfit}
    (self : RadInterp.mcmc_fitter_rad_interp lcfit) : bool :=
  (RadInterp.hi_Kp_ext_prior_bound self <? RadInterp.lo_Kp_ext_prior_bound self)
  || (RadInterp.hi_H_ext_mod_prior_bound self
      <? RadInterp.lo_H_ext_mod_prior_bound self)
  || (RadInterp.hi_inc_prior_bound self <? RadInterp.lo_inc_prior_bound self)
  || (RadInterp.hi_period_prior_bound self
      <? RadInterp.lo_period_prior_bound self)
  || (RadInterp.hi_ecc_prior_bound self <? RadInterp.lo_ecc_prior_bound self)
  || (RadInterp.hi_t0_prior_bound self <? RadInterp.lo_t0_prior_bound self)
  || (RadInterp.iso_rad_max (RadInterp.isochrone self)
      <? RadInterp.iso_rad_min (RadInterp.isochrone self)).

Definition bb_bounds_swapped (p : BB.prior_bounds) : bool :=
  (BB.hi_Kp_ext_prior_bound p <? BB.lo_Kp_ext_prior_bound p)
  || (BB.hi_inc_prior_bound p <? BB.lo_inc_prior_bound p)
  || (BB.hi_period_prior_bound p <? BB.lo_period_prior_bound p)
  || (BB.hi_rv_sys_prior_bound p <? BB.lo_rv_sys_prior_bound p)
  || (BB.hi_ecc_prior_bound p <? BB.lo_ecc_prior_bound p)
  || (BB.hi_dist_prior_bound p <? BB.lo_dist_prior_bound p)
  || (BB.hi_t0_prior_bound p <? BB.lo_t0_prior_bound p).

(** Both stars are required to have the larger mass, radius or
    temperature. *)
Definition bb_ordering_contradictory (s : BB.schema) : bool :=
  (BB.star1_mass_larger s && BB.star2_mass_larger s)
  || (BB.star1_rad_larger s && BB.star2_rad_larger s)
  || (BB.star1_teff_larger s && BB.star2_teff_larger s).

(** A quantity that one star is required to have the larger of is equal
    for the two stars. *)
Definition bb_ordering_tied (s : BB.schema) (u : BB.unpacked) : bool :=
  ((BB.star1_mass_larger s || BB.star2_mass_larger s)
   && (BB.value (BB.star1_mass u) =? BB.value (BB.star2_mass u)))
  || ((BB.star1_rad_larger s || BB.star2_rad_larger s)
      && (BB.value (BB.star1_rad u) =? BB.value (BB.star2_rad u)))
  || ((BB.star1_teff_larger s || BB.star2_teff_larger s)
      && (BB.value (BB.star1_teff u) =? BB.value (BB.star2_teff u))).

(** The first element the check reads is missing: the Kp array is empty,
    or it starts with something else than the failure value and the H
    array is empty. *)
Definition first_element_missing (Kp H : ndarray) : Prop :=
  Kp = [] \/ (exists k Kp', Kp = k :: Kp' /\ (k =? (-1)) = false /\ H = []).

(** The elements of [a] whose label is [name], in the order of [a]. *)
Definition select {A} (name : string) (labels : list string) (a : list A)
  : list A :=
  map snd (filter (fun p => String.eqb (fst p) name) (combine labels a)).

(** The number of labels equal to [name]. *)
Definition count (name : string) (labels : list string) : nat :=
  List.length (filter (fun l => String.eqb l name) labels).

Import Fixtures.

(** * Verification *)

(** ** Binary64 facts *)

Lemma SFcompare_Lt_swap (a b : spec_float) :
  SFcompare a b = Some Lt -> SFcompare b a = Some Gt.
Proof.
  destruct a as [sa| sa| |sa ma ea], b as [sb| sb| |sb mb eb]; cbn;
    try discriminate; try (destruct sa; discriminate); try (destruct sb; discriminate);
    try (destruct sa, sb; (discriminate || reflexivity)); try (destruct sa; intros; (discriminate || reflexivity));
    try (destruct sb; intros; (discriminate || reflexivity)).
  assert (Hm : Pos.compare_cont Eq mb ma = CompOpp (Pos.compare_cont Eq ma mb))
    by (symmetry; apply (Pos.compare_cont_antisym ma mb Eq)).
  destruct sa, sb; try discriminate; try reflexivity;
    rewrite (Z.compare_antisym ea eb), Hm;
    destruct (ea ?= eb)%Z; cbn; try discriminate; try reflexivity;
    destruct (Pos.compare_cont Eq ma mb); cbn; try discriminate; reflexivity.
Qed.

Lemma ltb_leb_false (x y : float) : (x <? y) = true -> (y <=? x) = false.
Proof.
  rewrite ltb_spec, leb_spec. unfold SFltb, SFleb.
  destruct (SFcompare (Prim2SF x) (Prim2SF y)) as [[| |]|] eqn:E; try discriminate.
  intros _. rewrite (SFcompare_Lt_swap _ _ E). reflexivity.
Qed.

Lemma is_finite_classes (x : float) :
  is_finite x = true ->
  (exists s, Prim2SF x = S754_zero s) \/ (exists s m e, Prim2SF x = S754_finite s m e).
Proof.
  unfold is_finite, is_nan, is_infinity.
  rewrite !FloatAxioms.eqb_spec, abs_spec.
  destruct (Prim2SF x) as [s|s| |s m e] eqn:E; cbn.
  - left; eauto.
  - change (Prim2SF infinity) with (S754_infinity false). cbn. rewrite orb_true_r. discriminate.
  - discriminate.
  - right; eauto.
Qed.

Lemma add_neg_infinity_r (x : float) :
  is_finite x = true -> x + neg_infinity = neg_infinity.
Proof.
  intros H. apply Prim2SF_inj. rewrite add_spec.
  change (Prim2SF neg_infinity) with (S754_infinity true).
  destruct (is_finite_classes x H) as [[s ->] | (s & m & e & ->)]; reflexivity.
Qed.

Lemma between_strictly_outside (lo x hi : float) :
  strictly_outside lo x hi = true -> between lo x hi = false.
Proof.
  unfold strictly_outside, between. intros H.
  apply orb_true_iff in H as [H | H]; apply ltb_leb_false in H; rewrite H.
  - reflexivity.
  - apply andb_false_r.
Qed.

(** ** The call log monad *)

Lemma bind_lift_returns {A B} (a : A) (f : A -> M B) :
  bind (lift (Returns a)) f = f a.
Proof. unfold bind, lift. destruct (f a); reflexivity. Qed.

Lemma bind_lift_raises {A B} (e : exn) (f : A -> M B) :
  bind (lift (Raises e)) f = ([], Raises e).
Proof. reflexivity. Qed.

Lemma bind_ret {A B} (a : A) (f : A -> M B) : bind (ret a) f = f a.
Proof. apply bind_lift_returns. Qed.

Lemma bind_invoke {A B} (c : call) (a : A) (f : A -> M B) :
  bind (invoke c a) f = (c :: fst (f a), snd (f a)).
Proof. unfold bind, invoke. destruct (f a); reflexivity. Qed.

Lemma bind_returns {A B} (log : list call) (a : A) (f : A -> M B) :
  bind (log, Returns a) f = (log ++ fst (f a), snd (f a)).
Proof. unfold bind. destruct (f a); reflexivity. Qed.

Lemma bind_raises {A B} (log : list call) (e : exn) (f : A -> M B) :
  bind (log, Raises e) f = (log, Raises e).
Proof. reflexivity. Qed.

(** ** The failure value *)

Lemma either_failed_signals (Kp H : ndarray) :
  signals_failure Kp H -> either_failed Kp H = Returns true.
Proof.
  intros [(x & rest & -> & Hx) | (Hne & x & rest & -> & Hx)].
  - unfold either_failed, is_sentinel. cbn. rewrite Hx. reflexivity.
  - destruct Kp as [|k Kp']; [congruence|].
    unfold either_failed, is_sentinel. cbn.
    destruct (k =? (-1)); cbn; [reflexivity|]. rewrite Hx. reflexivity.
Qed.

Lemma either_failed_no_failure (Kp H : ndarray) :
  no_failure Kp H -> either_failed Kp H = Returns false.
Proof.
  intros (k & Kp' & h & H' & -> & -> & Hk & Hh).
  unfold either_failed, is_sentinel. cbn. rewrite Hk. cbn. rewrite Hh.
  reflexivity.
Qed.

Lemma err_out_rad_signals :
  signals_failure (fst RadInterp.err_out) (snd RadInterp.err_out).
Proof. left. exists (-1), []. split; reflexivity. Qed.

(** ** Posterior: the prior gate *)

Lemma rad_lnprob_prior_rejects {lcfit} m lc
    (self : RadInterp.mcmc_fitter_rad_interp lcfit) theta lp :
  RadInterp.lnprior self theta = Returns lp ->
  isfinite lp = false ->
  RadInterp.lnprob m lc self theta = ([], Returns neg_infinity).
Proof.
  intros Hp Hf. unfold RadInterp.lnprob.
  rewrite Hp, bind_lift_returns, Hf. reflexivity.
Qed.

Lemma rad_lnprob_prior_accepts {lcfit} m lc
    (self : RadInterp.mcmc_fitter_rad_interp lcfit) theta lp log ll :
  RadInterp.lnprior self theta = Returns lp ->
  isfinite lp = true ->
  RadInterp.lnlike m lc self theta = (log, Returns ll) ->
  RadInterp.lnprob m lc self theta = (log, Returns (lp + ll)).
Proof.
  intros Hp Hf Hl. unfold RadInterp.lnprob.
  rewrite Hp, bind_lift_returns, Hf. cbn [negb].
  rewrite Hl, bind_returns. cbn. rewrite app_nil_r. reflexivity.
Qed.

Lemma bb_lnprob_prior_rejects {lcfit} m lc
    (self : BB.mcmc_fitter_bb lcfit) theta lp :
  BB.lnprior m self theta = Returns lp ->
  isfinite (BB.magnitude lp) = false ->
  BB.lnprob m lc self theta = ([], Returns neg_infinity).
Proof.
  intros Hp Hf. unfold BB.lnprob.
  rewrite Hp, bind_lift_returns, Hf. reflexivity.
Qed.

Lemma bb_lnprob_prior_raises {lcfit} m lc
    (self : BB.mcmc_fitter_bb lcfit) theta e :
  BB.lnprior m self theta = Raises e ->
  BB.lnprob m lc self theta = ([], Raises e).
Proof.
  intros Hp. unfold BB.lnprob. rewrite Hp. reflexivity.
Qed.

Lemma bb_lnprob_prior_accepts {lcfit} m lc
    (self : BB.mcmc_fitter_bb lcfit) theta lp log ll :
  BB.lnprior m self theta = Returns lp ->
  isfinite (BB.magnitude lp) = true ->
  BB.lnlike m lc self theta = (log, Returns ll) ->
  BB.lnprob m lc self theta
  = (log, if isfinite ll then BB.add_likelihood lp ll
          else Returns neg_infinity).
Proof.
  intros Hp Hf Hl. unfold BB.lnprob.
  rewrite Hp, bind_lift_returns, Hf. cbn [negb].
  rewrite Hl, bind_returns.
  destruct (isfinite ll); cbn; rewrite app_nil_r; reflexivity.
Qed.

(** C1. The posterior asks the prior first. When the prior is not finite,
    [lnprob] returns minus infinity and its call log is empty: neither the
    likelihood nor the forward model ran. When the prior is finite and the
    likelihood is finite, [lnprob] is their sum, in both fitters; the
    blackbody fitter raises instead when its prior came back as a Quantity
    in [K2]. When the prior is finite and the likelihood is not, the
    blackbody fitter returns minus infinity, and so does the
    radius-interpolation fitter for a likelihood of minus infinity. *)
Theorem lnprob_prior_gate :
  (forall lcfit m lc (self : RadInterp.mcmc_fitter_rad_interp lcfit) theta lp,
      RadInterp.lnprior self theta = Returns lp ->
      (isfinite lp = false ->
       RadInterp.lnprob m lc self theta = ([], Returns neg_infinity))
      /\ (isfinite lp = true ->
          forall log ll,
            RadInterp.lnlike m lc self theta = (log, Returns ll) ->
            (isfinite ll = true ->
             RadInterp.lnprob m lc self theta = (log, Returns (lp + ll)))
            /\ (ll = neg_infinity ->
                RadInterp.lnprob m lc self theta = (log, Returns neg_infinity))))
  /\
  (forall lcfit m lc (self : BB.mcmc_fitter_bb lcfit) theta lp,
      BB.lnprior m self theta = Returns lp ->
      (isfinite (BB.magnitude lp) = false ->
       BB.lnprob m lc self theta = ([], Returns neg_infinity))
      /\ (isfinite (BB.magnitude lp) = true ->
          forall log ll,
            BB.lnlike m lc self theta = (log, Returns ll) ->
            (isfinite ll = true ->
             (forall x, lp = BB.Number x ->
                BB.lnprob m lc self theta = (log, Returns (x + ll)))
             /\ (forall x, lp = BB.Kelvin2 x ->
                   BB.lnprob m lc self theta
                   = (log, Raises UnitConversionError)))
            /\ (isfinite ll = false ->
                BB.lnprob m lc self theta = (log, Returns neg_infinity)))).
Proof.
  split; intros lcfit m lc self theta lp Hp; split.
  - now apply rad_lnprob_prior_rejects.
  - intros Hf log ll Hl.
    rewrite (rad_lnprob_prior_accepts _ _ _ _ Hp Hf Hl). split.
    + reflexivity.
    + intros ->. now rewrite add_neg_infinity_r.
  - now apply bb_lnprob_prior_rejects.
  - intros Hf log ll Hl.
    rewrite (bb_lnprob_prior_accepts _ _ _ _ Hp Hf Hl).
    split; [intros ->; split; intros x ->; reflexivity
           | intros ->; reflexivity].
Qed.

Lemma lnprob_prior_gate_witness :
  RadInterp.lnprob libm0 rad_lc rad_fit theta_rad_swapped
  = ([], Returns neg_infinity)
  /\ calls (BB.lnprob libm0 bb_lc bb_fit theta_bb) = bb_log_full
  /\ returns_finite (result (BB.lnprob libm0 bb_lc bb_fit theta_bb)) = true.
Proof.
  destruct lnprob_prior_gate as [HR HB]. split.
  - apply (HR float libm0 rad_lc rad_fit theta_rad_swapped neg_infinity);
      vm_compute; reflexivity.
  - destruct (HB float libm0 bb_lc bb_fit theta_bb (BB.Number 0) eq_refl)
      as [_ H].
    destruct (BB.lnlike libm0 bb_lc bb_fit theta_bb) as [log [ll|e]] eqn:E;
      [|vm_compute in E; discriminate E].
    destruct (H eq_refl log ll eq_refl) as [H1 _].
    vm_compute in E; injection E as <- <-.
    destruct (H1 eq_refl) as [H2 _].
    rewrite (H2 0 eq_refl); split; vm_compute; reflexivity.
Defined.

(** C1 as stated fails for the blackbody fitter: with a missing Kp
    magnitude the prior is [0.0] and the likelihood is NaN, the claimed
    value [lnprior + lnlike] is NaN, and [lnprob] returns minus infinity. *)
Lemma lnprob_bb_is_not_the_sum :
  BB.lnprior libm0 bb_fit_nan theta_bb = Returns (BB.Number 0)
  /\ BB.lnlike libm0 bb_lc bb_fit_nan theta_bb = (bb_log_full, Returns nan)
  /\ BB.lnprob libm0 bb_lc bb_fit_nan theta_bb
     = (bb_log_full, Returns neg_infinity)
  /\ Leibniz.eqb neg_infinity (0 + nan) = false.
Proof. repeat split; vm_compute; reflexivity. Qed.

(** C6, evaluated on the radius-interpolation fitter: with a missing Kp
    magnitude the prior is [0.0], the likelihood is NaN, and [lnprob]
    returns NaN, not minus infinity. *)
Lemma lnprob_rad_returns_nan :
  RadInterp.lnprior rad_fit_nan theta_rad = Returns 0
  /\ RadInterp.lnlike libm0 rad_lc rad_fit_nan theta_rad
     = (rad_log_full, Returns nan)
  /\ RadInterp.lnprob libm0 rad_lc rad_fit_nan theta_rad
     = (rad_log_full, Returns nan)
  /\ Leibniz.eqb nan neg_infinity = false.
Proof. repeat split; vm_compute; reflexivity. Qed.

(** ** Likelihood: the failure value of the forward model *)

Lemma rad_model_returned_unpacks {lcfit} m lc
    (self : RadInterp.mcmc_fitter_rad_interp lcfit) theta log r :
  RadInterp.calculate_model_lc m lc self theta = (log, Returns r) ->
  exists u,
    RadInterp.unpack (RadInterp.model_eccentricity self) theta = Returns u.
Proof.
  unfold RadInterp.calculate_model_lc.
  destruct (RadInterp.unpack _ theta) as [u|e].
  - eauto.
  - rewrite bind_lift_raises. discriminate.
Qed.

Lemma bb_model_returned_unpacks {lcfit} m lc
    (self : BB.mcmc_fitter_bb lcfit) theta log r :
  BB.calculate_model_obs m lc self theta = (log, Returns r) ->
  exists u, BB.lnlike_unpack (BB.params self) theta = Returns u.
Proof.
  unfold BB.calculate_model_obs.
  change (BB.calculate_model_obs_unpack (BB.params self) theta)
    with (BB.lnlike_unpack (BB.params self) theta).
  destruct (BB.lnlike_unpack _ theta) as [u|e].
  - eauto.
  - rewrite bind_lift_raises. discriminate.
Qed.

(** C3. When the forward model hands back magnitude arrays that signal
    failure, [lnlike] returns minus infinity: it returns, it does not
    raise. Its call log is the log of the forward model and nothing more,
    so the phase folder, which runs before any chi-square sum, was not
    called. In both fitters. *)
Theorem lnlike_failure_short_circuits :
  (forall lcfit m lc (self : RadInterp.mcmc_fitter_rad_interp lcfit)
          theta log Kp H,
      RadInterp.calculate_model_lc m lc self theta = (log, Returns (Kp, H)) ->
      signals_failure Kp H ->
      RadInterp.lnlike m lc self theta = (log, Returns neg_infinity))
  /\
  (forall lcfit m lc (self : BB.mcmc_fitter_bb lcfit)
          theta log Kp H RVs_pri RVs_sec,
      BB.calculate_model_obs m lc self theta
      = (log, Returns (Kp, H, RVs_pri, RVs_sec)) ->
      signals_failure Kp H ->
      BB.lnlike m lc self theta = (log, Returns neg_infinity)).
Proof.
  split.
  - intros lcfit m lc self theta log Kp H Hm Hs.
    destruct (rad_model_returned_unpacks _ _ _ _ Hm) as [u Hu].
    unfold RadInterp.lnlike.
    rewrite Hu, bind_lift_returns, Hm, bind_returns.
    rewrite (either_failed_signals Hs), bind_lift_returns.
    cbn. rewrite app_nil_r. reflexivity.
  - intros lcfit m lc self theta log Kp H RVs_pri RVs_sec Hm Hs.
    destruct (bb_model_returned_unpacks _ _ _ _ Hm) as [u Hu].
    unfold BB.lnlike.
    rewrite Hu, bind_lift_returns, Hm, bind_returns.
    rewrite (either_failed_signals Hs), bind_lift_returns.
    cbn. rewrite app_nil_r. reflexivity.
Qed.

Lemma lnlike_failure_short_circuits_witness :
  RadInterp.lnlike libm0 rad_lc_fails rad_fit theta_rad
  = (rad_log_to_binary, Returns neg_infinity)
  /\ BB.lnlike libm0 bb_lc_fails bb_fit theta_bb
     = (bb_log_to_binary, Returns neg_infinity).
Proof.
  destruct lnlike_failure_short_circuits as [HR HB]. split.
  - apply (HR float libm0 rad_lc_fails rad_fit theta_rad rad_log_to_binary
             [(-1)] [(-1)]).
    + vm_compute; reflexivity.
    + left. exists (-1), []. split; reflexivity.
  - apply (HB float libm0 bb_lc_fails bb_fit theta_bb bb_log_to_binary
             [(-1)] [(-1)] [(-1)] [(-1)]).
    + vm_compute; reflexivity.
    + left. exists (-1), []. split; reflexivity.
Defined.

(** ** Prior of the radius-interpolation fitter: the radius checks *)

(** C4. In the radius-interpolation fitter, [lnprior] returns minus
    infinity whenever the radius of star 1 is below the radius of star 2,
    and whenever either radius lies strictly outside
    [[iso_rad_min, iso_rad_max]], whatever the other components of [theta]
    are. *)
Theorem lnprior_rad_radius_checks :
  forall lcfit (self : RadInterp.mcmc_fitter_rad_interp lcfit) theta,
    List.length theta = rad_arity (RadInterp.model_eccentricity self) ->
    let star1_rad := nth 2 theta 0 in
    let star2_rad := nth 3 theta 0 in
    let iso_rad_min := RadInterp.iso_rad_min (RadInterp.isochrone self) in
    let iso_rad_max := RadInterp.iso_rad_max (RadInterp.isochrone self) in
    (star1_rad <? star2_rad) = true
    \/ strictly_outside iso_rad_min star1_rad iso_rad_max = true
    \/ strictly_outside iso_rad_min star2_rad iso_rad_max = true ->
    RadInterp.lnprior self theta = Returns neg_infinity.
Proof.
  intros lcfit self theta Hlen r1 r2 lo hi Hbad.
  assert (Hrad : (r2 <=? r1) && between lo r1 hi && between lo r2 hi = false).
  { destruct Hbad as [H | [H | H]].
    - apply ltb_leb_false in H. rewrite H. reflexivity.
    - apply between_strictly_outside in H. rewrite H.
      now rewrite andb_false_r.
    - apply between_strictly_outside in H. rewrite H.
      now rewrite andb_false_r. }
  unfold RadInterp.lnprior, RadInterp.unpack.
  destruct (RadInterp.model_eccentricity self); cbn in Hlen;
    repeat (destruct theta as [|? theta]; cbn in Hlen; try discriminate Hlen);
    cbn in r1, r2; subst r1 r2 lo hi; cbn [obind RadInterp.star1_rad_t
      RadInterp.star2_rad_t]; rewrite Hrad, andb_false_r; reflexivity.
Qed.

Lemma lnprior_rad_radius_checks_witness :
  RadInterp.lnprior rad_fit theta_rad_swapped = Returns neg_infinity.
Proof.
  apply (@lnprior_rad_radius_checks float rad_fit theta_rad_swapped).
  - reflexivity.
  - left. vm_compute. reflexivity.
Defined.

(** ** Forward-model adapter: failure is terminal *)

(** C7. The adapter looks at the magnitude arrays of every single-star run
    and of the binary run. When they signal failure it returns the failure
    value at once: the call log ends with the run that failed, so neither
    the distance and extinction correction nor the flux adjustment nor a
    later run was made. The radial-velocity arrays are not looked at. The
    blackbody fitter gets as far as its binary run only with
    [model_distance = False]: with a distance read from [theta] the
    distance modulus raises [UnitTypeError] before any run. *)
Theorem forward_model_failure_is_terminal :
  (forall lcfit m lc (self : RadInterp.mcmc_fitter_rad_interp lcfit) theta u,
      RadInterp.unpack (RadInterp.model_eccentricity self) theta = Returns u ->
      let iso := RadInterp.isochrone self in
      let star1 := snd (RadInterp.rad_interp iso (RadInterp.star1_rad_t u)) in
      let star2 := snd (RadInterp.rad_interp iso (RadInterp.star2_rad_t u)) in
      let run_single := fun star =>
        RadInterp.single_star_lc lc star (RadInterp.use_blackbody_atm self)
          (RadInterp.model_numTriangles self) in
      let binary :=
        RadInterp.binary_star_lc lc star1 star2
          (RadInterp.binary_period_t u, RadInterp.binary_ecc_t u,
           RadInterp.binary_inc_t u, RadInterp.t0_t u)
          (RadInterp.observation_times self)
          (RadInterp.use_blackbody_atm self)
          (RadInterp.model_numTriangles self) in
      (signals_failure (fst (run_single star1)) (snd (run_single star1)) ->
       RadInterp.calculate_model_lc m lc self theta
       = ([rad_interp_call; rad_interp_call; single_star_lc_call],
          Returns RadInterp.err_out))
      /\ (no_failure (fst (run_single star1)) (snd (run_single star1)) ->
          signals_failure (fst (run_single star2)) (snd (run_single star2)) ->
          RadInterp.calculate_model_lc m lc self theta
          = ([rad_interp_call; rad_interp_call; single_star_lc_call;
              single_star_lc_call],
             Returns RadInterp.err_out))
      /\ (no_failure (fst (run_single star1)) (snd (run_single star1)) ->
          no_failure (fst (run_single star2)) (snd (run_single star2)) ->
          signals_failure (fst binary) (snd binary) ->
          RadInterp.calculate_model_lc m lc self theta
          = ([rad_interp_call; rad_interp_call; single_star_lc_call;
              single_star_lc_call; dist_ext_mag_calc_call;
              dist_ext_mag_calc_call; binary_star_lc_call],
             Returns RadInterp.err_out)))
  /\
  (forall lcfit m lc (self : BB.mcmc_fitter_bb lcfit) theta u ext_kp ext_h,
      BB.calculate_model_obs_unpack (BB.params self) theta = Returns u ->
      BB.dict_get (BB.filts_ext (BB.setup self)) BB.kp_filt = Returns ext_kp ->
      BB.dict_get (BB.filts_ext (BB.setup self)) BB.h_filt = Returns ext_h ->
      let obj := BB.bb_params_obj (BB.setup self) in
      let star1 :=
        snd (BB.calc_stellar_params obj (BB.value (BB.star1_mass u))
               (BB.value (BB.star1_rad u)) (BB.value (BB.star1_teff u))) in
      let star2 :=
        snd (BB.calc_stellar_params obj (BB.value (BB.star2_mass u))
               (BB.value (BB.star2_rad u)) (BB.value (BB.star2_teff u))) in
      let binary :=
        BB.binary_star_lc lc star1 star2
          (BB.value (BB.binary_period u), BB.value (BB.binary_ecc u),
           BB.value (BB.binary_inc u), BB.value (BB.t0 u))
          (BB.observation_times (BB.data self))
          (BB.use_blackbody_atm (BB.options self))
          (BB.model_compact (BB.options self))
          (BB.irrad_frac_refl (BB.options self))
          (BB.model_numTriangles (BB.options self)) in
      let mags := fst (fst binary) in
      (BB.model_distance (BB.params self) = true ->
       BB.calculate_model_obs m lc self theta = ([], Raises UnitTypeError))
      /\ (BB.model_distance (BB.params self) = false ->
          signals_failure (fst mags) (snd mags) ->
          BB.calculate_model_obs m lc self theta
          = ([calc_stellar_params_call; calc_stellar_params_call;
              binary_star_lc_call],
             Returns BB.err_out))).
Proof.
  split.
  - intros lcfit m lc self theta u Hu iso star1 star2 run_single binary.
    subst iso star1 star2 run_single binary. cbv beta.
    unfold RadInterp.calculate_model_lc. rewrite Hu, bind_lift_returns.
    destruct (RadInterp.rad_interp _ (RadInterp.star1_rad_t u)) as [pa1 lf1].
    destruct (RadInterp.rad_interp _ (RadInterp.star2_rad_t u)) as [pa2 lf2].
    cbn [fst snd].
    destruct (RadInterp.single_star_lc lc lf1 _ _) as [k1 h1] eqn:E1.
    destruct (RadInterp.single_star_lc lc lf2 _ _) as [k2 h2] eqn:E2.
    destruct (RadInterp.binary_star_lc lc lf1 lf2 _ _ _ _) as [kb hb] eqn:E3.
    cbn [fst snd].
    rewrite !bind_invoke; cbn [fst snd]; rewrite E1.
    repeat split.
    + intros H1.
      rewrite (either_failed_signals H1), bind_lift_returns. reflexivity.
    + intros H1 H2.
      rewrite (either_failed_no_failure H1), bind_lift_returns.
      rewrite !bind_invoke; cbn [fst snd]; rewrite E2.
      rewrite (either_failed_signals H2), bind_lift_returns. reflexivity.
    + intros H1 H2 H3.
      rewrite (either_failed_no_failure H1), bind_lift_returns.
      rewrite !bind_invoke; cbn [fst snd]; rewrite E2.
      rewrite (either_failed_no_failure H2), bind_lift_returns.
      rewrite !bind_invoke; cbn [fst snd]; rewrite E3.
      rewrite (either_failed_signals H3), bind_lift_returns. reflexivity.
  - intros lcfit m lc self theta u ext_kp ext_h Hu Hkp Hh
           obj star1 star2 binary mags.
    subst mags binary star1 star2 obj.
    unfold BB.calculate_model_obs, BB.dist_modulus.
    rewrite Hu, bind_lift_returns, Hkp, bind_lift_returns, Hh, bind_lift_returns.
    split; [intros ->; reflexivity | intros ->].
    rewrite bind_lift_returns.
    destruct (BB.calc_stellar_params _ (BB.value (BB.star1_mass u)) _ _)
      as [pa1 lf1].
    destruct (BB.calc_stellar_params _ (BB.value (BB.star2_mass u)) _ _)
      as [pa2 lf2].
    cbn [fst snd].
    destruct (BB.binary_star_lc lc lf1 lf2 _ _ _ _ _ _)
      as [[[kb hb] rp] rs] eqn:E.
    cbn [fst snd]. intros Hs.
    rewrite !bind_invoke; cbn [fst snd]; rewrite E.
    rewrite (either_failed_signals Hs), bind_lift_returns. reflexivity.
Qed.

Lemma forward_model_failure_is_terminal_witness :
  RadInterp.calculate_model_lc libm0 lc_rad_single_fails rad_fit theta_rad
  = ([rad_interp_call; rad_interp_call; single_star_lc_call],
     Returns RadInterp.err_out)
  /\ RadInterp.calculate_model_lc libm0 rad_lc_fails rad_fit theta_rad
     = (rad_log_to_binary, Returns RadInterp.err_out)
  /\ BB.calculate_model_obs libm0 bb_lc_fails bb_fit theta_bb
     = (bb_log_to_binary, Returns BB.err_out)
  /\ BB.calculate_model_obs libm0 bb_lc_fails bb_fit_dist theta_bb_dist
     = ([], Raises UnitTypeError).
Proof.
  destruct forward_model_failure_is_terminal as [HR HB].
  split; [|split; [|split]].
  - destruct (HR float libm0 lc_rad_single_fails rad_fit theta_rad _ eq_refl)
      as [H _].
    apply H. left. exists (-1), []. split; reflexivity.
  - destruct (HR float libm0 rad_lc_fails rad_fit theta_rad _ eq_refl)
      as (_ & _ & H).
    apply H.
    + exists 12, [], 14, []. repeat split; reflexivity.
    + exists 12, [], 14, []. repeat split; reflexivity.
    + left. exists (-1), []. split; reflexivity.
  - destruct (HB float libm0 bb_lc_fails bb_fit theta_bb _ _ _
                eq_refl eq_refl eq_refl) as [_ H].
    apply H; [reflexivity|].
    left. exists (-1), []. split; reflexivity.
  - destruct (HB float libm0 bb_lc_fails bb_fit_dist theta_bb_dist _ _ _
                eq_refl eq_refl eq_refl) as [H _].
    apply H. reflexivity.
Defined.

(** C7 as stated fails in the blackbody fitter: the forward model hands
    back good magnitudes and radial-velocity arrays that start with [-1.],
    and the adapter goes on, applies the distance and extinction correction
    and adds the systemic velocity of 10 km/s to the radial velocities. *)
Lemma rv_arrays_are_not_checked :
  calls (BB.calculate_model_obs libm0 bb_lc_rv_sentinel bb_fit theta_bb_rv10)
  = bb_log_to_binary ++ [dist_ext_mag_calc_call]
  /\ model_rvs
       (BB.calculate_model_obs libm0 bb_lc_rv_sentinel bb_fit theta_bb_rv10)
     = Returns ([9; 40], [9; (-20)]).
Proof. split; vm_compute; reflexivity. Qed.

(** ** Configuration: the distance prior *)

(** C10. [make_bb_params(Ks_ext, dist, filts_list)] leaves the distance
    prior bounds at [0.8 * dist] and [1.2 * dist] and the default distance
    at [dist]. Bounds set with [set_dist_prior_bounds] before it are
    discarded: the fitter is the same as if they had never been set. Set
    after it, they are the bounds. *)
Theorem make_bb_params_resets_distance_prior :
  forall lcfit m (lc : BB.lc_calc_wRV lcfit) Ks_ext dist filts_list self lo hi,
    let made := BB.make_bb_params m lc Ks_ext dist filts_list self in
    (BB.lo_dist_prior_bound (BB.priors made) = 0.8 * dist
     /\ BB.hi_dist_prior_bound (BB.priors made) = 1.2 * dist
     /\ BB.default_dist (BB.params made) = dist)
    /\ BB.make_bb_params m lc Ks_ext dist filts_list
         (BB.set_dist_prior_bounds lo hi self) = made
    /\ (BB.lo_dist_prior_bound
          (BB.priors (BB.set_dist_prior_bounds lo hi made)) = lo
        /\ BB.hi_dist_prior_bound
             (BB.priors (BB.set_dist_prior_bounds lo hi made)) = hi).
Proof. intros. repeat split. Qed.

(** The same on a run: bounds of [7900, 8000] pc set before
    [make_bb_params(2.5, 7971)] do not reject a distance of 8100 pc, set
    after it they do. *)
Example distance_bounds_before_and_after :
  BB.lnprior libm0
    (BB.make_bb_params libm0 bb_lc 2.5 7971 BB.default_filts_list
       (BB.set_dist_prior_bounds 7900 8000 bb_fit_new_dist)) theta_bb_far
  = Returns (BB.Number 0)
  /\ BB.lnprior libm0
       (BB.set_dist_prior_bounds 7900 8000
          (BB.make_bb_params libm0 bb_lc 2.5 7971 BB.default_filts_list
             bb_fit_new_dist)) theta_bb_far
     = Returns (BB.Number neg_infinity).
Proof. split; vm_compute; reflexivity. Qed.

(** ** Reading [theta]: one layout for the three methods *)

(** C8. For every setting of the [model_*] toggles and every [theta],
    [lnprior], [calculate_model_obs] and [lnlike] read each named quantity
    from the same slot of [theta] and read the same number of slots; when
    [theta] is too short, all three raise the same exception. *)
Theorem unpacking_traversals_agree :
  forall (s : BB.schema) (theta : list float),
    layout (BB.lnprior_unpack s theta)
    = layout (BB.calculate_model_obs_unpack s theta)
    /\ layout (BB.calculate_model_obs_unpack s theta)
       = layout (BB.lnlike_unpack s theta).
Proof. intros s theta. split; reflexivity. Qed.

(** The layout is the one of the specification's unpacker: a walk over the
    schema that hands the running index to each free entry. *)

Lemma read_all_walk (entries : list entry) (theta : list float) :
  forall index,
    (index + free_count (flags entries) <= List.length theta)%nat ->
    read_all entries theta index
    = Returns (schema_walk (flags entries) index,
               (index + free_count (flags entries))%nat).
Proof.
  induction entries as [|[[[name free] conv] default] rest IH]; intros index Hlen.
  - cbn. now rewrite Nat.add_0_r.
  - change (flags ((name, free, conv, default) :: rest))
      with ((name, free) :: flags rest) in *.
    unfold free_count in *. cbn [read_all schema_walk].
    destruct free; cbn [filter snd List.length BB.read_if] in *.
    + unfold BB.read, BB.item.
      destruct (nth_error theta index) as [x|] eqn:E.
      * cbn [obind fst snd BB.slot]. rewrite IH by lia. cbn.
        now rewrite Nat.add_succ_r.
      * apply nth_error_None in E. lia.
    + cbn [obind fst snd BB.slot]. rewrite IH by lia. reflexivity.
Qed.

Lemma lnprior_unpack_read_all (s : BB.schema) (theta : list float) :
  layout (BB.lnprior_unpack s theta)
  = obind (read_all (lnprior_entries s) theta 0) (fun rs =>
    obind (BB.read_last theta (snd rs)) (fun t0 =>
    Returns (fst rs ++ [("t0"%string, BB.slot t0)], S (snd rs)))).
Proof.
  unfold BB.lnprior_unpack, lnprior_entries, read_all.
  change (BB.read id theta) with (BB.read_if true id 0 theta).
  repeat match goal with
         | |- context [BB.read_if ?f ?c ?d theta ?i] =>
             destruct (BB.read_if f c d theta i) as [[? ?]|?];
             cbn [obind fst snd layout]; [|reflexivity]
         end.
  destruct (BB.read_last theta _); reflexivity.
Qed.

Lemma schema_walk_app (a b : list (string * bool)) :
  forall index,
    schema_walk (a ++ b) index
    = schema_walk a index ++ schema_walk b (index + free_count a).
Proof.
  unfold free_count.
  induction a as [|[name free] a IH]; intros index; cbn.
  - now rewrite Nat.add_0_r.
  - destruct free; cbn; rewrite IH; [rewrite Nat.add_succ_r|]; reflexivity.
Qed.

Lemma free_count_app (a b : list (string * bool)) :
  free_count (a ++ b) = (free_count a + free_count b)%nat.
Proof. unfold free_count. now rewrite filter_app, length_app. Qed.

Lemma unpack_follows_schema (s : BB.schema) (theta : list float) :
  (free_count (schema_entries s) <= List.length theta)%nat ->
  layout (BB.lnprior_unpack s theta)
  = Returns (schema_walk (schema_entries s) 0, free_count (schema_entries s)).
Proof.
  change (schema_entries s)
    with (flags (lnprior_entries s) ++ [("t0"%string, true)]).
  rewrite free_count_app, schema_walk_app.
  change (free_count [("t0"%string, true)]) with 1%nat.
  set (n := free_count (flags (lnprior_entries s))). intros Hlen.
  rewrite lnprior_unpack_read_all, read_all_walk by (fold n; lia).
  fold n. cbn [obind fst snd Nat.add schema_walk].
  unfold BB.read_last, BB.item.
  destruct (nth_error theta n) as [x|] eqn:E.
  - cbn. now rewrite Nat.add_1_r.
  - apply nth_error_None in E. lia.
Qed.

Example unpack_default_schema :
  layout (BB.lnprior_unpack schema0 theta_bb_dist)
  = Returns (schema_walk (schema_entries schema0) 0, 14%nat).
Proof. apply (@unpack_follows_schema schema0 theta_bb_dist). cbn. lia. Qed.

(** ** Likelihood: the chi-square sums *)

Lemma getitem_app (pre : ndarray) (x : float) (rest : ndarray) :
  getitem (pre ++ x :: rest) (Z.of_nat (List.length pre)) = Returns x.
Proof.
  assert (H1 : (Z.of_nat (List.length pre) <? 0)%Z = false)
    by (apply Z.ltb_ge; lia).
  assert (H2 : (Z.of_nat (List.length (pre ++ x :: rest))
                <=? Z.of_nat (List.length pre))%Z = false)
    by (apply Z.leb_gt; rewrite length_app; cbn; lia).
  unfold getitem. cbv zeta. rewrite H1. cbv iota. rewrite H1, H2. cbn [orb].
  rewrite Nat2Z.id, nth_error_app2, Nat.sub_diag by lia. reflexivity.
Qed.

Lemma take_where_not_nan_from (o : ndarray) :
  forall (pre l : ndarray),
    (List.length o <= List.length l)%nat ->
    take (pre ++ l) (where_not_nan_from (Z.of_nat (List.length pre)) o)
    = Returns (numbers_of o l).
Proof.
  induction o as [|oi o IH]; intros pre l Hlen.
  - reflexivity.
  - destruct l as [|x l]; [cbn in Hlen; lia|]. cbn in Hlen.
    assert (Hk : (Z.of_nat (List.length pre) + 1)%Z
                 = Z.of_nat (List.length (pre ++ [x])))
      by (rewrite length_app; cbn; lia).
    assert (Happ : pre ++ x :: l = (pre ++ [x]) ++ l)
      by (rewrite <- app_assoc; reflexivity).
    cbn [where_not_nan_from numbers_of]. destruct (isnan oi).
    + rewrite Hk, Happ. apply IH. lia.
    + cbn [take]. rewrite getitem_app. cbn [obind].
      rewrite Hk, Happ, IH by lia. reflexivity.
Qed.

Lemma take_where_not_nan (o l : ndarray) :
  (List.length o <= List.length l)%nat ->
  take l (where_not_nan o) = Returns (numbers_of o l).
Proof. intros H. apply (@take_where_not_nan_from o [] l H). Qed.

Lemma take_length (a : ndarray) (inds : list Z) (o : ndarray) :
  take a inds = Returns o -> List.length o = List.length inds.
Proof.
  revert o. induction inds as [|i inds IH]; intros o; cbn.
  - intros [= <-]. reflexivity.
  - destruct (getitem a i); [|discriminate]. cbn.
    destruct (take a inds) as [xs|]; [|discriminate]. cbn.
    intros [= <-]. cbn. f_equal. now apply IH.
Qed.

Lemma numbers_of_length (o l l' : ndarray) :
  (List.length o <= List.length l)%nat ->
  (List.length o <= List.length l')%nat ->
  List.length (numbers_of o l) = List.length (numbers_of o l').
Proof.
  revert l l'. induction o as [|oi o IH]; intros l l' H H'; [reflexivity|].
  destruct l as [|x l]; [cbn in H; lia|].
  destruct l' as [|x' l']; [cbn in H'; lia|].
  cbn in *. destruct (isnan oi); cbn; [|f_equal]; apply IH; lia.
Qed.

Lemma broadcast_same_length f (a b : ndarray) :
  List.length a = List.length b ->
  broadcast f a b = Returns (map (fun p => f (fst p) (snd p)) (combine a b)).
Proof. intros H. unfold broadcast. rewrite H, Nat.eqb_refl. reflexivity. Qed.

Lemma terms_of_numbers (o mo e : ndarray) :
  (List.length o <= List.length mo)%nat ->
  (List.length o <= List.length e)%nat ->
  map (fun p => fst p / snd p)
    (combine
       (square (map (fun p => fst p - snd p)
                  (combine (numbers_of o o) (numbers_of o mo))))
       (square (numbers_of o e)))
  = terms_skipping_nan o mo e.
Proof.
  revert mo e. induction o as [|oi o IH]; intros mo e Hm He; [reflexivity|].
  destruct mo as [|mi mo]; [cbn in Hm; lia|].
  destruct e as [|ei e]; [cbn in He; lia|].
  cbn in Hm, He. cbn [numbers_of terms_skipping_nan].
  destruct (isnan oi).
  - apply IH; lia.
  - cbn. f_equal. apply IH; lia.
Qed.

Lemma chi_square_rv_sum (obs_rv obs_rv_errors : ndarray) (inds : list Z)
    (model o e : ndarray) :
  take obs_rv inds = Returns o ->
  take obs_rv_errors inds = Returns e ->
  List.length model = List.length inds ->
  BB.chi_square_rv obs_rv obs_rv_errors inds model
  = Returns (Np.sum (terms_skipping_nan o model e)).
Proof.
  intros Ho He Hm. unfold BB.chi_square_rv. rewrite Ho, He. cbn [obind].
  pose proof (take_length _ _ Ho) as Lo.
  pose proof (take_length _ _ He) as Le.
  rewrite !take_where_not_nan by lia. cbn [obind].
  rewrite broadcast_same_length by (apply numbers_of_length; lia).
  cbn [obind].
  rewrite broadcast_same_length.
  - cbn [obind]. rewrite terms_of_numbers by lia. reflexivity.
  - unfold square. rewrite !length_map, length_combine.
    rewrite (numbers_of_length o o model), (numbers_of_length o model e) by lia.
    apply Nat.min_id.
Qed.



(** The likelihood as the sum of its four chi-square sums. *)

Lemma bb_lnlike_sums {lcfit} m lc (self : BB.mcmc_fitter_bb lcfit) theta u
    log Kp H RVs_pri RVs_sec kp_days kp_inds kp_times h_days h_inds h_times
    rv_days rv_inds rv_times chi_kp chi_h chi_pri chi_sec :
  BB.lnlike_unpack (BB.params self) theta = Returns u ->
  BB.calculate_model_obs m lc self theta
  = (log, Returns (Kp, H, RVs_pri, RVs_sec)) ->
  no_failure Kp H ->
  BB.phased_obs lc (BB.observation_times (BB.data self))
    (BB.value (BB.binary_period u)) (BB.value (BB.t0 u))
  = ((kp_days, kp_inds, kp_times), (h_days, h_inds, h_times),
     (rv_days, rv_inds, rv_times)) ->
  chi_square (BB.kp_obs_mags (BB.data self))
    (BB.kp_obs_mag_errors (BB.data self)) kp_inds Kp = Returns chi_kp ->
  chi_square (BB.h_obs_mags (BB.data self))
    (BB.h_obs_mag_errors (BB.data self)) h_inds H = Returns chi_h ->
  BB.chi_square_rv (BB.obs_rv_pri (BB.data self))
    (BB.obs_rv_pri_errors (BB.data self)) rv_inds RVs_pri = Returns chi_pri ->
  BB.chi_square_rv (BB.obs_rv_sec (BB.data self))
    (BB.obs_rv_sec_errors (BB.data self)) rv_inds RVs_sec = Returns chi_sec ->
  BB.lnlike m lc self theta
  = (log ++ [phased_obs_call],
     Returns ((-0.5) * (((chi_kp + chi_h) + chi_pri) + chi_sec))).
Proof.
  intros Hu Hm Hok Hph Hkp Hh Hpri Hsec. unfold BB.lnlike.
  rewrite Hu, bind_lift_returns, Hm, bind_returns.
  rewrite (either_failed_no_failure Hok), bind_lift_returns.
  rewrite bind_invoke, Hph.
  rewrite Hkp, bind_lift_returns, Hh, bind_lift_returns.
  cbn [BB.np_where_eq List.length Nat.ltb Nat.leb].
  rewrite Hpri, bind_lift_returns, bind_ret, Hsec, bind_lift_returns, bind_ret.
  reflexivity.
Qed.


Lemma take_nth (a : ndarray) (inds : list Z) :
  forall o, take a inds = Returns o ->
  forall i j, nth_error inds i = Some j ->
  exists x, getitem a j = Returns x /\ nth_error o i = Some x.
Proof.
  induction inds as [|k inds IH]; intros o Ho i j Hi.
  - destruct i; discriminate.
  - cbn in Ho. destruct (getitem a k) as [x|] eqn:Ek; [|discriminate].
    cbn in Ho. destruct (take a inds) as [xs|]; [|discriminate].
    cbn in Ho. injection Ho as <-. destruct i as [|i].
    + injection Hi as <-. exists x. split; [assumption|reflexivity].
    + cbn in Hi. destruct (IH xs eq_refl i j Hi) as (y & Hy & Hn).
      exists y. split; assumption.
Qed.

Lemma terms_skipping_nan_paired (o mo e : ndarray) :
  forall i oi mi ei,
    nth_error o i = Some oi -> nth_error mo i = Some mi ->
    nth_error e i = Some ei -> isnan oi = false ->
    In (term oi mi ei) (terms_skipping_nan o mo e).
Proof.
  revert mo e. induction o as [|x o IH]; intros mo e i oi mi ei Ho Hm He Hn.
  - destruct i; discriminate.
  - destruct mo as [|y mo]; [destruct i; discriminate|].
    destruct e as [|z e]; [destruct i; discriminate|].
    destruct i as [|i]; cbn in Ho, Hm, He.
    + injection Ho as ->. injection Hm as ->. injection He as ->.
      cbn. rewrite Hn. left. reflexivity.
    + cbn. destruct (isnan x); [|right]; eapply IH; eassumption.
Qed.




(** ** Likelihood: the radial velocities of the two roles *)

(** C9. The phase folder is called once and its one radial-velocity fold
    serves both roles: the index set of the primary role and the index set
    of the secondary role are one and the same, the phase-sorted index set
    of that fold. Each role's observations and errors are reordered by it
    and paired, position by position, with the model radial velocities of
    the same role: the observation at index [j = rv_inds[i]] meets the
    model value at position [i], and its term is in the role's sum when the
    observation is a number. The sums run over the positions of the index
    set, not over the observations of the role. *)
Theorem rv_roles_share_fold_and_pair_by_role :
  forall lcfit m lc (self : BB.mcmc_fitter_bb lcfit) theta u
         log Kp H RVs_pri RVs_sec kp_days kp_inds kp_times
         h_days h_inds h_times rv_days rv_inds rv_times
         chi_kp chi_h pri_o pri_e sec_o sec_e,
    BB.lnlike_unpack (BB.params self) theta = Returns u ->
    BB.calculate_model_obs m lc self theta
    = (log, Returns (Kp, H, RVs_pri, RVs_sec)) ->
    no_failure Kp H ->
    BB.phased_obs lc (BB.observation_times (BB.data self))
      (BB.value (BB.binary_period u)) (BB.value (BB.t0 u))
    = ((kp_days, kp_inds, kp_times), (h_days, h_inds, h_times),
       (rv_days, rv_inds, rv_times)) ->
    chi_square (BB.kp_obs_mags (BB.data self))
      (BB.kp_obs_mag_errors (BB.data self)) kp_inds Kp = Returns chi_kp ->
    chi_square (BB.h_obs_mags (BB.data self))
      (BB.h_obs_mag_errors (BB.data self)) h_inds H = Returns chi_h ->
    take (BB.obs_rv_pri (BB.data self)) rv_inds = Returns pri_o ->
    take (BB.obs_rv_pri_errors (BB.data self)) rv_inds = Returns pri_e ->
    take (BB.obs_rv_sec (BB.data self)) rv_inds = Returns sec_o ->
    take (BB.obs_rv_sec_errors (BB.data self)) rv_inds = Returns sec_e ->
    List.length RVs_pri = List.length rv_inds ->
    List.length RVs_sec = List.length rv_inds ->
    BB.lnlike m lc self theta
    = (log ++ [phased_obs_call],
       Returns ((-0.5)
                * (((chi_kp + chi_h)
                    + Np.sum (terms_skipping_nan pri_o RVs_pri pri_e))
                   + Np.sum (terms_skipping_nan sec_o RVs_sec sec_e))))
    /\ (forall i j,
          nth_error rv_inds i = Some j ->
          (exists o e,
              getitem (BB.obs_rv_pri (BB.data self)) j = Returns o
              /\ getitem (BB.obs_rv_pri_errors (BB.data self)) j = Returns e
              /\ forall v,
                  nth_error RVs_pri i = Some v -> isnan o = false ->
                  In (term o v e) (terms_skipping_nan pri_o RVs_pri pri_e))
          /\
          (exists o e,
              getitem (BB.obs_rv_sec (BB.data self)) j = Returns o
              /\ getitem (BB.obs_rv_sec_errors (BB.data self)) j = Returns e
              /\ forall v,
                  nth_error RVs_sec i = Some v -> isnan o = false ->
                  In (term o v e) (terms_skipping_nan sec_o RVs_sec sec_e))).
Proof.
  intros lcfit m lc self theta u log Kp H RVs_pri RVs_sec
         kp_days kp_inds kp_times h_days h_inds h_times
         rv_days rv_inds rv_times chi_kp chi_h pri_o pri_e sec_o sec_e
         Hu Hm Hok Hph Hkp Hh Hpo Hpe Hso Hse Lp Ls.
  split.
  - apply (bb_lnlike_sums _ _ _ _ Hu Hm Hok Hph Hkp Hh).
    + now apply chi_square_rv_sum.
    + now apply chi_square_rv_sum.
  - intros i j Hi. split.
    + destruct (take_nth _ _ Hpo _ Hi) as (o & Ho & Hno).
      destruct (take_nth _ _ Hpe _ Hi) as (e & He & Hne).
      exists o, e. repeat split; try assumption.
      intros v Hv Hnan. now apply terms_skipping_nan_paired with (i := i).
    + destruct (take_nth _ _ Hso _ Hi) as (o & Ho & Hno).
      destruct (take_nth _ _ Hse _ Hi) as (e & He & Hne).
      exists o, e. repeat split; try assumption.
      intros v Hv Hnan. now apply terms_skipping_nan_paired with (i := i).
Qed.

Lemma rv_roles_share_fold_and_pair_by_role_witness :
  calls (BB.lnlike libm0 bb_lc bb_fit theta_bb) = bb_log_full
  /\ In (term 90 (-100) 4)
       (terms_skipping_nan [nan; 90] [100; (-100)] [4; 4])
  /\ In (term 110 (-100) 4)
       (terms_skipping_nan [110; nan] [(-100); 100] [4; 4]).
Proof.
  edestruct (rv_roles_share_fold_and_pair_by_role
               libm0 bb_lc bb_fit theta_bb) as [Hll Hpair];
    [reflexivity | reflexivity | | reflexivity .. | ].
  - do 4 eexists. repeat split; reflexivity.
  - split; [rewrite Hll; vm_compute; reflexivity|].
    destruct (Hpair 1%nat 0%Z eq_refl) as [(o1 & e1 & Ho1 & He1 & H1) _].
    destruct (Hpair 0%nat 1%Z eq_refl) as [_ (o2 & e2 & Ho2 & He2 & H2)].
    vm_compute in Ho1, He1, Ho2, He2.
    injection Ho1 as <-. injection He1 as <-.
    injection Ho2 as <-. injection He2 as <-.
    split; [apply (H1 (-100)) | apply (H2 (-100))]; reflexivity.
Defined.

(** C9 as stated fails: the roles have no index sets of their own, so an
    observation is paired only when its index is in the one set of the
    fold. With three radial velocities of the primary and a fold of two
    epochs, the third velocity of the primary meets no model value:
    [lnlike] is the same finite number whether it is 95 or 500 km/s. *)
Lemma rv_point_outside_the_fold_is_not_paired :
  BB.lnlike libm0 bb_lc (bb_fit_three_pri 95) theta_bb
  = BB.lnlike libm0 bb_lc (bb_fit_three_pri 500) theta_bb
  /\ calls (BB.lnlike libm0 bb_lc (bb_fit_three_pri 95) theta_bb)
     = bb_log_full
  /\ returns_finite
       (result (BB.lnlike libm0 bb_lc (bb_fit_three_pri 95) theta_bb))
     = true.
Proof. repeat split; vm_compute; reflexivity. Qed.

(** ** Prior: bounds, ordering and the two prior modes *)

Ltac split_andb :=
  repeat match goal with
         | H : (_ && _) = true |- _ => apply andb_true_iff in H; destruct H
         end.

Ltac split_orb H :=
  repeat match type of H with
         | (_ || _) = true => apply orb_true_iff in H; destruct H as [H | H]
         end.

Lemma rad_lnprior_accepts {lcfit}
    (self : RadInterp.mcmc_fitter_rad_interp lcfit) theta u :
  RadInterp.unpack (RadInterp.model_eccentricity self) theta = Returns u ->
  rad_bounds_hold self u = true ->
  rad_radius_checks_pass self u = true ->
  RadInterp.lnprior self theta = Returns 0.
Proof.
  intros Hu Hb Hr. unfold RadInterp.lnprior. rewrite Hu. cbn [obind].
  unfold rad_bounds_hold in Hb. unfold rad_radius_checks_pass in Hr.
  split_andb.
  repeat match goal with H : ?b = true |- _ => rewrite H; clear H end.
  reflexivity.
Qed.

Lemma rad_lnprior_rejects {lcfit}
    (self : RadInterp.mcmc_fitter_rad_interp lcfit) theta u :
  RadInterp.unpack (RadInterp.model_eccentricity self) theta = Returns u ->
  rad_some_outside self u = true ->
  RadInterp.lnprior self theta = Returns neg_infinity.
Proof.
  intros Hu Ho. unfold RadInterp.lnprior. rewrite Hu. cbn [obind].
  unfold rad_some_outside in Ho.
  split_orb Ho;
    apply between_strictly_outside in Ho; rewrite Ho;
    rewrite ?andb_false_r; reflexivity.
Qed.

(** The comparisons of the relational requirements. *)
Lemma larger_spec (a_free : bool) (a : float) (b_free : bool) (b : float) :
  BB.larger a_free a b_free b
  = if refused a_free a b_free b then Raises UnitConversionError
    else Returns (b <? a).
Proof.
  unfold BB.larger, refused.
  destruct (Bool.eqb a_free b_free); cbn [negb andb]; [reflexivity|].
  destruct (BB.can_have_arbitrary_unit _); reflexivity.
Qed.

Lemma and_larger_spec (flag check a_free : bool) (a : float) (b_free : bool)
    (b : float) :
  BB.and_larger flag check a_free a b_free b
  = if flag && check && refused a_free a b_free b
    then Raises UnitConversionError
    else Returns (if flag then check && (b <? a) else check).
Proof.
  unfold BB.and_larger. rewrite larger_spec.
  destruct flag, check, (refused a_free a b_free b); reflexivity.
Qed.

(** Opens [lnprior] on a [theta] that unpacks to [u] when no comparison is
    refused: the six relational checks become plain conjunctions. *)
Ltac open_lnprior Hu Href :=
  unfold BB.lnprior; rewrite Hu; cbn [obind]; cbv zeta;
  rewrite !and_larger_spec;
  unfold bb_ordering_refused, within_if in Href;
  repeat (let Hn := fresh "Hnot" in
          apply orb_false_iff in Href; destruct Href as [Href Hn];
          rewrite Hn; clear Hn);
  rewrite Href; clear Href; cbn [obind].

Lemma bb_lnprior_refused {lcfit} m
    (self : BB.mcmc_fitter_bb lcfit) theta u :
  BB.lnprior_unpack (BB.params self) theta = Returns u ->
  bb_ordering_refused (BB.params self) (BB.priors self) u = true ->
  BB.lnprior m self theta = Raises UnitConversionError.
Proof.
  intros Hu Href. unfold BB.lnprior. rewrite Hu. cbn [obind]. cbv zeta.
  rewrite !and_larger_spec.
  unfold bb_ordering_refused, within_if in Href.
  destruct (BB.H_ext_mod_alpha_sig_bound (BB.priors self) =? (-1));
    cbv iota beta.
  all: repeat match goal with
         | |- context [if ?c then Raises UnitConversionError else _] =>
             destruct c eqn:?; [reflexivity | cbn [obind]]
         end.
  all: repeat match goal with
              | H : _ = false |- _ => rewrite H in Href; clear H
              end.
  all: discriminate Href.
Qed.

Lemma bb_lnprior_uniform_accepts {lcfit} m
    (self : BB.mcmc_fitter_bb lcfit) theta u :
  BB.lnprior_unpack (BB.params self) theta = Returns u ->
  bb_ordering_refused (BB.params self) (BB.priors self) u = false ->
  bb_uniform_mode (BB.priors self) = true ->
  bb_orbit_bounds_hold (BB.priors self) u = true ->
  bb_H_ext_mod_bound_holds (BB.priors self) u = true ->
  bb_star_bounds_hold (BB.params self) (BB.priors self) u = true ->
  bb_ordering_holds (BB.params self) u = true ->
  BB.lnprior m self theta = Returns (BB.Number 0).
Proof.
  intros Hu Href Hmode Ho Hh Hs Hr. open_lnprior Hu Href.
  unfold bb_uniform_mode in Hmode. apply andb_true_iff in Hmode as [Hsig Hteff].
  apply negb_true_iff in Hteff.
  unfold bb_orbit_bounds_hold in Ho. unfold bb_H_ext_mod_bound_holds in Hh.
  unfold bb_star_bounds_hold, within_if in Hs.
  unfold bb_ordering_holds in Hr.
  rewrite Hteff in *. rewrite Hsig. cbv zeta iota beta.
  split_andb.
  destruct (BB.star1_mass_larger (BB.params self)),
    (BB.star1_rad_larger (BB.params self)),
    (BB.star1_teff_larger (BB.params self)),
    (BB.star2_mass_larger (BB.params self)),
    (BB.star2_rad_larger (BB.params self)),
    (BB.star2_teff_larger (BB.params self));
  repeat match goal with H : ?b = true |- _ => rewrite H; clear H end;
  reflexivity.
Qed.

Lemma bb_lnprior_gaussian_accepts {lcfit} m
    (self : BB.mcmc_fitter_bb lcfit) theta u :
  BB.lnprior_unpack (BB.params self) theta = Returns u ->
  bb_ordering_refused (BB.params self) (BB.priors self) u = false ->
  bb_uniform_mode (BB.priors self) = false ->
  bb_orbit_bounds_hold (BB.priors self) u = true ->
  bb_star_bounds_hold (BB.params self) (BB.priors self) u = true ->
  bb_ordering_holds (BB.params self) u = true ->
  bb_gaussian_teff_is_free (BB.params self) (BB.priors self) = true ->
  BB.lnprior m self theta
  = Returns (BB.Number
               (bb_gaussian_prior m (BB.options self) (BB.priors self) u)).
Proof.
  intros Hu Href Hmode Ho Hs Hr Hfree. open_lnprior Hu Href.
  unfold bb_uniform_mode in Hmode.
  unfold bb_orbit_bounds_hold in Ho.
  unfold bb_star_bounds_hold, within_if in Hs.
  unfold bb_ordering_holds in Hr.
  unfold bb_gaussian_teff_is_free in Hfree.
  unfold bb_gaussian_prior, bb_H_ext_mod_bound_oneSig, BB.add_teff_term.
  destruct (BB.H_ext_mod_alpha_sig_bound (BB.priors self) =? (-1)) eqn:Hsig;
    destruct (BB.star1_teff_sig_bound (BB.priors self)) eqn:Hteff;
    try discriminate Hmode; cbv zeta iota beta; cbn [negb andb orb] in *;
    try rewrite Hfree in *; cbn [negb andb orb] in *;
    split_andb;
    destruct (BB.star1_mass_larger (BB.params self)),
      (BB.star1_rad_larger (BB.params self)),
      (BB.star1_teff_larger (BB.params self)),
      (BB.star2_mass_larger (BB.params self)),
      (BB.star2_rad_larger (BB.params self)),
      (BB.star2_teff_larger (BB.params self));
    repeat match goal with H : ?b = true |- _ => rewrite H; clear H end;
    reflexivity.
Qed.

Lemma bb_lnprior_fixed_teff_refused {lcfit} m
    (self : BB.mcmc_fitter_bb lcfit) theta u :
  BB.lnprior_unpack (BB.params self) theta = Returns u ->
  bb_ordering_refused (BB.params self) (BB.priors self) u = false ->
  bb_uniform_mode (BB.priors self) = false ->
  bb_orbit_bounds_hold (BB.priors self) u = true ->
  bb_star_bounds_hold (BB.params self) (BB.priors self) u = true ->
  bb_ordering_holds (BB.params self) u = true ->
  bb_gaussian_teff_is_free (BB.params self) (BB.priors self) = false ->
  BB.can_have_arbitrary_unit (BB.star1_teff_bound_mu (BB.priors self))
  = false ->
  BB.lnprior m self theta = Raises UnitConversionError.
Proof.
  intros Hu Href Hmode Ho Hs Hr Hfree Hmu. open_lnprior Hu Href.
  unfold bb_uniform_mode in Hmode.
  unfold bb_orbit_bounds_hold in Ho.
  unfold bb_star_bounds_hold, within_if in Hs.
  unfold bb_ordering_holds in Hr.
  unfold bb_gaussian_teff_is_free in Hfree.
  apply orb_false_iff in Hfree as [Hteff Hfree].
  apply negb_false_iff in Hteff.
  unfold BB.add_teff_term. rewrite Hmu.
  rewrite Hteff, Hfree in *. cbn [negb andb orb] in *.
  rewrite andb_false_r. cbv zeta iota beta.
  split_andb.
  destruct (BB.H_ext_mod_alpha_sig_bound (BB.priors self) =? (-1));
    cbv iota beta;
    destruct (BB.star1_mass_larger (BB.params self)),
      (BB.star1_rad_larger (BB.params self)),
      (BB.star1_teff_larger (BB.params self)),
      (BB.star2_mass_larger (BB.params self)),
      (BB.star2_rad_larger (BB.params self)),
      (BB.star2_teff_larger (BB.params self));
    repeat match goal with H : ?b = true |- _ => rewrite H; clear H end;
    reflexivity.
Qed.

Lemma outside_if_true (free : bool) (lo x hi : float) :
  outside_if free lo x hi = true -> free = true /\ between lo x hi = false.
Proof.
  unfold outside_if. intros H. apply andb_true_iff in H as [-> H].
  split; [reflexivity|]. now apply between_strictly_outside.
Qed.

Ltac chain_is_false := rewrite ?andb_false_r; cbn [andb]; reflexivity.

Ltac star_outside H flag :=
  apply outside_if_true in H; destruct H as [Hfree H];
  try (apply andb_true_iff in Hfree; destruct Hfree as [Hfree Hsig'];
       try discriminate Hsig');
  rewrite ?Hfree, H; cbn [andb negb];
  destruct flag; chain_is_false.

Lemma bb_lnprior_rejects {lcfit} m
    (self : BB.mcmc_fitter_bb lcfit) theta u :
  BB.lnprior_unpack (BB.params self) theta = Returns u ->
  bb_ordering_refused (BB.params self) (BB.priors self) u = false ->
  bb_some_outside (BB.params self) (BB.priors self) u = true ->
  BB.lnprior m self theta = Returns (BB.Number neg_infinity).
Proof.
  intros Hu Href Ho. open_lnprior Hu Href.
  unfold bb_some_outside in Ho.
  destruct (BB.H_ext_mod_alpha_sig_bound (BB.priors self) =? (-1)) eqn:Hsig;
    destruct (BB.star1_teff_sig_bound (BB.priors self)) eqn:Hteff;
    cbv zeta iota beta; cbn [negb andb] in *;
    split_orb Ho;
    try (apply between_strictly_outside in Ho; rewrite Ho; chain_is_false).
  all: try (star_outside Ho (BB.star1_mass_larger (BB.params self))).
  all: try (star_outside Ho (BB.star1_rad_larger (BB.params self))).
  all: try (star_outside Ho (BB.star1_teff_larger (BB.params self))).
  all: try (star_outside Ho (BB.star2_mass_larger (BB.params self))).
  all: try (star_outside Ho (BB.star2_rad_larger (BB.params self))).
  all: try (star_outside Ho (BB.star2_teff_larger (BB.params self))).
Qed.

Lemma bb_lnprior_uniform_rejects_H {lcfit} m
    (self : BB.mcmc_fitter_bb lcfit) theta u :
  BB.lnprior_unpack (BB.params self) theta = Returns u ->
  bb_ordering_refused (BB.params self) (BB.priors self) u = false ->
  bb_uniform_mode (BB.priors self) = true ->
  strictly_outside (BB.lo_H_ext_mod_prior_bound (BB.priors self))
    (BB.value (BB.H_ext_mod u)) (BB.hi_H_ext_mod_prior_bound (BB.priors self))
  = true ->
  BB.lnprior m self theta = Returns (BB.Number neg_infinity).
Proof.
  intros Hu Href Hmode Ho. open_lnprior Hu Href.
  unfold bb_uniform_mode in Hmode. apply andb_true_iff in Hmode as [Hsig Hteff].
  apply negb_true_iff in Hteff. rewrite Hsig, Hteff. cbv zeta iota beta.
  cbn [negb andb].
  apply between_strictly_outside in Ho. rewrite Ho. chain_is_false.
Qed.

(** C2. The prior is [0.0] in uniform mode when every bound that is checked
    holds for the value in use (free or default) and the radius or ordering
    checks pass; in Gaussian mode it is then the sum of the Gaussian terms.
    It is minus infinity as soon as a value under a checked uniform bound
    lies strictly outside it. In the blackbody fitter this is so when no
    relational requirement compares a stellar quantity that is not read
    from [theta], a Quantity, with a number read from [theta]: astropy
    refuses that comparison and [lnprior] raises; so does the Gaussian
    term of a temperature that is not read from [theta]. *)
Theorem lnprior_bounds :
  (forall lcfit (self : RadInterp.mcmc_fitter_rad_interp lcfit) theta u,
      RadInterp.unpack (RadInterp.model_eccentricity self) theta = Returns u ->
      (rad_bounds_hold self u = true ->
       rad_radius_checks_pass self u = true ->
       RadInterp.lnprior self theta = Returns 0)
      /\ (rad_some_outside self u = true ->
          RadInterp.lnprior self theta = Returns neg_infinity))
  /\
  (forall lcfit m (self : BB.mcmc_fitter_bb lcfit) theta u,
      BB.lnprior_unpack (BB.params self) theta = Returns u ->
      let s := BB.params self in
      let p := BB.priors self in
      (bb_ordering_refused s p u = true ->
       BB.lnprior m self theta = Raises UnitConversionError)
      /\ (bb_ordering_refused s p u = false ->
          (bb_uniform_mode p = true ->
           bb_orbit_bounds_hold p u = true ->
           bb_H_ext_mod_bound_holds p u = true ->
           bb_star_bounds_hold s p u = true ->
           bb_ordering_holds s u = true ->
           BB.lnprior m self theta = Returns (BB.Number 0))
          /\ (bb_uniform_mode p = false ->
              bb_orbit_bounds_hold p u = true ->
              bb_star_bounds_hold s p u = true ->
              bb_ordering_holds s u = true ->
              ((BB.H_ext_mod_alpha_sig_bound p =? (-1)) = true ->
               bb_H_ext_mod_bound_holds p u = true) ->
              (bb_gaussian_teff_is_free s p = true ->
               BB.lnprior m self theta
               = Returns (BB.Number
                            (bb_gaussian_prior m (BB.options self) p u)))
              /\ (bb_gaussian_teff_is_free s p = false ->
                  BB.can_have_arbitrary_unit (BB.star1_teff_bound_mu p)
                  = false ->
                  BB.lnprior m self theta = Raises UnitConversionError))
          /\ (bb_some_outside s p u = true ->
              BB.lnprior m self theta = Returns (BB.Number neg_infinity))
          /\ (bb_uniform_mode p = true ->
              strictly_outside (BB.lo_H_ext_mod_prior_bound p)
                (BB.value (BB.H_ext_mod u)) (BB.hi_H_ext_mod_prior_bound p)
              = true ->
              BB.lnprior m self theta = Returns (BB.Number neg_infinity)))).
Proof.
  split.
  - intros lcfit self theta u Hu. split.
    + now apply rad_lnprior_accepts.
    + now apply rad_lnprior_rejects.
  - intros lcfit m self theta u Hu s p. subst s p. split.
    + now apply (@bb_lnprior_refused _ m self theta u).
    + intros Href. repeat split.
      * now apply (@bb_lnprior_uniform_accepts _ m self theta u).
      * intros. now apply (@bb_lnprior_gaussian_accepts _ m self theta u).
      * intros. now apply (@bb_lnprior_fixed_teff_refused _ m self theta u).
      * now apply (@bb_lnprior_rejects _ m self theta u).
      * now apply (@bb_lnprior_uniform_rejects_H _ m self theta u).
Qed.

Lemma lnprior_bounds_witness :
  RadInterp.lnprior rad_fit theta_rad = Returns 0
  /\ BB.lnprior libm0 bb_fit theta_bb = Returns (BB.Number 0)
  /\ returns_finite
       (prior_magnitude (BB.lnprior libm0 bb_fit_gaussian theta_bb)) = true
  /\ BB.lnprior libm0 bb_fit theta_bb_inc200
     = Returns (BB.Number neg_infinity)
  /\ BB.lnprior libm0 bb_fit theta_bb_H5 = Returns (BB.Number neg_infinity)
  /\ BB.lnprior libm0 bb_fit_fixed_mass theta_bb_fixed_mass_inc200
     = Raises UnitConversionError
  /\ BB.lnprior libm0 bb_fit_fixed_teff theta_bb_fixed_teff
     = Raises UnitConversionError.
Proof.
  destruct lnprior_bounds as [HR HB].
  split; [|split; [|split; [|split; [|split; [|split]]]]].
  - destruct (HR float rad_fit theta_rad _ eq_refl) as [H _].
    apply H; vm_compute; reflexivity.
  - destruct (HB float libm0 bb_fit theta_bb _ eq_refl) as [_ H].
    destruct (H eq_refl) as [H1 _].
    apply H1; vm_compute; reflexivity.
  - destruct (HB float libm0 bb_fit_gaussian theta_bb _ eq_refl) as [_ H].
    destruct (H eq_refl) as (_ & H1 & _).
    destruct (H1 eq_refl eq_refl eq_refl eq_refl) as [H2 _].
    { intros E. vm_compute in E. discriminate E. }
    rewrite H2; vm_compute; reflexivity.
  - destruct (HB float libm0 bb_fit theta_bb_inc200 _ eq_refl) as [_ H].
    destruct (H eq_refl) as (_ & _ & H1 & _).
    apply H1; vm_compute; reflexivity.
  - destruct (HB float libm0 bb_fit theta_bb_H5 _ eq_refl) as [_ H].
    destruct (H eq_refl) as (_ & _ & _ & H1).
    apply H1; vm_compute; reflexivity.
  - destruct (HB float libm0 bb_fit_fixed_mass theta_bb_fixed_mass_inc200 _
                eq_refl) as [H _].
    apply H; vm_compute; reflexivity.
  - destruct (HB float libm0 bb_fit_fixed_teff theta_bb_fixed_teff _ eq_refl)
      as [_ H].
    destruct (H eq_refl) as (_ & H1 & _).
    destruct (H1 eq_refl eq_refl eq_refl eq_refl (fun _ => eq_refl))
      as [_ H2].
    apply H2; vm_compute; reflexivity.
Defined.

(** C2 as stated fails when a quantity that is not free has a default
    outside its bounds: the eccentricity is not modelled, its bounds are
    [0.05, 0.1], every one of the seven components of [theta] lies within
    its bound and the radius checks pass, and the prior is minus infinity
    because the eccentricity in use, [0.], is checked all the same. *)
Lemma fixed_default_is_checked :
  rad_claim_conditions rad_fit_fixed_ecc theta_rad7 = Returns true
  /\ RadInterp.lnprior rad_fit_fixed_ecc theta_rad7 = Returns neg_infinity.
Proof. split; vm_compute; reflexivity. Qed.

(** With a Gaussian prior on the temperature of star 1 only, the bound of
    the H extinction modifier is computed and then not used: a modifier of
    5, outside [[-2, 2]], is accepted. *)
Example mixed_mode_drops_H_ext_mod_bound :
  BB.lnprior libm0 bb_fit theta_bb_H5 = Returns (BB.Number neg_infinity)
  /\ returns_finite
       (prior_magnitude (BB.lnprior libm0 bb_fit_teff_gaussian theta_bb_H5))
     = true.
Proof. split; vm_compute; reflexivity. Qed.

(** In Gaussian mode the prior need not be finite: at a Kp extinction of
    zero the width of the Gaussian on the H extinction modifier is zero and
    the prior is NaN. *)
Example gaussian_prior_nan_at_zero_extinction :
  returns_finite
    (prior_magnitude (BB.lnprior libm0 bb_fit_gaussian theta_bb)) = true
  /\ returns_nan
       (prior_magnitude (BB.lnprior libm0 bb_fit_H_gaussian theta_bb_no_ext))
     = true.
Proof. split; vm_compute; reflexivity. Qed.

(** * Further properties *)

(** ** More binary64 facts *)

Lemma isnan_spec (x : float) : isnan x = true -> Prim2SF x = S754_nan.
Proof.
  unfold isnan, is_nan. rewrite FloatAxioms.eqb_spec.
  destruct (Prim2SF x) as [s|s| |s mx e]; cbn; try discriminate;
    try reflexivity.
  - destruct s; discriminate.
  - unfold SFeqb, SFcompare. destruct s.
    + rewrite Z.compare_refl, Pos.compare_cont_refl. discriminate.
    + rewrite Z.compare_refl, Pos.compare_cont_refl. discriminate.
Qed.

Lemma leb_nan_l (x y : float) : isnan x = true -> (x <=? y) = false.
Proof.
  intros H. rewrite leb_spec, (isnan_spec _ H). reflexivity.
Qed.

Lemma leb_nan_r (x y : float) : isnan y = true -> (x <=? y) = false.
Proof.
  intros H. rewrite leb_spec, (isnan_spec _ H).
  destruct (Prim2SF x); reflexivity.
Qed.

Lemma between_nan (lo x hi : float) : isnan x = true -> between lo x hi = false.
Proof. intros H. unfold between. now rewrite (leb_nan_r lo _ H). Qed.

Lemma shr_1_nonneg (mrs : shr_record) :
  (0 <= shr_m mrs)%Z -> (0 <= shr_m (shr_1 mrs))%Z.
Proof.
  destruct mrs as [mm r s]. cbn.
  destruct mm as [|[p|p|]|[p|p|]]; cbn; intros H; lia.
Qed.

Lemma iter_pos_shr_1_nonneg (p : positive) :
  forall mrs, (0 <= shr_m mrs)%Z -> (0 <= shr_m (SpecFloat.iter_pos shr_1 p mrs))%Z.
Proof.
  induction p as [p IH|p IH|]; intros mrs H; cbn.
  - apply IH, IH, shr_1_nonneg, H.
  - apply IH, IH, H.
  - apply shr_1_nonneg, H.
Qed.

Lemma shr_fexp_nonneg (mm e : Z) (l : location) :
  (0 <= mm)%Z -> (0 <= shr_m (fst (shr_fexp prec emax mm e l)))%Z.
Proof.
  intros H. unfold shr_fexp, shr.
  assert (H0 : (0 <= shr_m (shr_record_of_loc mm l))%Z)
    by (destruct l as [|[| |]]; exact H).
  destruct (_ - e)%Z; cbn [fst]; try exact H0.
  now apply iter_pos_shr_1_nonneg.
Qed.

Lemma round_nearest_even_nonneg (mx : Z) (l : location) :
  (0 <= mx)%Z -> (0 <= round_nearest_even mx l)%Z.
Proof.
  intros H. destruct l as [|[| |]]; cbn; try lia.
  destruct (Z.even mx); lia.
Qed.

Lemma binary_round_aux_not_nan (sx : bool) (mx ex : Z) (l : location) :
  (0 <= mx)%Z -> binary_round_aux prec emax sx mx ex l <> S754_nan.
Proof.
  intros H. unfold binary_round_aux.
  pose proof (shr_fexp_nonneg ex l H) as H1.
  destruct (shr_fexp prec emax mx ex l) as [mrs' e']. cbn [fst] in H1.
  pose proof (shr_fexp_nonneg e' loc_Exact
                (round_nearest_even_nonneg (loc_of_shr_record mrs') H1)) as H2.
  destruct (shr_fexp prec emax _ e' loc_Exact) as [mrs'' e'']. cbn [fst] in H2.
  destruct (shr_m mrs'') as [|q|q]; try discriminate; [|lia].
  destruct (e'' <=? emax - prec)%Z; discriminate.
Qed.

Lemma binary_normalize_not_nan (mz e : Z) (szero : bool) :
  binary_normalize prec emax mz e szero <> S754_nan.
Proof.
  unfold binary_normalize, binary_round.
  destruct mz as [|q|q]; try discriminate;
    destruct (shl_align q e _) as [mz ez];
    apply binary_round_aux_not_nan; lia.
Qed.

Lemma add_finite_not_nan (x y : float) :
  isfinite x = true -> isfinite y = true -> isnan (x + y) = false.
Proof.
  intros Hx Hy.
  destruct (isnan (x + y)) eqn:E; [|reflexivity]. exfalso.
  apply isnan_spec in E. rewrite add_spec in E.
  destruct (is_finite_classes x Hx) as [[sx Ex] | (sx & mx & ex & Ex)];
    destruct (is_finite_classes y Hy) as [[sy Ey] | (sy & my & ey & Ey)];
    rewrite Ex, Ey in E; cbn in E.
  - destruct sx, sy; discriminate.
  - discriminate.
  - discriminate.
  - revert E. apply binary_normalize_not_nan.
Qed.

(** ** The order of binary64 *)

Lemma finite_compare_trans (s : bool) (m1 m2 m3 : positive) (e1 e2 e3 : Z) o1 o2 :
  SFcompare (S754_finite s m1 e1) (S754_finite s m2 e2) = Some o1 ->
  SFcompare (S754_finite s m2 e2) (S754_finite s m3 e3) = Some o2 ->
  le_cmp o1 -> le_cmp o2 ->
  exists o3, SFcompare (S754_finite s m1 e1) (S754_finite s m3 e3) = Some o3
             /\ le_cmp o3 /\ (o3 = Eq -> o1 = Eq /\ o2 = Eq).
Proof.
  unfold le_cmp. cbn.
  change (PosDef.Pos.compare_cont Eq) with Pos.compare.
  intros H1 H2 L1 L2. injection H1 as <-. injection H2 as <-.
  eexists. split; [reflexivity|].
  destruct s;
    destruct (Z.compare_spec e1 e2), (Z.compare_spec e2 e3),
      (Z.compare_spec e1 e3); try lia;
    destruct (Pos.compare_spec m1 m2), (Pos.compare_spec m2 m3),
      (Pos.compare_spec m1 m3); try lia; cbn in *;
    intuition congruence.
Qed.

Lemma SFcompare_trans (a b c : spec_float) o1 o2 :
  SFcompare a b = Some o1 -> SFcompare b c = Some o2 ->
  le_cmp o1 -> le_cmp o2 ->
  exists o3, SFcompare a c = Some o3
             /\ le_cmp o3 /\ (o3 = Eq -> o1 = Eq /\ o2 = Eq).
Proof.
  destruct a as [sa|sa| |sa ma ea], b as [sb|sb| |sb mb eb],
    c as [sc|sc| |sc mc ec]; try discriminate.
  all: try (destruct sa, sb, sc; unfold le_cmp; cbn;
            intros H1 H2 L1 L2; injection H1 as <-; injection H2 as <-;
            eexists; (split; [reflexivity|]); intuition congruence).
  all: try (destruct sa; unfold le_cmp; cbn;
            intros H1 H2 L1 L2; injection H1 as <-; injection H2 as <-;
            eexists; (split; [reflexivity|]); intuition congruence).
  all: try (destruct sb; unfold le_cmp; cbn;
            intros H1 H2 L1 L2; injection H1 as <-; injection H2 as <-;
            eexists; (split; [reflexivity|]); intuition congruence).
  all: try (destruct sc; unfold le_cmp; cbn;
            intros H1 H2 L1 L2; injection H1 as <-; injection H2 as <-;
            eexists; (split; [reflexivity|]); intuition congruence).
  destruct sa, sb, sc; try apply finite_compare_trans;
    unfold le_cmp; cbn; intros H1 H2 L1 L2;
    injection H1 as <-; injection H2 as <-;
    eexists; (split; [reflexivity|]); intuition congruence.
Qed.

Lemma leb_trans (x y z : float) :
  (x <=? y) = true -> (y <=? z) = true -> (x <=? z) = true.
Proof.
  rewrite !leb_spec. unfold SFleb. intros H1 H2.
  destruct (SFcompare (Prim2SF x) (Prim2SF y)) as [o1|] eqn:E1;
    [|discriminate].
  destruct (SFcompare (Prim2SF y) (Prim2SF z)) as [o2|] eqn:E2;
    [|destruct o1; discriminate].
  assert (L1 : le_cmp o1) by (destruct o1; try discriminate; red; auto).
  assert (L2 : le_cmp o2) by (destruct o2; try discriminate; red; auto).
  destruct (@SFcompare_trans _ _ _ _ _ E1 E2 L1 L2) as (o3 & -> & [-> | ->] & _);
    reflexivity.
Qed.

Lemma ltb_trans (x y z : float) :
  (x <? y) = true -> (y <? z) = true -> (x <? z) = true.
Proof.
  rewrite !ltb_spec. unfold SFltb. intros H1 H2.
  destruct (SFcompare (Prim2SF x) (Prim2SF y)) as [[| |]|] eqn:E1;
    try discriminate.
  destruct (SFcompare (Prim2SF y) (Prim2SF z)) as [[| |]|] eqn:E2;
    try discriminate.
  assert (L : le_cmp Lt) by (red; auto).
  destruct (@SFcompare_trans _ _ _ _ _ E1 E2 L L) as (o3 & -> & [-> | ->] & Heq);
    [reflexivity|].
  destruct (Heq eq_refl). discriminate.
Qed.

Lemma ltb_leb (x y : float) : (x <? y) = true -> (x <=? y) = true.
Proof.
  rewrite ltb_spec, leb_spec. unfold SFltb, SFleb.
  destruct (SFcompare (Prim2SF x) (Prim2SF y)) as [[| |]|]; congruence.
Qed.

Lemma ltb_asym (x y : float) : (x <? y) = true -> (y <? x) = false.
Proof.
  intros H. destruct (y <? x) eqn:E; [|reflexivity].
  apply ltb_leb in E. apply ltb_leb_false in H. congruence.
Qed.

(** ** theta of the wrong shape *)

Lemma rad_unpack_wrong_arity (model_ecc : bool) (theta : list float) :
  List.length theta <> rad_arity model_ecc ->
  RadInterp.unpack model_ecc theta = Raises ValueError.
Proof.
  unfold RadInterp.unpack, rad_arity. intros H.
  destruct model_ecc;
    repeat (destruct theta as [|? theta]; try reflexivity);
    cbn in H; congruence.
Qed.

(** X1. In the radius-interpolation fitter a [theta] that does not have
    exactly the number of components the fitter expects (eight, or seven
    when the eccentricity is not modelled) makes the tuple assignment at
    the head of [lnprior], [calculate_model_lc] and [lnlike] raise
    [ValueError]; [lnprob] raises it too, and no collaborator has been
    called. *)
Theorem rad_wrong_arity_raises :
  forall lcfit m lc (self : RadInterp.mcmc_fitter_rad_interp lcfit) theta,
    List.length theta <> rad_arity (RadInterp.model_eccentricity self) ->
    RadInterp.lnprior self theta = Raises ValueError
    /\ RadInterp.calculate_model_lc m lc self theta = ([], Raises ValueError)
    /\ RadInterp.lnlike m lc self theta = ([], Raises ValueError)
    /\ RadInterp.lnprob m lc self theta = ([], Raises ValueError).
Proof.
  intros lcfit m lc self theta H.
  pose proof (@rad_unpack_wrong_arity _ _ H) as Hu.
  assert (Hp : RadInterp.lnprior self theta = Raises ValueError)
    by (unfold RadInterp.lnprior; now rewrite Hu).
  split; [exact Hp|]. split; [|split].
  - unfold RadInterp.calculate_model_lc. now rewrite Hu, bind_lift_raises.
  - unfold RadInterp.lnlike. now rewrite Hu, bind_lift_raises.
  - unfold RadInterp.lnprob. now rewrite Hp, bind_lift_raises.
Qed.

Lemma rad_wrong_arity_raises_witness :
  RadInterp.lnprior rad_fit theta_rad7 = Raises ValueError
  /\ RadInterp.lnprob libm0 rad_lc rad_fit (theta_rad ++ [0])
     = ([], Raises ValueError).
Proof.
  split.
  - apply (@rad_wrong_arity_raises float libm0 rad_lc rad_fit theta_rad7).
    cbn. discriminate.
  - apply (@rad_wrong_arity_raises float libm0 rad_lc rad_fit (theta_rad ++ [0])).
    cbn. discriminate.
Defined.

Lemma read_all_short (entries : list entry) (theta : list float) B
    (k : list (string * option nat) * nat -> BB.binding -> outcome B) :
  forall index,
    (List.length theta <= index + free_count (flags entries))%nat ->
    obind (read_all entries theta index) (fun rs =>
    obind (BB.read_last theta (snd rs)) (k rs))
    = Raises IndexError.
Proof.
  induction entries as [|[[[name free] conv] default] rest IH] in k |- *;
    intros index Hlen.
  - cbn in *. unfold BB.read_last, BB.item.
    destruct (nth_error theta index) as [x|] eqn:E; [|reflexivity].
    assert (index < List.length theta)%nat
      by (apply nth_error_Some; congruence).
    unfold free_count in Hlen. cbn in Hlen. lia.
  - change (flags ((name, free, conv, default) :: rest))
      with ((name, free) :: flags rest) in *.
    unfold free_count in *. cbn [read_all].
    destruct free; cbn [filter snd List.length BB.read_if] in *.
    + unfold BB.read, BB.item.
      destruct (nth_error theta index) as [x|] eqn:E; [|reflexivity].
      cbn [obind fst snd].
      specialize (IH (fun rs => k ((name, Some index) :: fst rs, snd rs))
                     (S index)).
      cbn [BB.slot].
      destruct (read_all rest theta (S index)) as [rs|e] eqn:Er;
        cbn [obind fst snd] in *; [|apply IH; lia].
      apply IH. lia.
    + cbn [obind fst snd BB.slot].
      specialize (IH (fun rs => k ((name, None) :: fst rs, snd rs)) index).
      destruct (read_all rest theta index) as [rs|e] eqn:Er;
        cbn [obind fst snd] in *; apply IH; lia.
Qed.

Lemma lnprior_unpack_short (s : BB.schema) (theta : list float) :
  (List.length theta < free_count (schema_entries s))%nat ->
  BB.lnprior_unpack s theta = Raises IndexError.
Proof.
  intros Hlen.
  assert (H : layout (BB.lnprior_unpack s theta) = Raises IndexError).
  { rewrite lnprior_unpack_read_all. apply read_all_short.
    revert Hlen.
    change (schema_entries s)
      with (flags (lnprior_entries s) ++ [("t0"%string, true)]).
    rewrite free_count_app.
    change (free_count [("t0"%string, true)]) with 1%nat. lia. }
  destruct (BB.lnprior_unpack s theta) as [u|e]; cbn in H; congruence.
Qed.

(** X2. In the blackbody fitter a [theta] with fewer components than the
    schema has free entries makes [lnprior], [calculate_model_obs],
    [lnlike] and [lnprob] raise [IndexError], before any collaborator
    call. *)
Theorem bb_short_theta_raises :
  forall lcfit m lc (self : BB.mcmc_fitter_bb lcfit) theta,
    (List.length theta < free_count (schema_entries (BB.params self)))%nat ->
    BB.lnprior m self theta = Raises IndexError
    /\ BB.calculate_model_obs m lc self theta = ([], Raises IndexError)
    /\ BB.lnlike m lc self theta = ([], Raises IndexError)
    /\ BB.lnprob m lc self theta = ([], Raises IndexError).
Proof.
  intros lcfit m lc self theta H.
  pose proof (@lnprior_unpack_short _ _ H) as Hu.
  assert (Hp : BB.lnprior m self theta = Raises IndexError)
    by (unfold BB.lnprior; now rewrite Hu).
  split; [exact Hp|]. split; [|split].
  - unfold BB.calculate_model_obs.
    change (BB.calculate_model_obs_unpack (BB.params self) theta)
      with (BB.lnprior_unpack (BB.params self) theta).
    now rewrite Hu, bind_lift_raises.
  - unfold BB.lnlike.
    change (BB.lnlike_unpack (BB.params self) theta)
      with (BB.lnprior_unpack (BB.params self) theta).
    now rewrite Hu, bind_lift_raises.
  - unfold BB.lnprob. now rewrite Hp, bind_lift_raises.
Qed.

Lemma bb_short_theta_raises_witness :
  BB.lnprob libm0 bb_lc bb_fit theta_rad = ([], Raises IndexError).
Proof.
  apply (@bb_short_theta_raises float libm0 bb_lc bb_fit theta_rad).
  cbn. lia.
Defined.

(** Components of theta after the last slot read. *)

Lemma read_if_app (free : bool) conv default (theta extra : list float) i r :
  BB.read_if free conv default theta i = Returns r ->
  BB.read_if free conv default (theta ++ extra) i = Returns r.
Proof.
  unfold BB.read_if, BB.read, BB.item. destruct free; [|trivial].
  destruct (nth_error theta i) as [x|] eqn:E; [|discriminate].
  rewrite nth_error_app1 by (apply nth_error_Some; congruence).
  now rewrite E.
Qed.

Lemma read_last_app (theta extra : list float) i r :
  BB.read_last theta i = Returns r ->
  BB.read_last (theta ++ extra) i = Returns r.
Proof.
  unfold BB.read_last, BB.item.
  destruct (nth_error theta i) as [x|] eqn:E; [|discriminate].
  rewrite nth_error_app1 by (apply nth_error_Some; congruence).
  now rewrite E.
Qed.

Lemma lnprior_unpack_app (s : BB.schema) (theta extra : list float) u :
  BB.lnprior_unpack s theta = Returns u ->
  BB.lnprior_unpack s (theta ++ extra) = Returns u.
Proof.
  unfold BB.lnprior_unpack.
  change (BB.read id theta) with (BB.read_if true id 0 theta).
  change (BB.read id (theta ++ extra))
    with (BB.read_if true id 0 (theta ++ extra)).
  repeat match goal with
         | |- context [BB.read_if ?f ?c ?d theta ?i] =>
             let E := fresh "E" in
             destruct (BB.read_if f c d theta i) as [[? ?]|?] eqn:E;
             cbn [obind]; [|discriminate];
             rewrite (@read_if_app _ _ _ _ extra _ _ E); cbn [obind]
         end.
  destruct (BB.read_last theta _) as [t|] eqn:Elast; cbn [obind];
    [|discriminate].
  rewrite (@read_last_app _ extra _ _ Elast). trivial.
Qed.

Lemma lnprior_unpack_returns (s : BB.schema) (theta : list float) :
  (free_count (schema_entries s) <= List.length theta)%nat ->
  exists u, BB.lnprior_unpack s theta = Returns u.
Proof.
  intros H. pose proof (@unpack_follows_schema s theta H) as E.
  destruct (BB.lnprior_unpack s theta) as [u|e]; [eauto | discriminate E].
Qed.

(** X3. The blackbody fitter reads [theta] by index and never looks at its
    length: components after the last free entry change nothing, in none
    of the four methods. *)
Theorem bb_trailing_components_are_ignored :
  forall lcfit m lc (self : BB.mcmc_fitter_bb lcfit) theta extra,
    (free_count (schema_entries (BB.params self)) <= List.length theta)%nat ->
    BB.lnprior m self (theta ++ extra) = BB.lnprior m self theta
    /\ BB.calculate_model_obs m lc self (theta ++ extra)
       = BB.calculate_model_obs m lc self theta
    /\ BB.lnlike m lc self (theta ++ extra) = BB.lnlike m lc self theta
    /\ BB.lnprob m lc self (theta ++ extra) = BB.lnprob m lc self theta.
Proof.
  intros lcfit m lc self theta extra H.
  destruct (@lnprior_unpack_returns _ _ H) as [u Hu].
  pose proof (@lnprior_unpack_app _ _ extra _ Hu) as Hx.
  assert (Hp : BB.lnprior m self (theta ++ extra) = BB.lnprior m self theta)
    by (unfold BB.lnprior; now rewrite Hu, Hx).
  assert (Hm : BB.calculate_model_obs m lc self (theta ++ extra)
               = BB.calculate_model_obs m lc self theta).
  { unfold BB.calculate_model_obs.
    change (BB.calculate_model_obs_unpack (BB.params self))
      with (BB.lnprior_unpack (BB.params self)).
    now rewrite Hu, Hx. }
  assert (Hl : BB.lnlike m lc self (theta ++ extra) = BB.lnlike m lc self theta).
  { unfold BB.lnlike.
    change (BB.lnlike_unpack (BB.params self))
      with (BB.lnprior_unpack (BB.params self)).
    now rewrite Hu, Hx, Hm. }
  repeat split; try assumption.
  unfold BB.lnprob. now rewrite Hp, Hl.
Qed.

Lemma bb_trailing_components_are_ignored_witness :
  BB.lnprob libm0 bb_lc bb_fit (theta_bb ++ [99; nan])
  = BB.lnprob libm0 bb_lc bb_fit theta_bb.
Proof.
  apply (@bb_trailing_components_are_ignored float libm0 bb_lc bb_fit theta_bb).
  cbn. lia.
Defined.

(** ** The posterior after a failed forward model *)

Lemma rad_lnlike_failure {lcfit} m lc
    (self : RadInterp.mcmc_fitter_rad_interp lcfit) theta log Kp H :
  RadInterp.calculate_model_lc m lc self theta = (log, Returns (Kp, H)) ->
  signals_failure Kp H ->
  RadInterp.lnlike m lc self theta = (log, Returns neg_infinity).
Proof.
  intros Hm Hs.
  destruct (rad_model_returned_unpacks _ _ _ _ Hm) as [u Hu].
  unfold RadInterp.lnlike.
  rewrite Hu, bind_lift_returns, Hm, bind_returns.
  rewrite (either_failed_signals Hs), bind_lift_returns.
  cbn. rewrite app_nil_r. reflexivity.
Qed.

Lemma bb_lnlike_failure {lcfit} m lc (self : BB.mcmc_fitter_bb lcfit)
    theta log Kp H RVs_pri RVs_sec :
  BB.calculate_model_obs m lc self theta
  = (log, Returns (Kp, H, RVs_pri, RVs_sec)) ->
  signals_failure Kp H ->
  BB.lnlike m lc self theta = (log, Returns neg_infinity).
Proof.
  intros Hm Hs.
  destruct (bb_model_returned_unpacks _ _ _ _ Hm) as [u Hu].
  unfold BB.lnlike.
  rewrite Hu, bind_lift_returns, Hm, bind_returns.
  rewrite (either_failed_signals Hs), bind_lift_returns.
  cbn. rewrite app_nil_r. reflexivity.
Qed.

(** X4. When the prior is finite and the forward model hands back the
    failure value, [lnprob] returns minus infinity in both fitters, and
    its call log is the one of the forward model: the phase folder was not
    called. *)
Theorem failed_model_gives_neg_infinity_posterior :
  (forall lcfit m lc (self : RadInterp.mcmc_fitter_rad_interp lcfit)
          theta lp log Kp H,
      RadInterp.lnprior self theta = Returns lp ->
      isfinite lp = true ->
      RadInterp.calculate_model_lc m lc self theta = (log, Returns (Kp, H)) ->
      signals_failure Kp H ->
      RadInterp.lnprob m lc self theta = (log, Returns neg_infinity))
  /\
  (forall lcfit m lc (self : BB.mcmc_fitter_bb lcfit)
          theta lp log Kp H RVs_pri RVs_sec,
      BB.lnprior m self theta = Returns lp ->
      isfinite (BB.magnitude lp) = true ->
      BB.calculate_model_obs m lc self theta
      = (log, Returns (Kp, H, RVs_pri, RVs_sec)) ->
      signals_failure Kp H ->
      BB.lnprob m lc self theta = (log, Returns neg_infinity)).
Proof.
  split.
  - intros lcfit m lc self theta lp log Kp H Hp Hf Hm Hs.
    rewrite (@rad_lnprob_prior_accepts _ m lc self theta _ _ _ Hp Hf
               (@rad_lnlike_failure _ _ _ _ _ _ _ _ Hm Hs)).
    now rewrite add_neg_infinity_r.
  - intros lcfit m lc self theta lp log Kp H RVs_pri RVs_sec Hp Hf Hm Hs.
    rewrite (@bb_lnprob_prior_accepts _ m lc self theta _ _ _ Hp Hf
               (@bb_lnlike_failure _ _ _ _ _ _ _ _ _ _ Hm Hs)).
    reflexivity.
Qed.

Lemma failed_model_gives_neg_infinity_posterior_witness :
  RadInterp.lnprob libm0 rad_lc_fails rad_fit theta_rad
  = (rad_log_to_binary, Returns neg_infinity)
  /\ BB.lnprob libm0 bb_lc_fails bb_fit theta_bb
     = (bb_log_to_binary, Returns neg_infinity).
Proof.
  destruct failed_model_gives_neg_infinity_posterior as [HR HB]. split.
  - apply (HR float libm0 rad_lc_fails rad_fit theta_rad 0 rad_log_to_binary
             [(-1)] [(-1)]).
    + vm_compute; reflexivity.
    + reflexivity.
    + vm_compute; reflexivity.
    + left. exists (-1), []. split; reflexivity.
  - apply (HB float libm0 bb_lc_fails bb_fit theta_bb (BB.Number 0)
             bb_log_to_binary [(-1)] [(-1)] [(-1)] [(-1)]).
    + vm_compute; reflexivity.
    + reflexivity.
    + vm_compute; reflexivity.
    + left. exists (-1), []. split; reflexivity.
Defined.

(** ** A distance read from [theta] *)

(** X24. With [model_distance = True], the class default, the forward model
    of the blackbody fitter cannot run: once [theta] is unpacked and the
    two filters are looked up, the distance modulus takes [np.log10] of a
    Quantity in [pc] and raises [UnitTypeError]. No collaborator has been
    called; [lnlike] raises as well, and so does [lnprob] for every
    [theta] whose prior is finite. *)
Theorem distance_from_theta_raises_UnitTypeError :
  forall lcfit m lc (self : BB.mcmc_fitter_bb lcfit) theta ext_kp ext_h,
    BB.model_distance (BB.params self) = true ->
    (free_count (schema_entries (BB.params self)) <= List.length theta)%nat ->
    BB.dict_get (BB.filts_ext (BB.setup self)) BB.kp_filt = Returns ext_kp ->
    BB.dict_get (BB.filts_ext (BB.setup self)) BB.h_filt = Returns ext_h ->
    BB.calculate_model_obs m lc self theta = ([], Raises UnitTypeError)
    /\ BB.lnlike m lc self theta = ([], Raises UnitTypeError)
    /\ (forall lp,
          BB.lnprior m self theta = Returns lp ->
          isfinite (BB.magnitude lp) = true ->
          BB.lnprob m lc self theta = ([], Raises UnitTypeError)).
Proof.
  intros lcfit m lc self theta ext_kp ext_h Hd Hlen Hkp Hh.
  destruct (@lnprior_unpack_returns _ _ Hlen) as [u Hu].
  assert (Hm : BB.calculate_model_obs m lc self theta
               = ([], Raises UnitTypeError)).
  { unfold BB.calculate_model_obs, BB.dist_modulus.
    change (BB.calculate_model_obs_unpack (BB.params self) theta)
      with (BB.lnprior_unpack (BB.params self) theta).
    now rewrite Hu, bind_lift_returns, Hkp, bind_lift_returns, Hh,
      bind_lift_returns, Hd. }
  assert (Hl : BB.lnlike m lc self theta = ([], Raises UnitTypeError)).
  { unfold BB.lnlike.
    change (BB.lnlike_unpack (BB.params self) theta)
      with (BB.lnprior_unpack (BB.params self) theta).
    now rewrite Hu, bind_lift_returns, Hm, bind_raises. }
  split; [exact Hm|]. split; [exact Hl|].
  intros lp Hp Hf. unfold BB.lnprob.
  rewrite Hp, bind_lift_returns, Hf. cbn [negb].
  now rewrite Hl, bind_raises.
Qed.

Lemma distance_from_theta_raises_UnitTypeError_witness :
  BB.lnprior libm0 bb_fit_dist theta_bb_dist = Returns (BB.Number 0)
  /\ BB.lnprob libm0 bb_lc bb_fit_dist theta_bb_dist
     = ([], Raises UnitTypeError).
Proof.
  split; [reflexivity|].
  edestruct (@distance_from_theta_raises_UnitTypeError float libm0 bb_lc
               bb_fit_dist theta_bb_dist) as (_ & _ & H);
    [reflexivity | cbn; lia | reflexivity | reflexivity |].
  now apply (H (BB.Number 0)).
Defined.

(** ** The posterior of the blackbody fitter is never NaN *)

(** X5. [mcmc_fitter_bb.lnprob] never returns NaN, whatever the prior, the
    forward model and the observations are: a prior or a likelihood that
    is not finite gives minus infinity, and the sum of two finite numbers
    is a number. *)
Theorem bb_lnprob_is_never_nan :
  forall lcfit m lc (self : BB.mcmc_fitter_bb lcfit) theta,
    returns_nan (result (BB.lnprob m lc self theta)) = false.
Proof.
  intros lcfit m lc self theta. unfold BB.lnprob.
  destruct (BB.lnprior m self theta) as [lp|e];
    [rewrite bind_lift_returns | rewrite bind_lift_raises; reflexivity].
  destruct (isfinite (BB.magnitude lp)) eqn:Hlp; cbn [negb]; [|reflexivity].
  destruct (BB.lnlike m lc self theta) as [log [ll|e]];
    [rewrite bind_returns | rewrite bind_raises; reflexivity].
  destruct (isfinite ll) eqn:Hll; cbn [negb]; [|reflexivity].
  destruct lp as [lp|lp]; cbn; [|reflexivity].
  now apply add_finite_not_nan.
Qed.

(** ** NaN in theta *)

(** X6. In the radius-interpolation fitter a NaN in any component of a
    [theta] of the right length gives a prior of minus infinity: every
    component is under a bound check, and no comparison with NaN holds.
    [lnprob] then returns minus infinity without calling the forward
    model. *)
Theorem rad_nan_in_theta_is_rejected :
  forall lcfit m lc (self : RadInterp.mcmc_fitter_rad_interp lcfit) theta x,
    List.length theta = rad_arity (RadInterp.model_eccentricity self) ->
    In x theta ->
    isnan x = true ->
    RadInterp.lnprior self theta = Returns neg_infinity
    /\ RadInterp.lnprob m lc self theta = ([], Returns neg_infinity).
Proof.
  intros lcfit m lc self theta x Hlen Hin Hnan.
  assert (Hp : RadInterp.lnprior self theta = Returns neg_infinity).
  { unfold RadInterp.lnprior, RadInterp.unpack.
    destruct (RadInterp.model_eccentricity self); cbn in Hlen;
      repeat (destruct theta as [|? theta]; cbn in Hlen; try discriminate Hlen);
      cbn [obind RadInterp.Kp_ext_t RadInterp.H_ext_mod_t RadInterp.star1_rad_t
             RadInterp.star2_rad_t RadInterp.binary_inc_t
             RadInterp.binary_period_t RadInterp.binary_ecc_t RadInterp.t0_t];
      cbv zeta; cbn [In] in Hin;
      repeat (destruct Hin as [<- | Hin];
              [rewrite (@between_nan _ _ _ Hnan);
               rewrite ?andb_false_r; cbn [andb]; reflexivity |]);
      contradiction. }
  split; [exact Hp|].
  now apply (@rad_lnprob_prior_rejects _ m lc self theta _ Hp).
Qed.

Lemma rad_nan_in_theta_is_rejected_witness :
  RadInterp.lnprob libm0 rad_lc rad_fit theta_rad_nan
  = ([], Returns neg_infinity).
Proof.
  apply (@rad_nan_in_theta_is_rejected float libm0 rad_lc rad_fit
           theta_rad_nan nan).
  - reflexivity.
  - cbn. auto 10.
  - reflexivity.
Defined.

(** NaN in [theta], blackbody fitter. *)

Lemma lnprior_unpack_read_values (s : BB.schema) (theta : list float) :
  obind (BB.lnprior_unpack s theta)
    (fun u => Returns (free_values s u, BB.theta_index_end u))
  = obind (read_values (lnprior_toggles s) theta 0) (fun rs =>
    obind (BB.read_last theta (snd rs)) (fun t0 =>
    Returns (fst rs ++ [(true, BB.value t0)], snd rs))).
Proof.
  unfold BB.lnprior_unpack, lnprior_toggles, read_values.
  change (BB.read id theta) with (BB.read_if true id 0 theta).
  repeat match goal with
         | |- context [BB.read_if ?f ?c ?d theta ?i] =>
             destruct (BB.read_if f c d theta i) as [[? ?]|?];
             cbn [obind fst snd]; [|reflexivity]
         end.
  destruct (BB.read_last theta _); reflexivity.
Qed.

Lemma read_values_cover (toggles : list (bool * float)) (theta : list float) :
  forall index vs index',
    read_values toggles theta index = Returns (vs, index') ->
    (index <= index')%nat
    /\ forall i x, (index <= i < index')%nat -> nth_error theta i = Some x ->
                   In (true, x) vs.
Proof.
  induction toggles as [|[free default] rest IH]; intros index vs index' H.
  - cbn in H. injection H as <- <-. split; [lia|]. intros i x Hi. lia.
  - cbn [read_values] in H. unfold BB.read_if, BB.read, BB.item in H.
    destruct free.
    + destruct (nth_error theta index) as [y|] eqn:E; [|discriminate].
      cbn [obind fst snd BB.value] in H.
      destruct (read_values rest theta (S index)) as [[vs' j]|] eqn:Er;
        [|discriminate].
      cbn [obind fst snd] in H. injection H as <- <-.
      destruct (IH _ _ _ Er) as [Hle Hcov]. split; [lia|].
      intros i x Hi Hx.
      destruct (Nat.eq_dec i index) as [->|Hne].
      * left. unfold id. congruence.
      * right. apply (Hcov i); [lia | exact Hx].
    + cbn [obind fst snd BB.value] in H.
      destruct (read_values rest theta index) as [[vs' j]|] eqn:Er;
        [|discriminate].
      cbn [obind fst snd] in H. injection H as <- <-.
      destruct (IH _ _ _ Er) as [Hle Hcov]. split; [lia|].
      intros i x Hi Hx. right. now apply (Hcov i).
Qed.

Lemma unpack_covers_theta (s : BB.schema) (theta : list float) u :
  BB.lnprior_unpack s theta = Returns u ->
  forall i x, (i <= BB.theta_index_end u)%nat -> nth_error theta i = Some x ->
              In (true, x) (free_values s u).
Proof.
  intros Hu i x Hi Hx.
  pose proof (lnprior_unpack_read_values s theta) as E.
  rewrite Hu in E. cbn [obind] in E.
  destruct (read_values (lnprior_toggles s) theta 0) as [[vs j]|] eqn:Er;
    [|discriminate].
  cbn [obind fst snd] in E. unfold BB.read_last, BB.item in E.
  destruct (nth_error theta j) as [y|] eqn:Ey; [|discriminate].
  cbn [obind BB.value] in E. injection E as E1 E2.
  rewrite E1. rewrite E2 in Hi.
  destruct (read_values_cover _ _ _ Er) as [_ Hcov].
  apply in_or_app.
  destruct (Nat.eq_dec i j) as [->|Hne].
  - right. left. congruence.
  - left. apply (Hcov i); [lia | exact Hx].
Qed.

Lemma unpack_index_end (s : BB.schema) (theta : list float) u :
  BB.lnprior_unpack s theta = Returns u ->
  S (BB.theta_index_end u) = free_count (schema_entries s).
Proof.
  intros Hu.
  assert (Hlen : (free_count (schema_entries s) <= List.length theta)%nat).
  { destruct (Nat.le_gt_cases (free_count (schema_entries s))
                (List.length theta)) as [H|H]; [exact H|].
    rewrite (@lnprior_unpack_short s theta H) in Hu. discriminate. }
  pose proof (@unpack_follows_schema s theta Hlen) as E.
  rewrite Hu in E. unfold layout in E. cbn [obind] in E.
  apply (f_equal (fun o => match o with
                           | Returns p => snd p
                           | Raises _ => 0%nat
                           end)) in E.
  exact E.
Qed.

Ltac star_nan H flag :=
  apply andb_true_iff in H; destruct H as [Hfree H];
  rewrite ?Hfree, (@between_nan _ _ _ H); cbn [andb negb];
  destruct flag; chain_is_false.

(** A prior that is minus infinity when no comparison is refused: what
    [lnprior] and [lnprob] do in general. *)
Lemma bb_rejects_or_raises {lcfit} m lc
    (self : BB.mcmc_fitter_bb lcfit) theta u :
  BB.lnprior_unpack (BB.params self) theta = Returns u ->
  (bb_ordering_refused (BB.params self) (BB.priors self) u = false ->
   BB.lnprior m self theta = Returns (BB.Number neg_infinity)) ->
  BB.lnprior m self theta
  = rejects_or_raises
      (bb_ordering_refused (BB.params self) (BB.priors self) u)
  /\ BB.lnprob m lc self theta
     = posterior_rejects_or_raises
         (bb_ordering_refused (BB.params self) (BB.priors self) u).
Proof.
  intros Hu H.
  destruct (bb_ordering_refused (BB.params self) (BB.priors self) u) eqn:Href;
    cbn [rejects_or_raises posterior_rejects_or_raises].
  - pose proof (@bb_lnprior_refused _ m self theta u Hu Href) as Hp.
    split; [exact Hp|].
    now apply (@bb_lnprob_prior_raises _ m lc self theta _ Hp).
  - pose proof (H eq_refl) as Hp. split; [exact Hp|].
    now apply (@bb_lnprob_prior_rejects _ m lc self theta _ Hp).
Qed.

Lemma bb_lnprior_rejects_nan {lcfit} m
    (self : BB.mcmc_fitter_bb lcfit) theta u :
  BB.lnprior_unpack (BB.params self) theta = Returns u ->
  bb_ordering_refused (BB.params self) (BB.priors self) u = false ->
  bb_uniform_mode (BB.priors self) = true ->
  reads_nan (BB.params self) u = true ->
  BB.lnprior m self theta = Returns (BB.Number neg_infinity).
Proof.
  intros Hu Href Hmode Hn. open_lnprior Hu Href.
  unfold bb_uniform_mode in Hmode. apply andb_true_iff in Hmode as [Hsig Hteff].
  apply negb_true_iff in Hteff. rewrite Hsig, Hteff. cbv zeta iota beta.
  cbn [negb andb].
  unfold reads_nan, free_values in Hn. cbn [existsb fst snd andb] in Hn.
  split_orb Hn; try discriminate Hn;
    try (rewrite (@between_nan _ _ _ Hn); chain_is_false).
  all: try (star_nan Hn (BB.star1_mass_larger (BB.params self))).
  all: try (star_nan Hn (BB.star1_rad_larger (BB.params self))).
  all: try (star_nan Hn (BB.star1_teff_larger (BB.params self))).
  all: try (star_nan Hn (BB.star2_mass_larger (BB.params self))).
  all: try (star_nan Hn (BB.star2_rad_larger (BB.params self))).
  all: try (star_nan Hn (BB.star2_teff_larger (BB.params self))).
  all: apply andb_true_iff in Hn; destruct Hn as [_ Hn];
    rewrite (@between_nan _ _ _ Hn); chain_is_false.
Qed.

(** X7. In the blackbody fitter with both priors in uniform mode, a NaN in
    any of the components of [theta] that the schema reads makes a check
    fail: [lnprior] is minus infinity and [lnprob] returns minus infinity
    without calling the forward model, unless a relational requirement
    compares a stellar quantity that is not read from [theta] with a
    number of [theta], in which case both raise [UnitConversionError]. *)
Theorem bb_nan_in_theta_is_rejected :
  forall lcfit m lc (self : BB.mcmc_fitter_bb lcfit) theta u i x,
    bb_uniform_mode (BB.priors self) = true ->
    BB.lnprior_unpack (BB.params self) theta = Returns u ->
    (i < free_count (schema_entries (BB.params self)))%nat ->
    nth_error theta i = Some x ->
    isnan x = true ->
    BB.lnprior m self theta
    = rejects_or_raises
        (bb_ordering_refused (BB.params self) (BB.priors self) u)
    /\ BB.lnprob m lc self theta
       = posterior_rejects_or_raises
           (bb_ordering_refused (BB.params self) (BB.priors self) u).
Proof.
  intros lcfit m lc self theta u i x Hmode Hu Hi Hx Hnan.
  pose proof (unpack_index_end _ _ Hu) as Hend.
  apply (@bb_rejects_or_raises _ m lc self theta u Hu). intros Href.
  apply (@bb_lnprior_rejects_nan _ m self theta u Hu Href Hmode).
  unfold reads_nan. apply existsb_exists. exists (true, x). split.
  - apply (@unpack_covers_theta _ theta u Hu i x); [lia | exact Hx].
  - cbn. exact Hnan.
Qed.

Lemma bb_nan_in_theta_is_rejected_witness :
  BB.lnprob libm0 bb_lc bb_fit theta_bb_nan = ([], Returns neg_infinity)
  /\ BB.lnprob libm0 bb_lc bb_fit_fixed_mass theta_bb_fixed_mass_nan
     = ([], Raises UnitConversionError).
Proof.
  split.
  - apply (@bb_nan_in_theta_is_rejected float libm0 bb_lc bb_fit
             theta_bb_nan _ 8%nat nan eq_refl eq_refl).
    + cbn. lia.
    + reflexivity.
    + reflexivity.
  - apply (@bb_nan_in_theta_is_rejected float libm0 bb_lc bb_fit_fixed_mass
             theta_bb_fixed_mass_nan _ 7%nat nan eq_refl eq_refl).
    + cbn. lia.
    + reflexivity.
    + reflexivity.
Defined.

(** ** The labels of the radial velocities *)

(** X8. The guards [len(pri_filt) > 0] and [len(sec_filt) > 0] of [lnlike]
    test the length of the tuple [np.where] returns, which is one
    whatever the labels are: both radial-velocity blocks always run, and
    the likelihood and the posterior do not depend on [obs_filts_rv]. *)
Theorem lnlike_ignores_rv_labels :
  forall lcfit m lc (self : BB.mcmc_fitter_bb lcfit) labels theta,
    BB.lnlike m lc (with_obs_filts_rv labels self) theta
    = BB.lnlike m lc self theta
    /\ BB.lnprob m lc (with_obs_filts_rv labels self) theta
       = BB.lnprob m lc self theta.
Proof.
  intros lcfit m lc self labels theta.
  assert (H : BB.lnlike m lc (with_obs_filts_rv labels self) theta
              = BB.lnlike m lc self theta) by reflexivity.
  split; [exact H|].
  unfold BB.lnprob. rewrite H. reflexivity.
Qed.

(** ** The extinction of each filter *)

Lemma dict_get_set_same (d : list (BB.filter * float)) key v :
  BB.dict_get (BB.dict_set d key v) key = Returns v.
Proof.
  induction d as [|[k w] d IH]; cbn.
  - now rewrite Pos.eqb_refl.
  - destruct (Pos.eqb (BB.filt_id k) (BB.filt_id key)) eqn:E; cbn; rewrite E.
    + reflexivity.
    + exact IH.
Qed.

Lemma dict_get_set_other (d : list (BB.filter * float)) key v key' :
  BB.filt_id key <> BB.filt_id key' ->
  BB.dict_get (BB.dict_set d key v) key' = BB.dict_get d key'.
Proof.
  intros Hne. induction d as [|[k w] d IH]; cbn.
  - apply Pos.eqb_neq in Hne. now rewrite Hne.
  - destruct (Pos.eqb (BB.filt_id k) (BB.filt_id key)) eqn:E; cbn.
    + apply Pos.eqb_eq in E.
      assert (E' : Pos.eqb (BB.filt_id k) (BB.filt_id key') = false)
        by (apply Pos.eqb_neq; congruence).
      now rewrite E'.
    + destruct (Pos.eqb (BB.filt_id k) (BB.filt_id key')); [reflexivity|].
      exact IH.
Qed.

Lemma fold_keeps_other_keys m opts Ks_ext (l : list BB.filter) key :
  not_among key l ->
  forall d,
    BB.dict_get (fold_left (store_extinction m opts Ks_ext) l d) key
    = BB.dict_get d key.
Proof.
  induction l as [|a l IH]; intros Hn d; cbn; [reflexivity|].
  rewrite IH by (intros f Hf; apply Hn; now right).
  unfold store_extinction. apply dict_get_set_other. apply Hn. now left.
Qed.

Lemma fold_holds_listed_keys m opts Ks_ext (l : list BB.filter) :
  same_object_same_filter l ->
  forall d f, In f l ->
    BB.dict_get (fold_left (store_extinction m opts Ks_ext) l d) f
    = Returns (Filters.calc_isoc_filt_ext m f Ks_ext (BB.ext_alpha opts)).
Proof.
  induction l as [|a l IH]; intros Hs d f Hf; [contradiction|].
  cbn [fold_left].
  assert (Hs' : same_object_same_filter l)
    by (intros x y Hx Hy; apply Hs; now right).
  destruct (existsb (fun g => Pos.eqb (BB.filt_id g) (BB.filt_id f)) l) eqn:Ex.
  - apply existsb_exists in Ex as (g & Hg & Eg). apply Pos.eqb_eq in Eg.
    assert (g = f) by (apply Hs; [now right | exact Hf | exact Eg]). subst g.
    now apply IH.
  - assert (Hn : not_among f l).
    { intros g Hg Eg.
      assert (existsb (fun g => Pos.eqb (BB.filt_id g) (BB.filt_id f)) l = true)
        by (apply existsb_exists; exists g; split;
            [exact Hg | now apply Pos.eqb_eq]).
      congruence. }
    rewrite (@fold_keeps_other_keys m opts Ks_ext l f Hn).
    destruct Hf as [->|Hf].
    + unfold store_extinction. apply dict_get_set_same.
    + exfalso. exact (Hn f Hf eq_refl).
Qed.

(** X9. After [make_bb_params], [filts_ext] holds for every filter of
    [filts_list] the extinction [filter.calc_isoc_filt_ext] computes for
    it from [Ks_ext] and the extinction law of the fitter, and looking up
    a filter object that is not in the list raises [KeyError]. *)
Theorem make_bb_params_extinction_table :
  forall lcfit m (lc : BB.lc_calc_wRV lcfit) Ks_ext dist filts_list self,
    let made := BB.make_bb_params m lc Ks_ext dist filts_list self in
    same_object_same_filter filts_list ->
    (forall f, In f filts_list ->
       BB.dict_get (BB.filts_ext (BB.setup made)) f
       = Returns (Filters.calc_isoc_filt_ext m f Ks_ext
                    (BB.ext_alpha (BB.options self))))
    /\ (forall key, not_among key filts_list ->
          BB.dict_get (BB.filts_ext (BB.setup made)) key = Raises KeyError).
Proof.
  intros lcfit m lc Ks_ext dist filts_list self made Hs. subst made.
  cbn [BB.make_bb_params BB.setup BB.filts_ext].
  change (BB.convert_extinctions m (BB.options self) Ks_ext filts_list)
    with (fold_left (store_extinction m (BB.options self) Ks_ext)
            filts_list []).
  split.
  - intros f Hf. now apply fold_holds_listed_keys.
  - intros key Hn. now rewrite fold_keeps_other_keys.
Qed.

Lemma make_bb_params_extinction_table_witness :
  BB.dict_get (BB.filts_ext (BB.setup bb_fit)) BB.kp_filt
  = Returns (Filters.calc_isoc_filt_ext libm0 BB.kp_filt 2.5 2.30)
  /\ BB.dict_get (BB.filts_ext (BB.setup bb_fit)) (Filters.nirc2_kp_filt 7)
     = Raises KeyError.
Proof.
  destruct (@make_bb_params_extinction_table float libm0 bb_lc 2.5 7971
              BB.default_filts_list bb_fit_new) as [Hin Hout].
  - intros f g [<-|[<-|[]]] [<-|[<-|[]]] H;
      try reflexivity; discriminate H.
  - split.
    + apply (Hin BB.kp_filt). now left.
    + apply (Hout (Filters.nirc2_kp_filt 7)).
      intros f [<-|[<-|[]]]; discriminate.
Defined.

(** ** The filters the forward model looks up *)

Lemma dict_get_raises (d : list (BB.filter * float)) key e :
  BB.dict_get d key = Raises e -> e = KeyError.
Proof.
  induction d as [|[k w] d IH]; cbn.
  - congruence.
  - destruct (Pos.eqb (BB.filt_id k) (BB.filt_id key)); [discriminate|exact IH].
Qed.

(** X10. [calculate_model_obs] looks up the module-level filter objects
    [kp_filt] and [h_filt]. After [make_bb_params] with a list that does
    not hold one of these two objects, it raises [KeyError] before any
    collaborator call, and so does [lnlike]. *)
Theorem calculate_model_obs_needs_module_filters :
  forall lcfit m lc Ks_ext dist filts_list (self0 : BB.mcmc_fitter_bb lcfit)
         theta,
    let self := BB.make_bb_params m lc Ks_ext dist filts_list self0 in
    (free_count (schema_entries (BB.params self)) <= List.length theta)%nat ->
    not_among BB.kp_filt filts_list \/ not_among BB.h_filt filts_list ->
    BB.calculate_model_obs m lc self theta = ([], Raises KeyError)
    /\ BB.lnlike m lc self theta = ([], Raises KeyError).
Proof.
  intros lcfit m lc Ks_ext dist filts_list self0 theta self Hlen Hn.
  destruct (@lnprior_unpack_returns _ _ Hlen) as [u Hu].
  assert (Hm : BB.calculate_model_obs m lc self theta = ([], Raises KeyError)).
  { unfold BB.calculate_model_obs.
    change (BB.calculate_model_obs_unpack (BB.params self))
      with (BB.lnprior_unpack (BB.params self)).
    rewrite Hu, bind_lift_returns.
    change (BB.filts_ext (BB.setup self))
      with (fold_left (store_extinction m (BB.options self0) Ks_ext)
              filts_list []).
    destruct Hn as [Hn|Hn].
    - rewrite (@fold_keeps_other_keys m (BB.options self0) Ks_ext _ _ Hn).
      cbn [BB.dict_get]. now rewrite bind_lift_raises.
    - match goal with
      | |- context [lift (BB.dict_get ?d BB.kp_filt)] =>
          destruct (BB.dict_get d BB.kp_filt) as [v|e] eqn:E
      end.
      + rewrite bind_lift_returns.
        rewrite (@fold_keeps_other_keys m (BB.options self0) Ks_ext _ _ Hn).
        cbn [BB.dict_get]. now rewrite bind_lift_raises.
      + apply dict_get_raises in E. subst e. now rewrite bind_lift_raises. }
  split; [exact Hm|].
  unfold BB.lnlike.
  change (BB.lnlike_unpack (BB.params self))
    with (BB.lnprior_unpack (BB.params self)).
  now rewrite Hu, bind_lift_returns, Hm, bind_raises.
Qed.

Lemma calculate_model_obs_needs_module_filters_witness :
  BB.calculate_model_obs libm0 bb_lc bb_fit_own_filters theta_bb
  = ([], Raises KeyError).
Proof.
  apply (@calculate_model_obs_needs_module_filters float libm0 bb_lc 2.5 7971
           own_filters bb_fit_new theta_bb).
  - cbn. lia.
  - left. intros f [<-|[<-|[]]]; discriminate.
Defined.

(** ** Bounds given in the wrong order *)

Lemma between_swapped (lo x hi : float) :
  (hi <? lo) = true -> between lo x hi = false.
Proof.
  intros H. unfold between.
  destruct (lo <=? x) eqn:E1; [|reflexivity].
  destruct (x <=? hi) eqn:E2; [|reflexivity].
  pose proof (@leb_trans _ _ _ E1 E2) as E.
  pose proof (@ltb_leb_false _ _ H) as E'. congruence.
Qed.

Lemma rad_unpack_returns (model_ecc : bool) (theta : list float) :
  List.length theta = rad_arity model_ecc ->
  exists u, RadInterp.unpack model_ecc theta = Returns u.
Proof.
  unfold RadInterp.unpack, rad_arity. intros H.
  destruct model_ecc;
    repeat (destruct theta as [|? theta]; cbn in H; try discriminate H);
    eauto.
Qed.

Ltac swapped H :=
  let Hb := fresh "Hb" in
  pose proof (fun x => @between_swapped _ x _ H) as Hb;
  rewrite !Hb; chain_is_false.

Lemma rad_lnprior_swapped {lcfit}
    (self : RadInterp.mcmc_fitter_rad_interp lcfit) theta :
  List.length theta = rad_arity (RadInterp.model_eccentricity self) ->
  rad_bounds_swapped self = true ->
  RadInterp.lnprior self theta = Returns neg_infinity.
Proof.
  intros Hlen Hs. destruct (@rad_unpack_returns _ _ Hlen) as [u Hu].
  unfold RadInterp.lnprior. rewrite Hu. cbn [obind]. cbv zeta.
  unfold rad_bounds_swapped in Hs. split_orb Hs; swapped Hs.
Qed.

Lemma bb_lnprior_swapped {lcfit} m (self : BB.mcmc_fitter_bb lcfit) theta u :
  BB.lnprior_unpack (BB.params self) theta = Returns u ->
  bb_ordering_refused (BB.params self) (BB.priors self) u = false ->
  bb_bounds_swapped (BB.priors self) = true ->
  BB.lnprior m self theta = Returns (BB.Number neg_infinity).
Proof.
  intros Hu Href Hs. open_lnprior Hu Href.
  unfold bb_bounds_swapped in Hs.
  destruct (BB.H_ext_mod_alpha_sig_bound (BB.priors self) =? (-1)) eqn:Hsig;
    destruct (BB.star1_teff_sig_bound (BB.priors self)) eqn:Hteff;
    cbv zeta iota beta; cbn [negb andb] in *;
    split_orb Hs; swapped Hs.
Qed.

(** X11. A bound whose upper end lies below its lower end rejects every
    [theta]: when this is so for one of the bounds that are checked on
    every call, [lnprior] is minus infinity and [lnprob] returns minus
    infinity without calling the forward model. In both fitters; in the
    blackbody fitter a relational requirement that compares a stellar
    quantity that is not read from [theta] with a number of [theta]
    raises [UnitConversionError] first. *)
Theorem swapped_bounds_reject_every_theta :
  (forall lcfit m lc (self : RadInterp.mcmc_fitter_rad_interp lcfit) theta,
      List.length theta = rad_arity (RadInterp.model_eccentricity self) ->
      rad_bounds_swapped self = true ->
      RadInterp.lnprior self theta = Returns neg_infinity
      /\ RadInterp.lnprob m lc self theta = ([], Returns neg_infinity))
  /\
  (forall lcfit m lc (self : BB.mcmc_fitter_bb lcfit) theta u,
      BB.lnprior_unpack (BB.params self) theta = Returns u ->
      bb_bounds_swapped (BB.priors self) = true ->
      BB.lnprior m self theta
      = rejects_or_raises
          (bb_ordering_refused (BB.params self) (BB.priors self) u)
      /\ BB.lnprob m lc self theta
         = posterior_rejects_or_raises
             (bb_ordering_refused (BB.params self) (BB.priors self) u)).
Proof.
  split.
  - intros lcfit m lc self theta Hlen Hs.
    pose proof (@rad_lnprior_swapped _ self theta Hlen Hs) as Hp.
    split; [exact Hp|].
    now apply (@rad_lnprob_prior_rejects _ m lc self theta _ Hp).
  - intros lcfit m lc self theta u Hu Hs.
    apply (@bb_rejects_or_raises _ m lc self theta u Hu). intros Href.
    now apply (@bb_lnprior_swapped _ m self theta u).
Qed.

Lemma swapped_bounds_reject_every_theta_witness :
  RadInterp.lnprob libm0 rad_lc rad_fit_swapped theta_rad
  = ([], Returns neg_infinity)
  /\ BB.lnprob libm0 bb_lc bb_fit_swapped theta_bb
     = ([], Returns neg_infinity)
  /\ BB.lnprob libm0 bb_lc (BB.set_dist_prior_bounds 8200 7600
                               bb_fit_fixed_mass) theta_bb_fixed_mass
     = ([], Raises UnitConversionError).
Proof.
  destruct swapped_bounds_reject_every_theta as [HR HB]. split; [|split].
  - apply (HR float libm0 rad_lc rad_fit_swapped theta_rad); reflexivity.
  - apply (HB float libm0 bb_lc bb_fit_swapped theta_bb _ eq_refl eq_refl).
  - apply (HB float libm0 bb_lc
             (BB.set_dist_prior_bounds 8200 7600 bb_fit_fixed_mass)
             theta_bb_fixed_mass _ eq_refl eq_refl).
Defined.

(** ** The likelihood as a function of the four chi-square sums *)

Lemma rad_lnlike_outcome {lcfit} m lc
    (self : RadInterp.mcmc_fitter_rad_interp lcfit) theta u
    log Kp H kp_days kp_inds kp_times h_days h_inds h_times :
  RadInterp.unpack (RadInterp.model_eccentricity self) theta = Returns u ->
  RadInterp.calculate_model_lc m lc self theta = (log, Returns (Kp, H)) ->
  no_failure Kp H ->
  RadInterp.phased_obs lc (RadInterp.observation_times self)
    (RadInterp.binary_period_t u) (RadInterp.t0_t u)
  = ((kp_days, kp_inds, kp_times), (h_days, h_inds, h_times)) ->
  RadInterp.lnlike m lc self theta
  = (log ++ [phased_obs_call],
     obind (chi_square (RadInterp.kp_obs_mags self)
              (RadInterp.kp_obs_mag_errors self) kp_inds Kp) (fun chi_kp =>
     obind (chi_square (RadInterp.h_obs_mags self)
              (RadInterp.h_obs_mag_errors self) h_inds H) (fun chi_h =>
     Returns ((-0.5) * (chi_kp + chi_h))))).
Proof.
  intros Hu Hm Hok Hph. unfold RadInterp.lnlike.
  rewrite Hu, bind_lift_returns, Hm, bind_returns.
  rewrite (either_failed_no_failure Hok), bind_lift_returns.
  rewrite bind_invoke, Hph.
  destruct (chi_square (RadInterp.kp_obs_mags self) _ kp_inds Kp) as [a|e];
    [rewrite bind_lift_returns | rewrite bind_lift_raises; reflexivity].
  destruct (chi_square (RadInterp.h_obs_mags self) _ h_inds H) as [b|e];
    [rewrite bind_lift_returns | rewrite bind_lift_raises; reflexivity].
  reflexivity.
Qed.

Lemma bb_lnlike_outcome {lcfit} m lc (self : BB.mcmc_fitter_bb lcfit) theta u
    log Kp H RVs_pri RVs_sec kp_days kp_inds kp_times h_days h_inds h_times
    rv_days rv_inds rv_times :
  BB.lnlike_unpack (BB.params self) theta = Returns u ->
  BB.calculate_model_obs m lc self theta
  = (log, Returns (Kp, H, RVs_pri, RVs_sec)) ->
  no_failure Kp H ->
  BB.phased_obs lc (BB.observation_times (BB.data self))
    (BB.value (BB.binary_period u)) (BB.value (BB.t0 u))
  = ((kp_days, kp_inds, kp_times), (h_days, h_inds, h_times),
     (rv_days, rv_inds, rv_times)) ->
  BB.lnlike m lc self theta
  = (log ++ [phased_obs_call],
     obind (chi_square (BB.kp_obs_mags (BB.data self))
              (BB.kp_obs_mag_errors (BB.data self)) kp_inds Kp) (fun chi_kp =>
     obind (chi_square (BB.h_obs_mags (BB.data self))
              (BB.h_obs_mag_errors (BB.data self)) h_inds H) (fun chi_h =>
     obind (BB.chi_square_rv (BB.obs_rv_pri (BB.data self))
              (BB.obs_rv_pri_errors (BB.data self)) rv_inds RVs_pri)
       (fun chi_pri =>
     obind (BB.chi_square_rv (BB.obs_rv_sec (BB.data self))
              (BB.obs_rv_sec_errors (BB.data self)) rv_inds RVs_sec)
       (fun chi_sec =>
     Returns ((-0.5) * (((chi_kp + chi_h) + chi_pri) + chi_sec))))))).
Proof.
  intros Hu Hm Hok Hph. unfold BB.lnlike.
  rewrite Hu, bind_lift_returns, Hm, bind_returns.
  rewrite (either_failed_no_failure Hok), bind_lift_returns.
  rewrite bind_invoke, Hph.
  destruct (chi_square (BB.kp_obs_mags (BB.data self)) _ kp_inds Kp) as [a|e];
    [rewrite bind_lift_returns | rewrite bind_lift_raises; reflexivity].
  destruct (chi_square (BB.h_obs_mags (BB.data self)) _ h_inds H) as [b|e];
    [rewrite bind_lift_returns | rewrite bind_lift_raises; reflexivity].
  cbn [BB.np_where_eq List.length Nat.ltb Nat.leb].
  destruct (BB.chi_square_rv (BB.obs_rv_pri (BB.data self)) _ rv_inds RVs_pri)
    as [c|e];
    [rewrite bind_lift_returns, bind_ret
    | rewrite bind_lift_raises, bind_raises; reflexivity].
  destruct (BB.chi_square_rv (BB.obs_rv_sec (BB.data self)) _ rv_inds RVs_sec)
    as [d|e];
    [rewrite bind_lift_returns, bind_ret
    | rewrite bind_lift_raises, bind_raises; reflexivity].
  reflexivity.
Qed.

(** ** A role without radial velocities *)

Lemma chi_square_rv_no_observations (errors : ndarray) j inds model :
  BB.chi_square_rv [] errors (j :: inds) model = Raises IndexError.
Proof.
  unfold BB.chi_square_rv. cbn [take]. unfold getitem. cbn [List.length].
  change (Z.of_nat 0) with 0%Z.
  destruct (j <? 0)%Z eqn:E.
  - rewrite Z.add_0_r, E. reflexivity.
  - assert (H : (0 <=? j)%Z = true) by (apply Z.leb_le; apply Z.ltb_ge in E; lia).
    rewrite H, orb_true_r. reflexivity.
Qed.

(** X12. A role without radial-velocity observations makes [lnlike] raise
    [IndexError] as soon as the phase folder returns one radial-velocity
    index: the block of the role runs all the same and indexes the empty
    array. *)
Theorem rv_role_without_observations_raises :
  forall lcfit m lc (self : BB.mcmc_fitter_bb lcfit) theta u
         log Kp H RVs_pri RVs_sec kp_days kp_inds kp_times
         h_days h_inds h_times rv_days j rv_inds rv_times chi_kp chi_h,
    BB.lnlike_unpack (BB.params self) theta = Returns u ->
    BB.calculate_model_obs m lc self theta
    = (log, Returns (Kp, H, RVs_pri, RVs_sec)) ->
    no_failure Kp H ->
    BB.phased_obs lc (BB.observation_times (BB.data self))
      (BB.value (BB.binary_period u)) (BB.value (BB.t0 u))
    = ((kp_days, kp_inds, kp_times), (h_days, h_inds, h_times),
       (rv_days, j :: rv_inds, rv_times)) ->
    chi_square (BB.kp_obs_mags (BB.data self))
      (BB.kp_obs_mag_errors (BB.data self)) kp_inds Kp = Returns chi_kp ->
    chi_square (BB.h_obs_mags (BB.data self))
      (BB.h_obs_mag_errors (BB.data self)) h_inds H = Returns chi_h ->
    (BB.obs_rv_pri (BB.data self) = [] ->
     BB.lnlike m lc self theta
     = (log ++ [phased_obs_call], Raises IndexError))
    /\ (forall chi_pri,
          BB.chi_square_rv (BB.obs_rv_pri (BB.data self))
            (BB.obs_rv_pri_errors (BB.data self)) (j :: rv_inds) RVs_pri
          = Returns chi_pri ->
          BB.obs_rv_sec (BB.data self) = [] ->
          BB.lnlike m lc self theta
          = (log ++ [phased_obs_call], Raises IndexError)).
Proof.
  intros lcfit m lc self theta u log Kp H RVs_pri RVs_sec kp_days kp_inds
         kp_times h_days h_inds h_times rv_days j rv_inds rv_times chi_kp chi_h
         Hu Hm Hok Hph Hkp Hh.
  rewrite (bb_lnlike_outcome _ _ _ _ Hu Hm Hok Hph), Hkp, Hh. cbn [obind].
  split.
  - intros ->. now rewrite chi_square_rv_no_observations.
  - intros chi_pri -> ->. cbn [obind].
    now rewrite chi_square_rv_no_observations.
Qed.

Lemma rv_role_without_observations_raises_witness :
  BB.lnlike libm0 bb_lc bb_fit_pri_only theta_bb
  = (bb_log_full, Raises IndexError).
Proof.
  edestruct (@rv_role_without_observations_raises float libm0 bb_lc
               bb_fit_pri_only theta_bb) as [_ H];
    [reflexivity | reflexivity | | reflexivity .. | ].
  - do 4 eexists. split; [reflexivity|]. split; [reflexivity|].
    split; reflexivity.
  - eapply H; reflexivity.
Defined.

(** ** Model arrays of another length than the observations *)

Lemma broadcast_mismatch f (a b : ndarray) :
  List.length a <> List.length b ->
  List.length a <> 1%nat -> List.length b <> 1%nat ->
  broadcast f a b = Raises ValueError.
Proof.
  intros Hab Ha Hb. unfold broadcast.
  destruct (Nat.eqb_spec (List.length a) (List.length b)) as [E|_];
    [contradiction|].
  destruct a as [|x [|x' a]]; [| cbn in Ha; congruence |];
    destruct b as [|y [|y' b]]; try reflexivity; cbn in Hb; congruence.
Qed.

Lemma broadcast_scalar_r f (a : ndarray) (y : float) :
  broadcast f a [y] = Returns (map (fun x => f x y) a).
Proof.
  unfold broadcast. destruct a as [|x [|x' a]]; reflexivity.
Qed.

Lemma terms_all_scalar (o e : ndarray) (v : float) :
  List.length o = List.length e ->
  map (fun p => fst p / snd p)
    (combine (square (map (fun x => x - v) o)) (square e))
  = terms_all o (repeat v (List.length o)) e.
Proof.
  revert e. induction o as [|x o IH]; intros [|y e] H; try discriminate H;
    [reflexivity|].
  cbn. f_equal. apply IH. now injection H.
Qed.

Lemma chi_square_mismatch (obs errors : ndarray) (inds : list Z)
    (model o : ndarray) :
  take obs inds = Returns o ->
  List.length model <> List.length inds ->
  List.length model <> 1%nat -> List.length inds <> 1%nat ->
  chi_square obs errors inds model = Raises ValueError.
Proof.
  intros Ho Hn H1 H2. unfold chi_square. rewrite Ho. cbn [obind].
  pose proof (take_length _ _ Ho) as Hl.
  rewrite broadcast_mismatch by congruence. reflexivity.
Qed.

Lemma chi_square_scalar_model (obs errors : ndarray) (inds : list Z)
    (v : float) (o e : ndarray) :
  take obs inds = Returns o ->
  take errors inds = Returns e ->
  chi_square obs errors inds [v]
  = Returns (Np.sum (terms_all o (repeat v (List.length o)) e)).
Proof.
  intros Ho He. unfold chi_square. rewrite Ho. cbn [obind].
  rewrite broadcast_scalar_r. cbn [obind]. rewrite He. cbn [obind].
  pose proof (take_length _ _ Ho) as Hlo.
  pose proof (take_length _ _ He) as Hle.
  rewrite broadcast_same_length
    by (unfold square; rewrite !length_map; congruence).
  cbn [obind]. rewrite terms_all_scalar by congruence. reflexivity.
Qed.

(** X13. When the Kp array of the forward model has another length than
    the Kp observations, [lnlike] raises [ValueError] after the phase
    folder has run, except when either length is one: a single model
    magnitude is compared with every observation. In both fitters. *)
Theorem lnlike_model_of_another_length :
  (forall lcfit m lc (self : RadInterp.mcmc_fitter_rad_interp lcfit) theta u
          log Kp H kp_days kp_inds kp_times h_days h_inds h_times kp_o kp_e,
      RadInterp.unpack (RadInterp.model_eccentricity self) theta = Returns u ->
      RadInterp.calculate_model_lc m lc self theta = (log, Returns (Kp, H)) ->
      no_failure Kp H ->
      RadInterp.phased_obs lc (RadInterp.observation_times self)
        (RadInterp.binary_period_t u) (RadInterp.t0_t u)
      = ((kp_days, kp_inds, kp_times), (h_days, h_inds, h_times)) ->
      take (RadInterp.kp_obs_mags self) kp_inds = Returns kp_o ->
      take (RadInterp.kp_obs_mag_errors self) kp_inds = Returns kp_e ->
      (List.length Kp <> List.length kp_inds ->
       List.length Kp <> 1%nat -> List.length kp_inds <> 1%nat ->
       RadInterp.lnlike m lc self theta
       = (log ++ [phased_obs_call], Raises ValueError))
      /\ (forall v chi_h,
            Kp = [v] ->
            chi_square (RadInterp.h_obs_mags self)
              (RadInterp.h_obs_mag_errors self) h_inds H = Returns chi_h ->
            RadInterp.lnlike m lc self theta
            = (log ++ [phased_obs_call],
               Returns ((-0.5)
                        * (Np.sum (terms_all kp_o
                                     (repeat v (List.length kp_o)) kp_e)
                           + chi_h)))))
  /\
  (forall lcfit m lc (self : BB.mcmc_fitter_bb lcfit) theta u
          log Kp H RVs_pri RVs_sec kp_days kp_inds kp_times
          h_days h_inds h_times rv_days rv_inds rv_times kp_o kp_e,
      BB.lnlike_unpack (BB.params self) theta = Returns u ->
      BB.calculate_model_obs m lc self theta
      = (log, Returns (Kp, H, RVs_pri, RVs_sec)) ->
      no_failure Kp H ->
      BB.phased_obs lc (BB.observation_times (BB.data self))
        (BB.value (BB.binary_period u)) (BB.value (BB.t0 u))
      = ((kp_days, kp_inds, kp_times), (h_days, h_inds, h_times),
         (rv_days, rv_inds, rv_times)) ->
      take (BB.kp_obs_mags (BB.data self)) kp_inds = Returns kp_o ->
      take (BB.kp_obs_mag_errors (BB.data self)) kp_inds = Returns kp_e ->
      (List.length Kp <> List.length kp_inds ->
       List.length Kp <> 1%nat -> List.length kp_inds <> 1%nat ->
       BB.lnlike m lc self theta
       = (log ++ [phased_obs_call], Raises ValueError))
      /\ (forall v chi_h chi_pri chi_sec,
            Kp = [v] ->
            chi_square (BB.h_obs_mags (BB.data self))
              (BB.h_obs_mag_errors (BB.data self)) h_inds H = Returns chi_h ->
            BB.chi_square_rv (BB.obs_rv_pri (BB.data self))
              (BB.obs_rv_pri_errors (BB.data self)) rv_inds RVs_pri
            = Returns chi_pri ->
            BB.chi_square_rv (BB.obs_rv_sec (BB.data self))
              (BB.obs_rv_sec_errors (BB.data self)) rv_inds RVs_sec
            = Returns chi_sec ->
            BB.lnlike m lc self theta
            = (log ++ [phased_obs_call],
               Returns ((-0.5)
                        * (((Np.sum (terms_all kp_o
                                       (repeat v (List.length kp_o)) kp_e)
                             + chi_h) + chi_pri) + chi_sec))))).
Proof.
  split.
  - intros lcfit m lc self theta u log Kp H kp_days kp_inds kp_times
           h_days h_inds h_times kp_o kp_e Hu Hm Hok Hph Ho He.
    rewrite (rad_lnlike_outcome _ _ _ _ Hu Hm Hok Hph). split.
    + intros Hn H1 H2.
      now rewrite (@chi_square_mismatch _ _ _ _ _ Ho Hn H1 H2).
    + intros v chi_h -> Hh.
      now rewrite (@chi_square_scalar_model _ _ _ _ _ _ Ho He), Hh.
  - intros lcfit m lc self theta u log Kp H RVs_pri RVs_sec kp_days kp_inds
           kp_times h_days h_inds h_times rv_days rv_inds rv_times kp_o kp_e
           Hu Hm Hok Hph Ho He.
    rewrite (bb_lnlike_outcome _ _ _ _ Hu Hm Hok Hph). split.
    + intros Hn H1 H2.
      now rewrite (@chi_square_mismatch _ _ _ _ _ Ho Hn H1 H2).
    + intros v chi_h chi_pri chi_sec -> Hh Hp Hs.
      now rewrite (@chi_square_scalar_model _ _ _ _ _ _ Ho He), Hh, Hp, Hs.
Qed.

Lemma lnlike_model_of_another_length_witness :
  RadInterp.lnlike libm0 rad_lc_three rad_fit theta_rad
  = (rad_log_full, Raises ValueError)
  /\ calls (RadInterp.lnlike libm0 rad_lc_one rad_fit theta_rad) = rad_log_full
  /\ returns_finite (result (RadInterp.lnlike libm0 rad_lc_one rad_fit
                               theta_rad)) = true.
Proof.
  destruct lnlike_model_of_another_length as [HR _]. split.
  - edestruct (HR float libm0 rad_lc_three rad_fit theta_rad) as [H _];
      [reflexivity | reflexivity | | reflexivity .. | ].
    + do 4 eexists. split; [reflexivity|]. split; [reflexivity|].
      split; reflexivity.
    + apply H; cbn; discriminate.
  - edestruct (HR float libm0 rad_lc_one rad_fit theta_rad) as [_ H];
      [reflexivity | reflexivity | | reflexivity .. | ].
    + do 4 eexists. split; [reflexivity|]. split; [reflexivity|].
      split; reflexivity.
    + erewrite H; [|reflexivity|reflexivity].
      split; vm_compute; reflexivity.
Defined.

(** ** Requirements on the order of the two stars *)

Lemma eqb_ltb_false (x y : float) :
  (x =? y) = true -> (x <? y) = false /\ (y <? x) = false.
Proof.
  rewrite FloatAxioms.eqb_spec, !ltb_spec. unfold SFeqb, SFltb. intros H.
  destruct (SFcompare (Prim2SF x) (Prim2SF y)) as [[| |]|] eqn:E;
    try discriminate H.
  split; [reflexivity|].
  destruct (SFcompare (Prim2SF y) (Prim2SF x)) as [[| |]|] eqn:E';
    try reflexivity.
  apply SFcompare_Lt_swap in E'. congruence.
Qed.

Ltac all_false := repeat (rewrite ?andb_false_r; cbn [andb]); reflexivity.

Lemma bb_lnprior_contradictory {lcfit} m (self : BB.mcmc_fitter_bb lcfit)
    theta u :
  BB.lnprior_unpack (BB.params self) theta = Returns u ->
  bb_ordering_refused (BB.params self) (BB.priors self) u = false ->
  bb_ordering_contradictory (BB.params self) = true ->
  BB.lnprior m self theta = Returns (BB.Number neg_infinity).
Proof.
  intros Hu Href Hc. open_lnprior Hu Href.
  unfold bb_ordering_contradictory in Hc.
  destruct (BB.H_ext_mod_alpha_sig_bound (BB.priors self) =? (-1)) eqn:Hsig;
    destruct (BB.star1_teff_sig_bound (BB.priors self)) eqn:Hteff;
    cbv zeta iota beta; cbn [negb andb] in *;
    split_orb Hc; apply andb_true_iff in Hc; destruct Hc as [H1 H2];
    rewrite H1, H2;
    match goal with
    | |- context [?a <? ?b] =>
        destruct (a <? b) eqn:E;
        [rewrite (@ltb_asym _ _ E) | ]; all_false
    end.
Qed.

Lemma bb_lnprior_tied {lcfit} m (self : BB.mcmc_fitter_bb lcfit) theta u :
  BB.lnprior_unpack (BB.params self) theta = Returns u ->
  bb_ordering_refused (BB.params self) (BB.priors self) u = false ->
  bb_ordering_tied (BB.params self) u = true ->
  BB.lnprior m self theta = Returns (BB.Number neg_infinity).
Proof.
  intros Hu Href Hc. open_lnprior Hu Href.
  unfold bb_ordering_tied in Hc.
  destruct (BB.H_ext_mod_alpha_sig_bound (BB.priors self) =? (-1)) eqn:Hsig;
    destruct (BB.star1_teff_sig_bound (BB.priors self)) eqn:Hteff;
    cbv zeta iota beta; cbn [negb andb] in *;
    split_orb Hc; apply andb_true_iff in Hc; destruct Hc as [H1 H2];
    destruct (@eqb_ltb_false _ _ H2) as [E1 E2]; rewrite E1, E2;
    apply orb_true_iff in H1; destruct H1 as [H1|H1]; rewrite H1;
    all_false.
Qed.

(** X23. The relational requirements of the blackbody fitter are strict
    inequalities. When both stars are required to have the larger mass,
    radius or temperature, and when a quantity under such a requirement
    is equal for the two stars, [lnprior] is minus infinity in every prior
    mode and [lnprob] returns minus infinity without calling the forward
    model, unless a requirement compares a stellar quantity that is not
    read from [theta] with a number of [theta]: then both raise
    [UnitConversionError]. *)
Theorem ordering_requirements_are_strict :
  forall lcfit m lc (self : BB.mcmc_fitter_bb lcfit) theta u,
    BB.lnprior_unpack (BB.params self) theta = Returns u ->
    bb_ordering_contradictory (BB.params self) = true
    \/ bb_ordering_tied (BB.params self) u = true ->
    BB.lnprior m self theta
    = rejects_or_raises
        (bb_ordering_refused (BB.params self) (BB.priors self) u)
    /\ BB.lnprob m lc self theta
       = posterior_rejects_or_raises
           (bb_ordering_refused (BB.params self) (BB.priors self) u).
Proof.
  intros lcfit m lc self theta u Hu H.
  apply (@bb_rejects_or_raises _ m lc self theta u Hu). intros Href.
  destruct H as [H|H].
  - now apply (@bb_lnprior_contradictory _ m self theta u).
  - now apply (@bb_lnprior_tied _ m self theta u).
Qed.

Lemma ordering_requirements_are_strict_witness :
  BB.lnprob libm0 bb_lc (bb_fit_ordered true true false) theta_bb
  = ([], Returns neg_infinity)
  /\ BB.lnprob libm0 bb_lc (bb_fit_ordered false false true) theta_bb_same_rad
     = ([], Returns neg_infinity)
  /\ BB.lnprior libm0 (bb_fit_ordered false false true) theta_bb
     = Returns (BB.Number 0)
  /\ BB.lnprob libm0 bb_lc bb_fit_fixed_mass theta_bb_fixed_mass_tied
     = ([], Raises UnitConversionError).
Proof.
  split; [|split; [|split]].
  - apply (@ordering_requirements_are_strict float libm0 bb_lc
             (bb_fit_ordered true true false) theta_bb _ eq_refl).
    left. reflexivity.
  - apply (@ordering_requirements_are_strict float libm0 bb_lc
             (bb_fit_ordered false false true) theta_bb_same_rad _ eq_refl).
    right. reflexivity.
  - reflexivity.
  - apply (@ordering_requirements_are_strict float libm0 bb_lc
             bb_fit_fixed_mass theta_bb_fixed_mass_tied _ eq_refl).
    right. reflexivity.
Defined.

(** ** Model arrays without a first element *)

Lemma either_failed_missing (Kp H : ndarray) :
  first_element_missing Kp H -> either_failed Kp H = Raises IndexError.
Proof.
  intros [->|(k & Kp' & -> & Hk & ->)]; [reflexivity|].
  unfold either_failed, is_sentinel. cbn. now rewrite Hk.
Qed.

(** X14. A magnitude array without a first element makes the check of the
    failure value raise [IndexError]: in the radius-interpolation fitter
    after the first single-star run, in the blackbody fitter, which gets
    to its binary run when the distance is not read from [theta], after
    the binary run; [lnlike] raises with the same call log. *)
Theorem empty_model_array_raises_IndexError :
  (forall lcfit m lc (self : RadInterp.mcmc_fitter_rad_interp lcfit) theta u,
      RadInterp.unpack (RadInterp.model_eccentricity self) theta = Returns u ->
      let iso := RadInterp.isochrone self in
      let star1 := snd (RadInterp.rad_interp iso (RadInterp.star1_rad_t u)) in
      let single :=
        RadInterp.single_star_lc lc star1 (RadInterp.use_blackbody_atm self)
          (RadInterp.model_numTriangles self) in
      first_element_missing (fst single) (snd single) ->
      RadInterp.calculate_model_lc m lc self theta
      = ([rad_interp_call; rad_interp_call; single_star_lc_call],
         Raises IndexError)
      /\ RadInterp.lnlike m lc self theta
         = ([rad_interp_call; rad_interp_call; single_star_lc_call],
            Raises IndexError))
  /\
  (forall lcfit m lc (self : BB.mcmc_fitter_bb lcfit) theta u ext_kp ext_h,
      BB.calculate_model_obs_unpack (BB.params self) theta = Returns u ->
      BB.dict_get (BB.filts_ext (BB.setup self)) BB.kp_filt = Returns ext_kp ->
      BB.dict_get (BB.filts_ext (BB.setup self)) BB.h_filt = Returns ext_h ->
      let obj := BB.bb_params_obj (BB.setup self) in
      let star1 :=
        snd (BB.calc_stellar_params obj (BB.value (BB.star1_mass u))
               (BB.value (BB.star1_rad u)) (BB.value (BB.star1_teff u))) in
      let star2 :=
        snd (BB.calc_stellar_params obj (BB.value (BB.star2_mass u))
               (BB.value (BB.star2_rad u)) (BB.value (BB.star2_teff u))) in
      let binary :=
        BB.binary_star_lc lc star1 star2
          (BB.value (BB.binary_period u), BB.value (BB.binary_ecc u),
           BB.value (BB.binary_inc u), BB.value (BB.t0 u))
          (BB.observation_times (BB.data self))
          (BB.use_blackbody_atm (BB.options self))
          (BB.model_compact (BB.options self))
          (BB.irrad_frac_refl (BB.options self))
          (BB.model_numTriangles (BB.options self)) in
      let mags := fst (fst binary) in
      BB.model_distance (BB.params self) = false ->
      first_element_missing (fst mags) (snd mags) ->
      BB.calculate_model_obs m lc self theta
      = ([calc_stellar_params_call; calc_stellar_params_call;
          binary_star_lc_call],
         Raises IndexError)
      /\ BB.lnlike m lc self theta
         = ([calc_stellar_params_call; calc_stellar_params_call;
             binary_star_lc_call],
            Raises IndexError)).
Proof.
  split.
  - intros lcfit m lc self theta u Hu iso star1 single.
    subst single star1 iso. cbv beta. intros Hmiss.
    assert (Hm : RadInterp.calculate_model_lc m lc self theta
                 = ([rad_interp_call; rad_interp_call; single_star_lc_call],
                    Raises IndexError)).
    { unfold RadInterp.calculate_model_lc. rewrite Hu, bind_lift_returns.
      destruct (RadInterp.rad_interp _ (RadInterp.star1_rad_t u))
        as [pa1 lf1].
      destruct (RadInterp.rad_interp _ (RadInterp.star2_rad_t u))
        as [pa2 lf2].
      cbn [fst snd] in *.
      destruct (RadInterp.single_star_lc lc lf1 _ _) as [k1 h1] eqn:E1.
      cbn [fst snd] in Hmiss.
      rewrite !bind_invoke; cbn [fst snd]; rewrite E1.
      rewrite (either_failed_missing Hmiss), bind_lift_raises. reflexivity. }
    split; [exact Hm|].
    unfold RadInterp.lnlike. now rewrite Hu, bind_lift_returns, Hm, bind_raises.
  - intros lcfit m lc self theta u ext_kp ext_h Hu Hkp Hh
           obj star1 star2 binary mags.
    subst mags binary star1 star2 obj. cbv beta. intros Hd Hmiss.
    assert (Hm : BB.calculate_model_obs m lc self theta
                 = ([calc_stellar_params_call; calc_stellar_params_call;
                     binary_star_lc_call], Raises IndexError)).
    { unfold BB.calculate_model_obs, BB.dist_modulus.
      rewrite Hu, bind_lift_returns, Hkp, bind_lift_returns, Hh,
        bind_lift_returns, Hd, bind_lift_returns.
      destruct (BB.calc_stellar_params _ (BB.value (BB.star1_mass u)) _ _)
        as [pa1 lf1].
      destruct (BB.calc_stellar_params _ (BB.value (BB.star2_mass u)) _ _)
        as [pa2 lf2].
      cbn [fst snd] in *.
      destruct (BB.binary_star_lc lc lf1 lf2 _ _ _ _ _ _)
        as [[[kb hb] rp] rs] eqn:E.
      cbn [fst snd] in Hmiss.
      rewrite !bind_invoke; cbn [fst snd]; rewrite E.
      rewrite (either_failed_missing Hmiss), bind_lift_raises. reflexivity. }
    split; [exact Hm|].
    unfold BB.lnlike.
    change (BB.lnlike_unpack (BB.params self) theta)
      with (BB.calculate_model_obs_unpack (BB.params self) theta).
    now rewrite Hu, bind_lift_returns, Hm, bind_raises.
Qed.

Lemma empty_model_array_raises_IndexError_witness :
  RadInterp.lnlike libm0 lc_rad_single_empty rad_fit theta_rad
  = ([rad_interp_call; rad_interp_call; single_star_lc_call],
     Raises IndexError)
  /\ BB.lnlike libm0 bb_lc_empty bb_fit theta_bb
     = (bb_log_to_binary, Raises IndexError).
Proof.
  destruct empty_model_array_raises_IndexError as [HR HB]. split.
  - apply (HR float libm0 lc_rad_single_empty rad_fit theta_rad _ eq_refl).
    left. reflexivity.
  - apply (HB float libm0 bb_lc_empty bb_fit theta_bb _ _ _
             eq_refl eq_refl eq_refl eq_refl).
    left. reflexivity.
Defined.

(** ** The sign of the likelihood *)

Lemma binary_round_aux_sign (s : bool) (mx ex : Z) (l : location) :
  sf_sign_is s (binary_round_aux prec emax s mx ex l).
Proof.
  unfold binary_round_aux, sf_sign_is.
  destruct (shr_fexp prec emax mx ex l) as [mrs' e'].
  destruct (shr_fexp prec emax _ e' loc_Exact) as [mrs'' e''].
  destruct (shr_m mrs'') as [|p|p].
  - right. left. reflexivity.
  - destruct (e'' <=? emax - prec)%Z.
    + right. right. right. eauto.
    + right. right. left. reflexivity.
  - left. reflexivity.
Qed.

Lemma sf_sign_is_clear (x : spec_float) :
  sf_sign_is false x -> sf_sign_clear x = true.
Proof. intros [->|[->|[->|(mx & ex & ->)]]]; reflexivity. Qed.

Lemma mul_self_sign_clear (x : float) : sign_clear (x * x) = true.
Proof.
  unfold sign_clear. rewrite mul_spec.
  change (sf_sign_clear (SF64mul (Prim2SF x) (Prim2SF x)) = true).
  unfold SF64mul, SFmul. destruct (Prim2SF x) as [s|s| |s mx ex]; cbn;
    rewrite ?xorb_nilpotent; try reflexivity.
  apply sf_sign_is_clear. apply binary_round_aux_sign.
Qed.

Lemma div_sign_clear (x y : float) :
  sign_clear x = true -> sign_clear y = true -> sign_clear (x / y) = true.
Proof.
  unfold sign_clear. rewrite div_spec.
  change (sf_sign_clear (Prim2SF x) = true -> sf_sign_clear (Prim2SF y) = true
          -> sf_sign_clear (SF64div (Prim2SF x) (Prim2SF y)) = true).
  unfold SF64div, SFdiv.
  destruct (Prim2SF x) as [sx|sx| |sx mx ex],
    (Prim2SF y) as [sy|sy| |sy my ey]; cbn;
    intros Hx Hy; try reflexivity;
    try (apply negb_true_iff in Hx; subst sx);
    try (apply negb_true_iff in Hy; subst sy); try reflexivity.
  destruct (SFdiv_core_binary prec emax (Z.pos mx) ex (Z.pos my) ey)
    as [[mz ez] lz].
  apply sf_sign_is_clear. apply binary_round_aux_sign.
Qed.

Lemma add_sign_clear (x y : float) :
  sign_clear x = true -> sign_clear y = true -> sign_clear (x + y) = true.
Proof.
  unfold sign_clear. rewrite add_spec.
  change (sf_sign_clear (Prim2SF x) = true -> sf_sign_clear (Prim2SF y) = true
          -> sf_sign_clear (SF64add (Prim2SF x) (Prim2SF y)) = true).
  unfold SF64add, SFadd.
  destruct (Prim2SF x) as [sx|sx| |sx mx ex],
    (Prim2SF y) as [sy|sy| |sy my ey]; cbn [sf_sign_clear];
    intros Hx Hy; try reflexivity;
    try (apply negb_true_iff in Hx; subst sx);
    try (apply negb_true_iff in Hy; subst sy); try reflexivity.
  cbn [cond_Zopp]. cbn [Z.add]. unfold binary_normalize, binary_round.
  destruct (shl_align _ _ _) as [mz ez].
  apply sf_sign_is_clear. apply binary_round_aux_sign.
Qed.

Lemma fold_add_sign_clear (l : ndarray) :
  forall acc,
    sign_clear acc = true ->
    Forall (fun x => sign_clear x = true) l ->
    sign_clear (fold_left add l acc) = true.
Proof.
  induction l as [|x l IH]; intros acc Hacc Hl.
  - exact Hacc.
  - cbn. inversion Hl; subst. apply IH; [|assumption].
    now apply add_sign_clear.
Qed.

Lemma sum_unrolled_sign_clear (n : nat) :
  forall l r0 r1 r2 r3 r4 r5 r6 r7,
    (List.length l <= n)%nat ->
    sign_clear r0 = true -> sign_clear r1 = true ->
    sign_clear r2 = true -> sign_clear r3 = true ->
    sign_clear r4 = true -> sign_clear r5 = true ->
    sign_clear r6 = true -> sign_clear r7 = true ->
    Forall (fun x => sign_clear x = true) l ->
    sign_clear (Np.sum_unrolled r0 r1 r2 r3 r4 r5 r6 r7 l) = true.
Proof.
  induction n as [|n IH]; intros l r0 r1 r2 r3 r4 r5 r6 r7 Hn
    H0 H1 H2 H3 H4 H5 H6 H7 Hl.
  - destruct l; [|cbn in Hn; lia]. cbn.
    repeat apply add_sign_clear; assumption.
  - destruct l as [|x0 [|x1 [|x2 [|x3 [|x4 [|x5 [|x6 [|x7 rest]]]]]]]];
      cbn [Np.sum_unrolled].
    1-8: apply fold_add_sign_clear; [|assumption];
      repeat apply add_sign_clear; assumption.
    repeat match goal with
           | H : Forall _ (_ :: _) |- _ => inversion H; subst; clear H
           end.
    apply IH; try (now apply add_sign_clear); [|assumption].
    cbn in Hn. lia.
Qed.

Lemma sum_block_sign_clear (l : ndarray) :
  Forall (fun x => sign_clear x = true) l ->
  sign_clear (Np.sum_block l) = true.
Proof.
  intros Hl. unfold Np.sum_block.
  destruct l as [|x0 [|x1 [|x2 [|x3 [|x4 [|x5 [|x6 [|x7 rest]]]]]]]].
  1-8: now apply fold_add_sign_clear.
  repeat match goal with
         | H : Forall _ (_ :: _) |- _ => inversion H; subst; clear H
         end.
  now apply (@sum_unrolled_sign_clear (List.length rest)).
Qed.

Lemma pairwise_sum_sign_clear (depth : nat) :
  forall l,
    Forall (fun x => sign_clear x = true) l ->
    sign_clear (Np.pairwise_sum depth l) = true.
Proof.
  induction depth as [|depth IH]; intros l Hl; cbn [Np.pairwise_sum];
    destruct (List.length l <=? 128)%nat;
    try (now apply sum_block_sign_clear).
  rewrite <- (firstn_skipn
                (List.length l / 2 - (List.length l / 2) mod 8) l) in Hl.
  apply Forall_app in Hl as [Hl1 Hl2].
  apply add_sign_clear; now apply IH.
Qed.

(** The splitting of the pairwise sum never runs out of depth: any bound
    from the length of the array on gives the same sum. *)
Lemma pairwise_sum_depth (d1 : nat) :
  forall d2 l,
    (List.length l <= d1)%nat -> (List.length l <= d2)%nat ->
    Np.pairwise_sum d1 l = Np.pairwise_sum d2 l.
Proof.
  induction d1 as [|d1 IH]; intros d2 l H1 H2.
  - destruct l; [|cbn in H1; lia]. destruct d2; reflexivity.
  - destruct d2 as [|d2].
    + destruct l; [|cbn in H2; lia]. reflexivity.
    + cbn [Np.pairwise_sum].
      destruct (List.length l <=? 128)%nat eqn:E; [reflexivity|].
      apply Nat.leb_gt in E.
      assert (Hn2 : (1 <= List.length l / 2 - (List.length l / 2) mod 8
                     < List.length l)%nat).
      { pose proof (Nat.mod_upper_bound (List.length l / 2) 8).
        pose proof (Nat.div_lt (List.length l) 2).
        assert (64 <= List.length l / 2)%nat
          by (apply (Nat.div_le_lower_bound _ 2 64); lia).
        lia. }
      f_equal; apply IH; rewrite ?length_firstn, ?length_skipn; lia.
Qed.

Lemma sum_sign_clear (l : ndarray) :
  Forall (fun x => sign_clear x = true) l -> sign_clear (Np.sum l) = true.
Proof.
  intros Hl. unfold Np.sum.
  apply add_sign_clear; [reflexivity|]. now apply pairwise_sum_sign_clear.
Qed.

Lemma isnan_of_spec (x : float) : Prim2SF x = S754_nan -> isnan x = true.
Proof.
  intros H. unfold isnan, is_nan. rewrite FloatAxioms.eqb_spec, H. reflexivity.
Qed.

Lemma minus_half_times_sign_clear (s : float) :
  sign_clear s = true ->
  never_positive (Returns ((-0.5) * s)) = true.
Proof.
  unfold sign_clear, never_positive. intros Hs.
  destruct (Prim2SF ((-0.5) * s)) as [sr|sr| |sr mr er] eqn:E.
  all: try (rewrite (isnan_of_spec _ E); reflexivity).
  all: rewrite leb_spec, E; change (Prim2SF 0) with (S754_zero false);
    rewrite mul_spec in E;
    change (Prim2SF (-0.5)) with (S754_finite true 4503599627370496 (-53)) in E;
    unfold SF64mul, SFmul in E;
    destruct (Prim2SF s) as [ss|ss| |ss ms es]; try discriminate E;
    apply negb_true_iff in Hs; subst ss; cbn [xorb] in E.
  all: try (injection E as <-; rewrite orb_true_r; reflexivity).
  all: try (injection E as <- _ _; rewrite orb_true_r; reflexivity).
  all: destruct (binary_round_aux_sign true
                   (Z.pos (4503599627370496 * ms)) (-53 + es) loc_Exact)
         as [H|[H|[H|(mx & ex & H)]]]; rewrite H in E; try discriminate E.
  all: try (injection E as <-; rewrite orb_true_r; reflexivity).
  all: try (injection E as <- _ _; rewrite orb_true_r; reflexivity).
Qed.

Lemma broadcast_Forall (P : float -> Prop) f (a b q : ndarray) :
  broadcast f a b = Returns q ->
  (forall x y, In x a -> In y b -> P (f x y)) ->
  Forall P q.
Proof.
  unfold broadcast. intros H Hf.
  assert (Hmap_l : forall x, In x a -> Forall P (map (fun y => f x y) b)).
  { intros x Hx. apply Forall_forall. intros z Hz.
    apply in_map_iff in Hz as (y & <- & Hy). now apply Hf. }
  assert (Hmap_r : forall y, In y b -> Forall P (map (fun x => f x y) a)).
  { intros y Hy. apply Forall_forall. intros z Hz.
    apply in_map_iff in Hz as (x & <- & Hx). now apply Hf. }
  destruct (Nat.eqb (List.length a) (List.length b)).
  - injection H as <-. apply Forall_forall. intros z Hz.
    apply in_map_iff in Hz as ([x y] & <- & Hxy). cbn.
    apply Hf; [apply (in_combine_l _ _ _ _ Hxy) | apply (in_combine_r _ _ _ _ Hxy)].
  - destruct a as [|x [|x' a]].
    + destruct b as [|y [|y' b]]; try discriminate H.
      injection H as <-. apply (Hmap_r y). now left.
    + injection H as <-. apply (Hmap_l x). now left.
    + destruct b as [|y [|y' b]]; try discriminate H.
      injection H as <-. apply (Hmap_r y). now left.
Qed.

Lemma square_sign_clear (a : ndarray) :
  forall x, In x (square a) -> sign_clear x = true.
Proof.
  unfold square. intros x Hx. apply in_map_iff in Hx as (y & <- & _).
  apply mul_self_sign_clear.
Qed.

Lemma quotient_of_squares_sum (d e q : ndarray) :
  broadcast div (square d) (square e) = Returns q ->
  sign_clear (Np.sum q) = true.
Proof.
  intros H. apply sum_sign_clear.
  apply (broadcast_Forall (fun x => sign_clear x = true) _ _ _ H).
  intros x y Hx Hy. apply div_sign_clear; eapply square_sign_clear; eassumption.
Qed.

Lemma chi_square_sign_clear (obs errors : ndarray) (inds : list Z)
    (model : ndarray) (c : float) :
  chi_square obs errors inds model = Returns c -> sign_clear c = true.
Proof.
  unfold chi_square.
  destruct (take obs inds) as [o|]; [|discriminate]. cbn [obind].
  destruct (broadcast sub o model) as [d|]; [|discriminate]. cbn [obind].
  destruct (take errors inds) as [e|]; [|discriminate]. cbn [obind].
  destruct (broadcast div (square d) (square e)) as [q|] eqn:E;
    [|discriminate].
  cbn [obind]. intros [= <-]. now apply (quotient_of_squares_sum _ _ E).
Qed.

Lemma chi_square_rv_sign_clear (obs_rv obs_rv_errors : ndarray)
    (inds : list Z) (model : ndarray) (c : float) :
  BB.chi_square_rv obs_rv obs_rv_errors inds model = Returns c ->
  sign_clear c = true.
Proof.
  unfold BB.chi_square_rv.
  destruct (take obs_rv inds) as [obs|]; [|discriminate]. cbn [obind].
  destruct (take obs_rv_errors inds) as [errors|]; [|discriminate].
  cbn [obind].
  destruct (take obs (where_not_nan obs)) as [o|]; [|discriminate].
  cbn [obind].
  destruct (take model (where_not_nan obs)) as [mo|]; [|discriminate].
  cbn [obind].
  destruct (broadcast sub o mo) as [d|]; [|discriminate]. cbn [obind].
  destruct (take errors (where_not_nan obs)) as [e|]; [|discriminate].
  cbn [obind].
  destruct (broadcast div (square d) (square e)) as [q|] eqn:E;
    [|discriminate].
  cbn [obind]. intros [= <-]. now apply (quotient_of_squares_sum _ _ E).
Qed.

(** X15. A likelihood that [lnlike] returns is NaN or at most zero: the
    chi-square terms are quotients of squares, their sums carry no sign
    bit, and the result is minus one half of their sum, or minus
    infinity. In both fitters. *)
Theorem lnlike_is_never_positive :
  (forall lcfit m lc (self : RadInterp.mcmc_fitter_rad_interp lcfit) theta,
      never_positive (result (RadInterp.lnlike m lc self theta)) = true)
  /\
  (forall lcfit m lc (self : BB.mcmc_fitter_bb lcfit) theta,
      never_positive (result (BB.lnlike m lc self theta)) = true).
Proof.
  split.
  - intros lcfit m lc self theta. unfold RadInterp.lnlike.
    destruct (RadInterp.unpack _ theta) as [u|e];
      [rewrite bind_lift_returns | rewrite bind_lift_raises; reflexivity].
    destruct (RadInterp.calculate_model_lc m lc self theta)
      as [log [[Kp H]|e]];
      [rewrite bind_returns | rewrite bind_raises; reflexivity].
    unfold result. cbn [snd].
    destruct (either_failed Kp H) as [[|]|e];
      [rewrite bind_lift_returns; reflexivity
      | rewrite bind_lift_returns
      | rewrite bind_lift_raises; reflexivity].
    rewrite bind_invoke. cbn [snd].
    destruct (RadInterp.phased_obs lc _ _ _)
      as [[[kp_days kp_inds] kp_times] [[h_days h_inds] h_times]].
    destruct (chi_square (RadInterp.kp_obs_mags self) _ kp_inds Kp)
      as [a|e] eqn:Ea;
      [rewrite bind_lift_returns | rewrite bind_lift_raises; reflexivity].
    destruct (chi_square (RadInterp.h_obs_mags self) _ h_inds H)
      as [b|e] eqn:Eb;
      [rewrite bind_lift_returns | rewrite bind_lift_raises; reflexivity].
    cbn [ret snd]. apply minus_half_times_sign_clear.
    apply add_sign_clear; eapply chi_square_sign_clear; eassumption.
  - intros lcfit m lc self theta. unfold BB.lnlike.
    destruct (BB.lnlike_unpack _ theta) as [u|e];
      [rewrite bind_lift_returns | rewrite bind_lift_raises; reflexivity].
    destruct (BB.calculate_model_obs m lc self theta)
      as [log [[[[Kp H] RVs_pri] RVs_sec]|e]];
      [rewrite bind_returns | rewrite bind_raises; reflexivity].
    unfold result. cbn [snd].
    destruct (either_failed Kp H) as [[|]|e];
      [rewrite bind_lift_returns; reflexivity
      | rewrite bind_lift_returns
      | rewrite bind_lift_raises; reflexivity].
    rewrite bind_invoke. cbn [snd].
    destruct (BB.phased_obs lc _ _ _)
      as [[[[kp_days kp_inds] kp_times] [[h_days h_inds] h_times]]
          [[rv_days rv_inds] rv_times]].
    destruct (chi_square (BB.kp_obs_mags (BB.data self)) _ kp_inds Kp)
      as [a|e] eqn:Ea;
      [rewrite bind_lift_returns | rewrite bind_lift_raises; reflexivity].
    destruct (chi_square (BB.h_obs_mags (BB.data self)) _ h_inds H)
      as [b|e] eqn:Eb;
      [rewrite bind_lift_returns | rewrite bind_lift_raises; reflexivity].
    cbn [BB.np_where_eq List.length Nat.ltb Nat.leb].
    destruct (BB.chi_square_rv (BB.obs_rv_pri (BB.data self)) _ rv_inds
                RVs_pri) as [c|e] eqn:Ec;
      [rewrite bind_lift_returns, bind_ret
      | rewrite bind_lift_raises, bind_raises; reflexivity].
    destruct (BB.chi_square_rv (BB.obs_rv_sec (BB.data self)) _ rv_inds
                RVs_sec) as [d|e] eqn:Ed;
      [rewrite bind_lift_returns, bind_ret
      | rewrite bind_lift_raises, bind_raises; reflexivity].
    cbn [ret snd]. apply minus_half_times_sign_clear.
    repeat apply add_sign_clear;
      try (eapply chi_square_sign_clear; eassumption);
      eapply chi_square_rv_sign_clear; eassumption.
Qed.

(** ** The observation setters *)

Lemma getitem_of_app {A} (pre : list A) (x : A) (rest : list A) :
  Observations.getitem_of (pre ++ x :: rest) (Z.of_nat (List.length pre))
  = Returns x.
Proof.
  assert (H1 : (Z.of_nat (List.length pre) <? 0)%Z = false)
    by (apply Z.ltb_ge; lia).
  assert (H2 : (Z.of_nat (List.length (pre ++ x :: rest))
                <=? Z.of_nat (List.length pre))%Z = false)
    by (apply Z.leb_gt; rewrite length_app; cbn; lia).
  unfold Observations.getitem_of. cbv zeta. rewrite H1. cbv iota.
  rewrite H1, H2. cbn [orb].
  rewrite Nat2Z.id, nth_error_app2, Nat.sub_diag by lia. reflexivity.
Qed.

Lemma take_of_positions_from {A} (name : string) (labels : list string) :
  forall (pre a : list A),
    (List.length labels <= List.length a)%nat ->
    Observations.take_of (pre ++ a)
      (BB.positions_from (Z.of_nat (List.length pre)) name labels)
    = Returns (select name labels a).
Proof.
  induction labels as [|l labels IH]; intros pre a Hlen.
  - reflexivity.
  - destruct a as [|x a]; [cbn in Hlen; lia|]. cbn in Hlen.
    assert (Hk : (Z.of_nat (List.length pre) + 1)%Z
                 = Z.of_nat (List.length (pre ++ [x])))
      by (rewrite length_app; cbn; lia).
    assert (Happ : pre ++ x :: a = (pre ++ [x]) ++ a)
      by (rewrite <- app_assoc; reflexivity).
    unfold select. cbn [BB.positions_from combine filter fst].
    destruct (String.eqb l name).
    + cbn [Observations.take_of]. rewrite getitem_of_app. cbn [obind].
      rewrite Hk, Happ, IH by lia. reflexivity.
    + rewrite Hk, Happ. apply IH. lia.
Qed.

Lemma take_of_positions {A} (name : string) (labels : list string)
    (a : list A) :
  (List.length labels <= List.length a)%nat ->
  Observations.take_of a (BB.positions_from 0 name labels)
  = Returns (select name labels a).
Proof. intros H. apply (@take_of_positions_from A name labels [] a H). Qed.

Lemma take_tuple_where {A} (name : string) (labels : list string)
    (a : list A) :
  (List.length labels <= List.length a)%nat ->
  Observations.take_tuple a (BB.np_where_eq labels name)
  = Returns (select name labels a).
Proof. intros H. unfold BB.np_where_eq. cbn. now apply take_of_positions. Qed.

Lemma take_of_app {A} (a : list A) (i1 i2 : list Z) :
  Observations.take_of a (i1 ++ i2)
  = obind (Observations.take_of a i1) (fun x1 =>
    obind (Observations.take_of a i2) (fun x2 => Returns (x1 ++ x2))).
Proof.
  induction i1 as [|i i1 IH]; cbn.
  - destruct (Observations.take_of a i2); reflexivity.
  - destruct (Observations.getitem_of a i); [|reflexivity]. cbn.
    rewrite IH. destruct (Observations.take_of a i1); [|reflexivity]. cbn.
    destruct (Observations.take_of a i2); reflexivity.
Qed.

Lemma select_labels (name : string) (labels : list string) :
  select name labels labels = repeat name (count name labels).
Proof.
  unfold select, count. induction labels as [|l labels IH]; [reflexivity|].
  cbn. destruct (String.eqb_spec l name) as [->|_]; cbn; now rewrite IH.
Qed.

Lemma select_length {A} (name : string) (labels : list string) (a : list A) :
  (List.length labels <= List.length a)%nat ->
  List.length (select name labels a) = count name labels.
Proof.
  unfold select, count. rewrite length_map. revert a.
  induction labels as [|l labels IH]; intros a H; [reflexivity|].
  destruct a as [|x a]; [cbn in H; lia|]. cbn in *.
  destruct (String.eqb l name); cbn; rewrite IH by lia; reflexivity.
Qed.

Lemma select_combine {A B} (name : string) (labels : list string)
    (a : list A) (b : list B) :
  combine (select name labels a) (select name labels b)
  = select name labels (combine a b).
Proof.
  unfold select. revert a b.
  induction labels as [|l labels IH]; intros a b; [reflexivity|].
  destruct a as [|x a]; [reflexivity|].
  destruct b as [|y b].
  - cbn. now rewrite combine_nil.
  - cbn. destruct (String.eqb l name); cbn; now rewrite IH.
Qed.

Lemma map_in_unit (u : BB.unit_name) (a : ndarray) : map (BB.in_unit u) a = a.
Proof. unfold BB.in_unit. apply map_id. Qed.

Lemma set_observation_filts_returns (labels : list string)
    (D : BB.observations) :
  exists ix D',
    Observations.set_observation_filts labels D = Returns (ix, D')
    /\ Observations.search_filt_kp ix = BB.np_where_eq labels "kp"
    /\ Observations.search_filt_h ix = BB.np_where_eq labels "h"
    /\ Observations.search_filt_rv_pri ix = BB.np_where_eq labels "rv_pri"
    /\ Observations.search_filt_rv_sec ix = BB.np_where_eq labels "rv_sec"
    /\ Observations.search_filt_rv ix
       = BB.positions_from 0 "rv_pri" labels
         ++ BB.positions_from 0 "rv_sec" labels
    /\ BB.obs_filts_rv D'
       = repeat "rv_pri"%string (count "rv_pri" labels)
         ++ repeat "rv_sec"%string (count "rv_sec" labels).
Proof.
  unfold Observations.set_observation_filts, Observations.np_append,
    BB.np_where_eq.
  cbn [List.concat]. rewrite !app_nil_r.
  rewrite take_of_app, !take_of_positions by lia. cbn [obind].
  rewrite !select_labels.
  do 2 eexists. repeat split.
Qed.

(** X16. [set_observation_filts] always returns. The index set of the
    radial velocities lists the positions of the primary first and those
    of the secondary after them, so [obs_filts_rv] holds every [rv_pri]
    label before every [rv_sec] label, whatever the order of the
    observations was. *)
Theorem set_observation_filts_groups_rv_labels :
  forall (labels : list string) (D : BB.observations),
    exists ix D',
      Observations.set_observation_filts labels D = Returns (ix, D')
      /\ Observations.search_filt_rv ix
         = BB.positions_from 0 "rv_pri" labels
           ++ BB.positions_from 0 "rv_sec" labels
      /\ BB.obs_filts_rv D'
         = repeat "rv_pri"%string (count "rv_pri" labels)
           ++ repeat "rv_sec"%string (count "rv_sec" labels).
Proof.
  intros labels D.
  destruct (set_observation_filts_returns labels D)
    as (ix & D' & H & _ & _ & _ & _ & Hrv & Hl).
  now exists ix, D'.
Qed.

(** X17. When the arrays are at least as long as the labels,
    [set_observation_times] and [set_observations] return, and every
    array they store holds the entries with its label, in the order
    given: a magnitude or radial velocity stays paired with its own
    error, and an observation with a label other than the four known ones
    is in no array. *)
Theorem observation_setters_select_by_label :
  forall np_unique (labels : list string) (D0 D : BB.observations)
         (obs_times obs obs_errors : ndarray),
    (List.length labels <= List.length obs_times)%nat ->
    (List.length labels <= List.length obs)%nat ->
    (List.length labels <= List.length obs_errors)%nat ->
    exists ix D1 Dt Do,
      Observations.set_observation_filts labels D0 = Returns (ix, D1)
      /\ Observations.set_observation_times np_unique ix obs_times D
         = Returns Dt
      /\ BB.observation_times Dt
         = (select "kp" labels obs_times, select "h" labels obs_times,
            np_unique (select "rv_pri" labels obs_times
                       ++ select "rv_sec" labels obs_times))
      /\ Observations.set_observations ix obs obs_errors D = Returns Do
      /\ (BB.kp_obs_mags Do = select "kp" labels obs
          /\ BB.kp_obs_mag_errors Do = select "kp" labels obs_errors
          /\ BB.h_obs_mags Do = select "h" labels obs
          /\ BB.h_obs_mag_errors Do = select "h" labels obs_errors
          /\ BB.obs_rv_pri Do = select "rv_pri" labels obs
          /\ BB.obs_rv_pri_errors Do = select "rv_pri" labels obs_errors
          /\ BB.obs_rv_sec Do = select "rv_sec" labels obs
          /\ BB.obs_rv_sec_errors Do = select "rv_sec" labels obs_errors)
      /\ (combine (BB.kp_obs_mags Do) (BB.kp_obs_mag_errors Do)
          = select "kp" labels (combine obs obs_errors)
          /\ combine (BB.h_obs_mags Do) (BB.h_obs_mag_errors Do)
             = select "h" labels (combine obs obs_errors)
          /\ combine (BB.obs_rv_pri Do) (BB.obs_rv_pri_errors Do)
             = select "rv_pri" labels (combine obs obs_errors)
          /\ combine (BB.obs_rv_sec Do) (BB.obs_rv_sec_errors Do)
             = select "rv_sec" labels (combine obs obs_errors)).
Proof.
  intros np_unique labels D0 D obs_times obs obs_errors Ht Ho He.
  destruct (set_observation_filts_returns labels D0)
    as (ix & D1 & H & Hkp & Hh & Hpri & Hsec & Hrv & _).
  exists ix, D1.
  unfold Observations.set_observation_times, Observations.set_observations.
  rewrite Hkp, Hh, Hpri, Hsec, Hrv.
  rewrite take_of_app, !take_tuple_where, !take_of_positions by assumption.
  cbn [obind]. rewrite !map_in_unit.
  do 2 eexists. split; [exact H|]. split; [reflexivity|].
  split; [reflexivity|]. split; [reflexivity|].
  cbn [BB.kp_obs_mags BB.kp_obs_mag_errors BB.h_obs_mags BB.h_obs_mag_errors
       BB.obs_rv_pri BB.obs_rv_pri_errors BB.obs_rv_sec BB.obs_rv_sec_errors].
  rewrite !select_combine. repeat split.
Qed.

Lemma observation_setters_select_by_label_witness :
  exists ix D1 Dt Do,
    Observations.set_observation_filts labels0 blank_data = Returns (ix, D1)
    /\ Observations.set_observation_times np_unique0 ix obs_times0 D1
       = Returns Dt
    /\ BB.observation_times Dt
       = ([51800; 51810], [51805], [51820; 51830])
    /\ Observations.set_observations ix obs0 obs_errors0 D1 = Returns Do
    /\ combine (BB.kp_obs_mags Do) (BB.kp_obs_mag_errors Do)
       = [(12.25, 0.5); (12.5, 0.7)]
    /\ combine (BB.obs_rv_pri Do) (BB.obs_rv_pri_errors Do)
       = [(90, 4); (95, 6)].
Proof.
  destruct (set_observation_filts_returns labels0 blank_data)
    as (ix & D1 & Hf & _).
  destruct (@observation_setters_select_by_label np_unique0 labels0
              blank_data D1 obs_times0 obs0 obs_errors0)
    as (ix' & D1' & Dt & Do & Hf' & Ht & Htimes & Ho & _ & Hkp & _ & Hpri & _);
    [cbn; lia | cbn; lia | cbn; lia |].
  rewrite Hf in Hf'. injection Hf' as <- <-.
  exists ix, D1, Dt, Do.
  split; [exact Hf|]. split; [exact Ht|].
  split; [rewrite Htimes; vm_compute; reflexivity|].
  split; [exact Ho|].
  split; [rewrite Hkp | rewrite Hpri]; vm_compute; reflexivity.
Defined.

(** ** Temperatures above the Castelli and Kurucz grid *)

(** X18. The second rounding rule of [binary_star_mesh] never changes the
    temperature of star 2: its condition repeats the gravity range of the
    first rule, which has already lowered the temperature. A star above
    40000 K with [4.0 < logg < 4.5] is rounded down to 39995 K as star 1
    and keeps its temperature as star 2. *)
Theorem ck2004_rounding_differs_between_the_stars :
  (forall atm t1 g1 t2 g2,
      snd (MeshAnimate.ck2004_teff atm t1 g1 t2 g2)
      = if negb atm && ((31000 <? t2) && ((g2 <? 4.0) && (3.5 <? g2)))
        then 30995.0 else t2)
  /\ (forall t g,
        (40000 <? t) = true -> (4.0 <? g) = true -> (g <? 4.5) = true ->
        MeshAnimate.ck2004_teff false t g t g = (39995.0, t)).
Proof.
  split.
  - intros atm t1 g1 t2 g2. unfold MeshAnimate.ck2004_teff.
    destruct atm; [reflexivity|]. cbn [negb andb snd].
    destruct ((31000 <? t2) && ((g2 <? 4.0) && (3.5 <? g2))) eqn:A.
    + reflexivity.
    + destruct ((g2 <? 4.0) && (3.5 <? g2)) eqn:R;
        [|now rewrite andb_false_r].
      rewrite andb_true_r in A. rewrite andb_true_r.
      destruct (40000 <? t2) eqn:B; [|reflexivity].
      assert (C : (31000 <? 40000) = true) by reflexivity.
      rewrite (@ltb_trans 31000 40000 t2 C B) in A. discriminate.
  - intros t g Ht Hlo Hhi. unfold MeshAnimate.ck2004_teff. cbn [negb].
    rewrite (@ltb_asym _ _ Hlo). cbn [andb]. rewrite ?andb_false_r.
    rewrite Ht, Hlo, Hhi. reflexivity.
Qed.

Lemma ck2004_rounding_differs_between_the_stars_witness :
  MeshAnimate.ck2004_teff false 45000 4.2 45000 4.2 = (39995.0, 45000).
Proof.
  apply (proj2 ck2004_rounding_differs_between_the_stars 45000 4.2);
    reflexivity.
Defined.

(** ** Overflow *)

Lemma overflow_flags_exclusive (r1 r2 r1max r2max : float) :
  let f := MeshAnimate.overflow_checks r1 r2 r1max r2max in
  MeshAnimate.star1_overflow f && MeshAnimate.star2_overflow f = false
  /\ MeshAnimate.star1_semidetached f && MeshAnimate.star1_overflow f = false
  /\ MeshAnimate.star2_semidetached f && MeshAnimate.star2_overflow f = false.
Proof.
  unfold MeshAnimate.overflow_checks.
  destruct (abs ((r1 - r1max) / r1max) <? MeshAnimate.semidet_cut),
    (abs ((r2 - r2max) / r2max) <? MeshAnimate.semidet_cut),
    (r1max <? r1), (r2max <? r2), ((r2 - r2max) <=? (r1 - r1max));
    cbn; auto.
Qed.

(** X19. After the overflow checks at most one star is flagged as
    overflowing. When it is star 2, [binary_star_mesh] calls
    [binary_star_lc], a name this module does not define, and raises
    [NameError]; [binary_mesh_calc] lets it through. *)
Theorem star2_overflow_raises_NameError :
  forall m ph flux_ref_Kp flux_ref_H star1 star2 period ecc inc t0 times
         isoc_Ks_ext Kp_ext H_ext ext_alpha isoc_dist bin_dist
         atm plots temp num_triangles,
    let sma :=
      MeshAnimate.binary_sma ph period (MeshAnimate.star_mass star1)
        (MeshAnimate.star_mass star2) in
    let q := MeshAnimate.star_mass star2 / MeshAnimate.star_mass star1 in
    let rad_max := MeshAnimate.requiv_max ph period sma q inc in
    let f :=
      MeshAnimate.overflow_checks (MeshAnimate.star_rad star1)
        (MeshAnimate.star_rad star2) (fst rad_max) (snd rad_max) in
    MeshAnimate.star2_overflow f = true ->
    MeshAnimate.star1_overflow f = false
    /\ MeshAnimate.binary_star_mesh m ph flux_ref_Kp flux_ref_H star1 star2
         (period, ecc, inc, t0) times atm plots temp num_triangles
       = MeshAnimate.Raise MeshAnimate.NameError
    /\ MeshAnimate.binary_mesh_calc m ph flux_ref_Kp flux_ref_H star1 star2
         (period, ecc, inc, t0) times isoc_Ks_ext Kp_ext H_ext ext_alpha
         isoc_dist bin_dist atm plots temp num_triangles
       = MeshAnimate.Raise MeshAnimate.NameError.
Proof.
  intros m ph fK fH star1 star2 period ecc inc t0 times isoc_Ks_ext Kp_ext
         H_ext ext_alpha isoc_dist bin_dist atm plots temp num_triangles
         sma q rad_max f H2.
  assert (H1 : MeshAnimate.star1_overflow f = false).
  { destruct (overflow_flags_exclusive (MeshAnimate.star_rad star1)
                (MeshAnimate.star_rad star2) (fst rad_max) (snd rad_max))
      as [H _].
    fold f in H. rewrite H2, andb_true_r in H. exact H. }
  assert (Hm : MeshAnimate.binary_star_mesh m ph fK fH star1 star2
                 (period, ecc, inc, t0) times atm plots temp num_triangles
               = MeshAnimate.Raise MeshAnimate.NameError).
  { unfold MeshAnimate.binary_star_mesh.
    destruct (MeshAnimate.ck2004_teff _ _ _ _ _) as [t1 t2].
    fold sma q rad_max. destruct rad_max as [r1max r2max] eqn:E.
    cbn [fst snd] in f. fold f. now rewrite H1, H2. }
  split; [exact H1|]. split; [exact Hm|].
  unfold MeshAnimate.binary_mesh_calc. now rewrite Hm.
Qed.

Lemma star2_overflow_raises_NameError_witness :
  mesh_calc (phoebe0 10 false) (mesh_star 10 5 8000) (mesh_star 8 12 7000)
    false
  = MeshAnimate.Raise MeshAnimate.NameError.
Proof.
  apply (@star2_overflow_raises_NameError libm0 (phoebe0 10 false) 1 1
           (mesh_star 10 5 8000) (mesh_star 8 12 7000) 80 0 90 51773.5).
  reflexivity.
Defined.

(** ** A computation that fails *)

(** X20. When the computation of PHOEBE fails, [binary_star_mesh] returns
    the pair [err_out] also when mesh plots were asked for. The tuple
    assignment of [binary_mesh_calc] then takes three values from two and
    raises [ValueError]; without mesh plots [binary_mesh_calc] returns
    minus infinity. *)
Theorem failed_compute_returns_a_pair :
  forall m ph flux_ref_Kp flux_ref_H star1 star2 period ecc inc t0 times
         isoc_Ks_ext Kp_ext H_ext ext_alpha isoc_dist bin_dist
         atm plots temp num_triangles,
    let sma :=
      MeshAnimate.binary_sma ph period (MeshAnimate.star_mass star1)
        (MeshAnimate.star_mass star2) in
    let q := MeshAnimate.star_mass star2 / MeshAnimate.star_mass star1 in
    let rad_max := MeshAnimate.requiv_max ph period sma q inc in
    let f :=
      MeshAnimate.overflow_checks (MeshAnimate.star_rad star1)
        (MeshAnimate.star_rad star2) (fst rad_max) (snd rad_max) in
    MeshAnimate.star2_overflow f = false ->
    (forall b, MeshAnimate.run_compute ph b = None) ->
    MeshAnimate.binary_star_mesh m ph flux_ref_Kp flux_ref_H star1 star2
      (period, ecc, inc, t0) times atm plots temp num_triangles
    = MeshAnimate.Return (MeshAnimate.Mags [(-1)] [(-1)])
    /\ MeshAnimate.binary_mesh_calc m ph flux_ref_Kp flux_ref_H star1 star2
         (period, ecc, inc, t0) times isoc_Ks_ext Kp_ext H_ext ext_alpha
         isoc_dist bin_dist atm plots temp num_triangles
       = if plots then MeshAnimate.Raise MeshAnimate.ValueError
         else MeshAnimate.Return (MeshAnimate.Number neg_infinity).
Proof.
  intros m ph fK fH star1 star2 period ecc inc t0 times isoc_Ks_ext Kp_ext
         H_ext ext_alpha isoc_dist bin_dist atm plots temp num_triangles
         sma q rad_max f H2 Hrun.
  assert (Hm : MeshAnimate.binary_star_mesh m ph fK fH star1 star2
                 (period, ecc, inc, t0) times atm plots temp num_triangles
               = MeshAnimate.Return (MeshAnimate.Mags [(-1)] [(-1)])).
  { unfold MeshAnimate.binary_star_mesh.
    destruct (MeshAnimate.ck2004_teff _ _ _ _ _) as [t1 t2].
    fold sma q rad_max. destruct rad_max as [r1max r2max] eqn:E.
    cbn [fst snd] in f. fold f. rewrite H2. cbn [andb].
    rewrite Hrun.
    match goal with |- (if ?c then _ else _) = _ => destruct c end;
      reflexivity. }
  split; [exact Hm|].
  unfold MeshAnimate.binary_mesh_calc. rewrite Hm.
  destruct plots; reflexivity.
Qed.

Lemma failed_compute_returns_a_pair_witness :
  mesh_calc (phoebe0 10 true) (mesh_star 10 5 8000) (mesh_star 8 4 7000) true
  = MeshAnimate.Raise MeshAnimate.ValueError
  /\ mesh_calc (phoebe0 10 true) (mesh_star 10 5 8000) (mesh_star 8 4 7000)
       false
     = MeshAnimate.Return (MeshAnimate.Number neg_infinity).
Proof.
  split.
  - apply (@failed_compute_returns_a_pair libm0 (phoebe0 10 true) 1 1
             (mesh_star 10 5 8000) (mesh_star 8 4 7000) 80 0 90 51773.5
             mesh_times 2.5 3 4.5 2.30 8000 8000 false true false 1500%Z);
      reflexivity.
  - apply (@failed_compute_returns_a_pair libm0 (phoebe0 10 true) 1 1
             (mesh_star 10 5 8000) (mesh_star 8 4 7000) 80 0 90 51773.5
             mesh_times 2.5 3 4.5 2.30 8000 8000 false false false 1500%Z);
      reflexivity.
Defined.

(** ** The extinction law of [binary_mesh_calc] *)

(** X21. [binary_mesh_calc] overwrites its argument [ext_alpha] with
    [2.30] before it reads it: the result is the same for every value
    passed. *)
Theorem binary_mesh_calc_ignores_ext_alpha :
  forall m ph flux_ref_Kp flux_ref_H star1 star2 bparams times
         isoc_Ks_ext Kp_ext H_ext ext_alpha ext_alpha' isoc_dist bin_dist
         atm plots temp num_triangles,
    MeshAnimate.binary_mesh_calc m ph flux_ref_Kp flux_ref_H star1 star2
      bparams times isoc_Ks_ext Kp_ext H_ext ext_alpha isoc_dist bin_dist
      atm plots temp num_triangles
    = MeshAnimate.binary_mesh_calc m ph flux_ref_Kp flux_ref_H star1 star2
        bparams times isoc_Ks_ext Kp_ext H_ext ext_alpha' isoc_dist bin_dist
        atm plots temp num_triangles.
Proof. reflexivity. Qed.

(** ** The flux adjustment *)

(** X22. [flux_adj] reads the first element of each single-star array and
    nothing else of them: it raises [IndexError] when one of the four is
    empty, and otherwise returns adjusted arrays of the lengths of the
    binary arrays that are the same as for the one-element arrays. *)
Theorem flux_adj_reads_first_elements :
  forall m flux_ref_Kp flux_ref_H mag_pri_Kp mag_pri_H mags_ref_pri
         mag_sec_Kp mag_sec_H mags_ref_sec mags_bin_Kp mags_bin_H,
    let run pri_Kp pri_H sec_Kp sec_H :=
      MeshAnimate.flux_adj m flux_ref_Kp flux_ref_H (pri_Kp, pri_H)
        mags_ref_pri (sec_Kp, sec_H) mags_ref_sec (mags_bin_Kp, mags_bin_H) in
    (mag_pri_Kp = [] \/ mag_pri_H = [] \/ mag_sec_Kp = [] \/ mag_sec_H = [] ->
     run mag_pri_Kp mag_pri_H mag_sec_Kp mag_sec_H
     = MeshAnimate.Raise MeshAnimate.IndexError)
    /\ (forall a b c d ta tb tc td,
          mag_pri_Kp = a :: ta -> mag_pri_H = b :: tb ->
          mag_sec_Kp = c :: tc -> mag_sec_H = d :: td ->
          run mag_pri_Kp mag_pri_H mag_sec_Kp mag_sec_H = run [a] [b] [c] [d]
          /\ exists adj_Kp adj_H,
               run mag_pri_Kp mag_pri_H mag_sec_Kp mag_sec_H
               = MeshAnimate.Return (adj_Kp, adj_H)
               /\ List.length adj_Kp = List.length mags_bin_Kp
               /\ List.length adj_H = List.length mags_bin_H).
Proof.
  intros m fK fH pK pH [rpK rpH] sK sH [rsK rsH] bK bH run. subst run.
  cbv beta. split.
  - intros H. unfold MeshAnimate.flux_adj.
    destruct pK as [|a ta]; [reflexivity|].
    destruct pH as [|b tb]; [reflexivity|].
    destruct sK as [|c tc]; [reflexivity|].
    destruct sH as [|d td]; [reflexivity|].
    destruct H as [H|[H|[H|H]]]; discriminate H.
  - intros a b c d ta tb tc td -> -> -> ->. split; [reflexivity|].
    unfold MeshAnimate.flux_adj. cbn [MeshAnimate.first MeshAnimate.rbind].
    do 2 eexists. split; [reflexivity|].
    unfold MeshAnimate.mags_of_fluxes. now rewrite !length_map.
Qed.

Lemma flux_adj_reads_first_elements_witness :
  MeshAnimate.flux_adj libm0 1 1 ([], [14]) (12, 14) ([12.5], [14.5])
    (12.5, 14.5) ([13; 13.5], [15; 15.5])
  = MeshAnimate.Raise MeshAnimate.IndexError
  /\ MeshAnimate.flux_adj libm0 1 1 ([12; 0], [14; 0]) (12, 14)
       ([12.5; 0], [14.5; 0]) (12.5, 14.5) ([13; 13.5], [15; 15.5])
     = MeshAnimate.flux_adj libm0 1 1 ([12], [14]) (12, 14) ([12.5], [14.5])
         (12.5, 14.5) ([13; 13.5], [15; 15.5]).
Proof.
  split.
  - apply (proj1 (@flux_adj_reads_first_elements libm0 1 1 [] [14] (12, 14)
                    [12.5] [14.5] (12.5, 14.5) [13; 13.5] [15; 15.5])).
    left. reflexivity.
  - apply (proj2 (@flux_adj_reads_first_elements libm0 1 1 [12; 0] [14; 0]
                    (12, 14) [12.5; 0] [14.5; 0] (12.5, 14.5)
                    [13; 13.5] [15; 15.5])
             12 14 12.5 14.5 [0] [0] [0] [0]); reflexivity.
Defined.
